(** * ovn-kubernetes: configuration, OVN database addresses and cluster subnets

    A shallow embedding of the parts of
    - [go-controller/pkg/config/config.go] (configuration precedence,
      [newOvnDBAuth], [buildOvnAuth], [updateIP], and the commands of
      [getOVSExternalID], [ensureCACert] and [SetDBAuth]),
    - [go-controller/cmd/ovnkube/ovnkube.go] ([parseClusterSubnetEntries],
      [cidrsOverlap], [setupPIDFile], [delPidfile]),
    - the management-port code ([CreateManagementPort],
      [configureManagementPort])
    together with the functions of Go's standard library ([strings],
    [strconv], [net]) these call.  Strings are byte strings ([string]), byte
    slices are lists of [Z], Go's [(T, error)] results are sums with the
    error on the left. *)

From Stdlib Require Import ZArith List String Ascii Bool Lia PeanoNat
  Permutation DecimalString.
Import ListNotations.

Local Open Scope string_scope.
Local Open Scope list_scope.
Local Open Scope Z_scope.

(** ** Go's [strings] package *)

Module strings.

(** [strings.Split(s, sep)] for a one-byte separator, the only way the
    sources call it ([":"], [","], ["/"]).  The result is never empty. *)
Fixpoint Split (s : string) (sep : ascii) : list string :=
  match s with
  | EmptyString => [EmptyString]
  | String c r =>
      if Ascii.eqb c sep then EmptyString :: Split r sep
      else match Split r sep with
           | x :: xs => String c x :: xs
           | [] => [String c EmptyString]
           end
  end.

(** [s[n:]] *)
Fixpoint drop (n : nat) (s : string) : string :=
  match n, s with
  | O, _ => s
  | S n', String _ r => drop n' r
  | S _, EmptyString => EmptyString
  end.

(** [s[:n]] *)
Fixpoint take (n : nat) (s : string) : string :=
  match n, s with
  | O, _ => EmptyString
  | S n', String c r => String c (take n' r)
  | S _, EmptyString => EmptyString
  end.

(** [strings.HasPrefix(s, prefix)] *)
Definition HasPrefix (s pre : string) : bool := String.prefix pre s.

Fixpoint Replace_loop (fuel : nat) (s old new : string) : string :=
  match fuel with
  | O => s
  | S f =>
      match s with
      | EmptyString => EmptyString
      | String c r =>
          if String.prefix old s
          then (new ++ Replace_loop f (drop (String.length old) s) old new)%string
          else String c (Replace_loop f r old new)
      end
  end.

(** [strings.Replace(s, old, new, -1)] for a non-empty [old]: every
    non-overlapping occurrence of [old], scanning from the left, becomes
    [new].  (The source only calls it with [old = "//"].) *)
Definition Replace (s old new : string) : string :=
  Replace_loop (String.length s) s old new.

(** The white space of [unicode.IsSpace], each code point in its UTF-8
    encoding: tab to carriage return and space, U+0085, U+00A0, U+1680,
    U+2000 to U+200A, U+2028, U+2029, U+202F, U+205F and U+3000. *)
Definition bytes (l : list nat) : string :=
  fold_right (fun n s => String (ascii_of_nat n) s) EmptyString l.

Definition whiteSpace : list string :=
  Eval cbv in
    map bytes
      [ [9]; [10]; [11]; [12]; [13]; [32]; [194; 133]; [194; 160];
        [225; 154; 128];
        [226; 128; 128]; [226; 128; 129]; [226; 128; 130]; [226; 128; 131];
        [226; 128; 132]; [226; 128; 133]; [226; 128; 134]; [226; 128; 135];
        [226; 128; 136]; [226; 128; 137]; [226; 128; 138];
        [226; 128; 168]; [226; 128; 169]; [226; 128; 175];
        [226; 129; 159]; [227; 128; 128] ]%nat.

(** [strings.HasSuffix(s, suffix)] *)
Definition HasSuffix (s suf : string) : bool :=
  (String.length suf <=? String.length s)%nat
  && String.eqb (drop (String.length s - String.length suf) s) suf.

Fixpoint TrimLeftSpace (fuel : nat) (s : string) : string :=
  match fuel with
  | O => s
  | S f =>
      match find (fun r => HasPrefix s r) whiteSpace with
      | Some r => TrimLeftSpace f (drop (String.length r) s)
      | None => s
      end
  end.

Fixpoint TrimRightSpace (fuel : nat) (s : string) : string :=
  match fuel with
  | O => s
  | S f =>
      match find (HasSuffix s) whiteSpace with
      | Some r => TrimRightSpace f (take (String.length s - String.length r) s)
      | None => s
      end
  end.

(** [strings.TrimSpace(s)]: the leading white-space code points go, then
    the trailing ones.  A byte sequence that is not the encoding of a
    white-space code point stops the trimming. *)
Definition TrimSpace (s : string) : string :=
  let s := TrimLeftSpace (String.length s) s in
  TrimRightSpace (String.length s) s.

Fixpoint TrimLeftByte (s : string) (c : ascii) : string :=
  match s with
  | EmptyString => EmptyString
  | String d r => if Ascii.eqb d c then TrimLeftByte r c else s
  end.

Fixpoint TrimRightByte (s : string) (c : ascii) : string :=
  match s with
  | EmptyString => EmptyString
  | String d r =>
      match TrimRightByte r c with
      | EmptyString => if Ascii.eqb d c then EmptyString else String d EmptyString
      | r' => String d r'
      end
  end.

(** [strings.Trim(s, cutset)] for a cutset of one ASCII byte, the only way
    the sources call it (the double quote). *)
Definition Trim (s : string) (c : ascii) : string :=
  TrimLeftByte (TrimRightByte s c) c.

End strings.

(** ** Go's [strconv] package *)

Module strconv.

Definition isDigit (c : ascii) : bool :=
  (48 <=? nat_of_ascii c)%nat && (nat_of_ascii c <=? 57)%nat.

Definition digitVal (c : ascii) : Z := Z.of_nat (nat_of_ascii c) - 48.

Inductive NumError := ErrSyntax | ErrRange.

Fixpoint digits (s : string) (acc : Z) : option Z :=
  match s with
  | EmptyString => Some acc
  | String c r => if isDigit c then digits r (acc * 10 + digitVal c) else None
  end.

(** [strconv.ParseUint(s, 10, 32)]: a non-empty run of decimal digits, no
    sign, whose value fits 32 bits. *)
Definition ParseUint10_32 (s : string) : NumError + Z :=
  match s with
  | EmptyString => inl ErrSyntax
  | _ => match digits s 0 with
         | None => inl ErrSyntax
         | Some n => if n <=? 4294967295 then inr n else inl ErrRange
         end
  end.

End strconv.

(** ** Go's [net] package: addresses, masks, networks

    After the package as it stood in the Go releases of the repository's
    time (1.9 to 1.16; later releases refuse leading zeros in the octets
    of an IPv4 address). *)

Module net.

(** [net.IP] and [net.IPMask] are byte slices. *)
Definition IP := list Z.
Definition IPMask := list Z.

Record IPNet := mkIPNet { IPNet_IP : IP; IPNet_Mask : IPMask }.

Definition IPv4len : nat := 4.
Definition IPv6len : nat := 16.
Definition big : Z := 16777215. (* 0xFFFFFF *)

Definition v4InV6Prefix : list Z := [0;0;0;0;0;0;0;0;0;0;255;255].

(** [net.IPv4(a, b, c, d)]: the 16-byte form of an IPv4 address. *)
Definition IPv4 (a b c d : Z) : IP := v4InV6Prefix ++ [a; b; c; d].

Fixpoint bytesEqual (x y : list Z) : bool :=
  match x, y with
  | [], [] => true
  | a :: x', b :: y' => Z.eqb a b && bytesEqual x' y'
  | _, _ => false
  end.

Definition isZeros (p : list Z) : bool := forallb (Z.eqb 0) p.
Definition allFF (p : list Z) : bool := forallb (Z.eqb 255) p.

(** [ip.To4()]; [None] is Go's [nil]. *)
Definition To4 (ip : IP) : option IP :=
  if (List.length ip =? IPv4len)%nat then Some ip
  else if (List.length ip =? IPv6len)%nat && isZeros (firstn 10 ip)
          && Z.eqb (nth 10 ip 0) 255 && Z.eqb (nth 11 ip 0) 255
       then Some (firstn 4 (skipn 12 ip))
       else None.

Fixpoint CIDRMask_loop (l : nat) (n : Z) : list Z :=
  match l with
  | O => []
  | S l' =>
      if 8 <=? n then 255 :: CIDRMask_loop l' (n - 8)
      else Z.lxor 255 (Z.shiftr 255 n) :: CIDRMask_loop l' 0
  end.

(** [net.CIDRMask(ones, bits)] *)
Definition CIDRMask (ones bits : Z) : option IPMask :=
  if negb (bits =? 32) && negb (bits =? 128) then None
  else if (ones <? 0) || (bits <? ones) then None
  else Some (CIDRMask_loop (Z.to_nat (bits / 8)) ones).

Fixpoint andBytes (ip mask : list Z) : list Z :=
  match ip, mask with
  | a :: ip', m :: mask' => Z.land a m :: andBytes ip' mask'
  | _, _ => []
  end.

(** [ip.Mask(mask)] *)
Definition Mask (ip : IP) (mask : IPMask) : option IP :=
  let mask :=
    if (List.length mask =? IPv6len)%nat && (List.length ip =? IPv4len)%nat
       && allFF (firstn 12 mask)
    then skipn 12 mask else mask in
  let ip :=
    if (List.length mask =? IPv4len)%nat && (List.length ip =? IPv6len)%nat
       && bytesEqual (firstn 12 ip) v4InV6Prefix
    then skipn 12 ip else ip in
  if negb (List.length ip =? List.length mask)%nat then None
  else Some (andBytes ip mask).


(** [ip.Mask(mask)] with Go's [nil] result read as the empty slice. *)
Definition MaskOrNil (ip : IP) (mask : IPMask) : IP :=
  match Mask ip mask with Some out => out | None => [] end.

(** *** Parsing numbers ([net/parse.go]) *)

Definition isDigit (c : ascii) : bool :=
  (48 <=? nat_of_ascii c)%nat && (nat_of_ascii c <=? 57)%nat.

Definition hexVal (c : ascii) : option Z :=
  let n := nat_of_ascii c in
  if (48 <=? n)%nat && (n <=? 57)%nat then Some (Z.of_nat n - 48)
  else if (97 <=? n)%nat && (n <=? 102)%nat then Some (Z.of_nat n - 97 + 10)
  else if (65 <=? n)%nat && (n <=? 70)%nat then Some (Z.of_nat n - 65 + 10)
  else None.

Fixpoint dtoi_loop (s : string) (n : Z) (i : nat) : Z * nat * bool :=
  match s with
  | String c r =>
      if isDigit c then
        let n' := n * 10 + (Z.of_nat (nat_of_ascii c) - 48) in
        if big <=? n' then (big, i, false) else dtoi_loop r n' (S i)
      else if (i =? 0)%nat then (0, 0%nat, false) else (n, i, true)
  | EmptyString => if (i =? 0)%nat then (0, 0%nat, false) else (n, i, true)
  end.

(** [dtoi(s)]: decimal to integer; returns the number, the characters
    consumed and success. *)
Definition dtoi (s : string) : Z * nat * bool := dtoi_loop s 0 0%nat.

Fixpoint xtoi_loop (s : string) (n : Z) (i : nat) : Z * nat * bool :=
  match s with
  | String c r =>
      match hexVal c with
      | Some d =>
          let n' := n * 16 + d in
          if big <=? n' then (0, i, false) else xtoi_loop r n' (S i)
      | None => if (i =? 0)%nat then (0, i, false) else (n, i, true)
      end
  | EmptyString => if (i =? 0)%nat then (0, i, false) else (n, i, true)
  end.

(** [xtoi(s)]: hexadecimal to integer. *)
Definition xtoi (s : string) : Z * nat * bool := xtoi_loop s 0 0%nat.

(** [p[i] = v] on a slice; out of range would panic in Go, and does not
    happen below (indices are below the fixed length). *)
Fixpoint set (i : nat) (v : Z) (p : list Z) : list Z :=
  match p, i with
  | [], _ => []
  | _ :: p', O => v :: p'
  | a :: p', S i' => a :: set i' v p'
  end.

Definition headIs (s : string) (c : ascii) : bool :=
  match s with String d _ => Ascii.eqb d c | EmptyString => false end.

Fixpoint parseIPv4_loop (k i : nat) (s : string) (p : list Z)
  : option (list Z * string) :=
  match k with
  | O => Some (p, s)
  | S k' =>
      match s with
      | EmptyString => None (* missing octets *)
      | _ =>
          let s1 := if (0 <? i)%nat
                    then if headIs s "." then Some (strings.drop 1 s) else None
                    else Some s in
          match s1 with
          | None => None
          | Some s1 =>
              let '(n, c, ok) := dtoi s1 in
              if negb ok || (255 <? n) then None
              else parseIPv4_loop k' (S i) (strings.drop c s1) (set i n p)
          end
      end
  end.

(** [parseIPv4(s)]: dotted decimal, four octets, nothing after them. *)
Definition parseIPv4 (s : string) : option IP :=
  match parseIPv4_loop 4 0 s [0; 0; 0; 0] with
  | Some ([a; b; c; d], EmptyString) => Some (IPv4 a b c d)
  | _ => None
  end.

Definition charIs (o : option ascii) (c : ascii) : bool :=
  match o with Some d => Ascii.eqb d c | None => false end.

Definition isNone {A} (o : option A) : bool :=
  match o with None => true | Some _ => false end.

(** The main loop of [parseIPv6]: hex groups separated by colons.  [None]
    is [return nil]; [Some] is the state at the loop's exit.  Every round
    advances [i] by two, so sixteen bytes take at most eight rounds and the
    fuel given by [parseIPv6] never runs out. *)
Fixpoint parseIPv6_loop (fuel : nat) (s : string) (i : nat) (ip : list Z)
    (ellipsis : option nat) : option (string * nat * list Z * option nat) :=
  match fuel with
  | O => None
  | S f =>
      if (IPv6len <=? i)%nat then Some (s, i, ip, ellipsis) else
      let '(n, c, ok) := xtoi s in
      if negb ok || (65535 <? n) then None else
      if (c <? String.length s)%nat && charIs (String.get c s) "." then
        (* trailing IPv4 *)
        if isNone ellipsis && negb (i =? IPv6len - IPv4len)%nat then None
        else if (IPv6len <? i + IPv4len)%nat then None
        else match parseIPv4 s with
             | None => None
             | Some ip4 =>
                 let ip := set i (nth 12 ip4 0) ip in
                 let ip := set (i + 1) (nth 13 ip4 0) ip in
                 let ip := set (i + 2) (nth 14 ip4 0) ip in
                 let ip := set (i + 3) (nth 15 ip4 0) ip in
                 Some (EmptyString, (i + IPv4len)%nat, ip, ellipsis)
             end
      else
        let ip := set i (Z.land (Z.shiftr n 8) 255) ip in
        let ip := set (i + 1) (Z.land n 255) ip in
        let i := (i + 2)%nat in
        match strings.drop c s with
        | EmptyString => Some (EmptyString, i, ip, ellipsis)
        | String c0 s1 =>
            if negb (Ascii.eqb c0 ":") || (String.length s1 =? 0)%nat then None
            else if headIs s1 ":" then
              match ellipsis with
              | Some _ => None (* already have one *)
              | None =>
                  match strings.drop 1 s1 with
                  | EmptyString => Some (EmptyString, i, ip, Some i)
                  | s2 => parseIPv6_loop f s2 i ip (Some i)
                  end
              end
            else parseIPv6_loop f s1 i ip ellipsis
        end
  end.

(** [for j := i-1; j >= ellipsis; j-- { ip[j+n] = ip[j] }] *)
Fixpoint shiftUp (cnt j n : nat) (ip : list Z) : list Z :=
  match cnt with
  | O => ip
  | S c => shiftUp c (j - 1) n (set (j + n) (nth j ip 0) ip)
  end.

(** [for j := ellipsis+n-1; j >= ellipsis; j-- { ip[j] = 0 }] *)
Fixpoint zeroFill (cnt j : nat) (ip : list Z) : list Z :=
  match cnt with
  | O => ip
  | S c => zeroFill c (j - 1) (set j 0 ip)
  end.

(** [parseIPv6(s, false)] *)
Definition parseIPv6 (s : string) : option IP :=
  let ip := repeat 0 IPv6len in
  let start :=
    match s with
    | String ":" (String ":" r) => (Some 0%nat, r, true)
    | _ => (None, s, false)
    end in
  let '(ellipsis, s, lead) := start in
  if lead && (String.length s =? 0)%nat then Some ip
  else
    match parseIPv6_loop 9 s 0 ip ellipsis with
    | None => None
    | Some (s, i, ip, ellipsis) =>
        if negb (String.length s =? 0)%nat then None
        else if (i <? IPv6len)%nat then
          match ellipsis with
          | None => None
          | Some e =>
              let n := (IPv6len - i)%nat in
              let ip := shiftUp (i - e) (i - 1) n ip in
              Some (zeroFill n (e + n - 1) ip)
          end
        else match ellipsis with
             | Some _ => None (* ellipsis must stand for at least one group *)
             | None => Some ip
             end
    end.

Fixpoint ParseIP_scan (full s : string) : option IP :=
  match s with
  | EmptyString => None
  | String c r =>
      if Ascii.eqb c "." then parseIPv4 full
      else if Ascii.eqb c ":" then parseIPv6 full
      else ParseIP_scan full r
  end.

(** [net.ParseIP(s)] *)
Definition ParseIP (s : string) : option IP := ParseIP_scan s s.

(** *** [net.SplitHostPort] *)

Fixpoint byteIndex (s : string) (c : ascii) : option nat :=
  match s with
  | EmptyString => None
  | String d r =>
      if Ascii.eqb d c then Some 0%nat
      else match byteIndex r c with Some i => Some (S i) | None => None end
  end.

Fixpoint last (s : string) (c : ascii) : option nat :=
  match s with
  | EmptyString => None
  | String d r =>
      match last r c with
      | Some i => Some (S i)
      | None => if Ascii.eqb d c then Some 0%nat else None
      end
  end.

Inductive AddrError :=
| missingPort | tooManyColons | missingBracket | unexpectedOpen | unexpectedClose.

Definition isSome {A} (o : option A) : bool := negb (isNone o).

Definition SplitHostPort (hostport : string) : AddrError + (string * string) :=
  match last hostport ":" with
  | None => inl missingPort
  | Some i =>
      let r : AddrError + (string * nat * nat) :=
        if headIs hostport "[" then
          match byteIndex hostport "]" with
          | None => inl missingBracket
          | Some e =>
              if (e + 1 =? String.length hostport)%nat then inl missingPort
              else if (e + 1 =? i)%nat
                   then inr (strings.take (e - 1) (strings.drop 1 hostport),
                             1%nat, (e + 1)%nat)
                   else if charIs (String.get (e + 1) hostport) ":"
                        then inl tooManyColons else inl missingPort
          end
        else
          let host := strings.take i hostport in
          if isSome (byteIndex host ":") then inl tooManyColons
          else inr (host, 0%nat, 0%nat) in
      match r with
      | inl e => inl e
      | inr (host, j, k) =>
          if isSome (byteIndex (strings.drop j hostport) "[")
          then inl unexpectedOpen
          else if isSome (byteIndex (strings.drop k hostport) "]")
          then inl unexpectedClose
          else inr (host, strings.drop (i + 1) hostport)
      end
  end.

(** *** Networks: [ParseCIDR], [Contains], [Size] *)

(** [&ParseError{Type: "CIDR address", Text: s}] *)
Inductive ParseError := CIDRAddressError (text : string).

(** [net.ParseCIDR(s)]: the address as written and the network it lies
    in. *)
Definition ParseCIDR (s : string) : ParseError + (IP * IPNet) :=
  match byteIndex s "/" with
  | None => inl (CIDRAddressError s)
  | Some i =>
      let addr := strings.take i s in
      let mask := strings.drop (i + 1) s in
      let '(iplen, ip) :=
        match parseIPv4 addr with
        | Some ip => (IPv4len, Some ip)
        | None => (IPv6len, parseIPv6 addr)
        end in
      let '(n, j, ok) := dtoi mask in
      match ip with
      | None => inl (CIDRAddressError s)
      | Some ip =>
          if negb ok || negb (j =? String.length mask)%nat || (n <? 0)
             || (8 * Z.of_nat iplen <? n)
          then inl (CIDRAddressError s)
          else
            let m := match CIDRMask n (8 * Z.of_nat iplen) with
                     | Some m => m
                     | None => []
                     end in
            inr (ip, mkIPNet (MaskOrNil ip m) m)
      end
  end.

(** [networkNumberAndMask(n)]; the outer [None] is Go's
    [panic("unreachable")], the pair of empty slices is [(nil, nil)]. *)
Definition networkNumberAndMask (n : IPNet) : option (IP * IPMask) :=
  let r :=
    match To4 (IPNet_IP n) with
    | Some ip => Some ip
    | None => if negb (List.length (IPNet_IP n) =? IPv6len)%nat
              then None else Some (IPNet_IP n)
    end in
  match r with
  | None => Some ([], [])
  | Some ip =>
      let m := IPNet_Mask n in
      if (List.length m =? IPv4len)%nat then
        if negb (List.length ip =? IPv4len)%nat then Some ([], [])
        else Some (ip, m)
      else if (List.length m =? IPv6len)%nat then
        if (List.length ip =? IPv4len)%nat then Some (ip, skipn 12 m)
        else Some (ip, m)
      else None
  end.

Fixpoint containsLoop (nn m ip : list Z) : bool :=
  match nn, m, ip with
  | a :: nn', k :: m', x :: ip' =>
      if negb (Z.land a k =? Z.land x k) then false else containsLoop nn' m' ip'
  | _, _, _ => true
  end.

(** [n.Contains(ip)]; [None] is a panic. *)
Definition Contains (n : IPNet) (ip : IP) : option bool :=
  match networkNumberAndMask n with
  | None => None
  | Some (nn, m) =>
      let ip := match To4 ip with Some x => x | None => ip end in
      if negb (List.length ip =? List.length nn)%nat then Some false
      else Some (containsLoop nn m ip)
  end.

(** [for v&0x80 != 0 { n++; v <<= 1 }] on a byte. *)
Fixpoint leadingOnes (fuel : nat) (v n : Z) : Z * Z :=
  match fuel with
  | O => (n, v)
  | S f =>
      if Z.land v 128 =? 0 then (n, v)
      else leadingOnes f (Z.land (Z.shiftl v 1) 255) (n + 1)
  end.

(** [simpleMaskLength(mask)]; [None] is [-1]. *)
Fixpoint simpleMaskLength (mask : list Z) (n : Z) : option Z :=
  match mask with
  | [] => Some n
  | v :: rest =>
      if v =? 255 then simpleMaskLength rest (n + 8)
      else
        let '(n, v) := leadingOnes 8 v n in
        if negb (v =? 0) then None
        else if isZeros rest then Some n else None
  end.

(** [m.Size()] *)
Definition Size (m : IPMask) : Z * Z :=
  match simpleMaskLength m 0 with
  | None => (0, 0)
  | Some ones => (ones, Z.of_nat (List.length m) * 8)
  end.

End net.

(** ** [pkg/config]: configuration structures and errors *)

Module config.

(** The errors the configuration code builds with [fmt.Errorf], one
    constructor per message, carrying the values the message prints. *)
Inductive Error :=
| ErrCertOrKeyGiven
    (* certificate or key given; perhaps you mean to use the 'ssl' scheme? *)
| ErrFailedToParseAddress (urlString : string)
    (* Failed to parse OVN address %s *)
| ErrInvalidProtocols (urlString : string)
    (* Invalid protocols in OVN address %s *)
| ErrHostPort (hostPort : string) (e : net.AddrError)
    (* failed to parse OVN DB host/port %q: %v *)
| ErrHostNotIP (hostPort : string)
    (* OVN DB host %q must be an IP address, not a DNS name *)
| ErrMustSpecifySSL
    (* must specify private key, certificate, and CA certificate for 'ssl' scheme *)
| ErrUnknownScheme (scheme : string)
    (* unknown OVN DB scheme %q *)
| ErrUpdateIP (address : string)
    (* failed to parse OvnDBAuth a.OvnAddressForClient: %q *)
| ErrUpdateNorth (e : Error)
    (* failed to update OvnNorth ClientAuth URL: %v *)
| ErrUpdateSouth (e : Error)
    (* failed to update OvnSouth ClientAuth URL: %v *)
| ErrOpenConfigFile (path : string)
    (* failed to open config file %s: %v *)
| ErrParseConfigFile (path : string)
    (* failed to parse config file %s: %v *)
| ErrKubeconfigNotFound (path : string)
    (* kubernetes kubeconfig file %q not found *)
| ErrCACertNotFound (path : string)
    (* kubernetes CA certificate file %q not found *)
| ErrAPIServerInvalid (address : string)
    (* kubernetes API server address %q invalid: %v *)
| ErrAPIServerScheme (scheme : string)
    (* kubernetes API server URL scheme %q invalid *)
| Panic (msg : string).

Record DefaultConfig := mkDefaultConfig {
  MTU : Z;
  ConntrackZone : Z;
  EncapType : string;
  EncapIP : string;
  InactivityProbe : Z
}.

Record LoggingConfig := mkLoggingConfig {
  File : string;
  Level : Z
}.

Record CNIConfig := mkCNIConfig {
  ConfDir : string;
  Plugin : string;
  WinHNSNetworkID : string
}.

Record KubernetesConfig := mkKubernetesConfig {
  Kubeconfig : string;
  CACert : string;
  APIServer : string;
  Token : string
}.

Record rawOvnAuthConfig := mkRawOvnAuthConfig {
  Address : string;
  ClientPrivKey : string;
  ClientCert : string;
  ClientCACert : string
}.

(** [OvnDBScheme] is a string type. *)
Definition OvnDBScheme := string.
Definition OvnDBSchemeSSL : OvnDBScheme := "ssl".
Definition OvnDBSchemeTCP : OvnDBScheme := "tcp".
Definition OvnDBSchemeUnix : OvnDBScheme := "unix".

(** [OvnDBAuth]; the [exec] handle it also stores is the interface to the
    host's commands and carries no data. *)
Record OvnDBAuth := mkOvnDBAuth {
  OvnAddressForClient : string;
  PrivKey : string;
  Cert : string;
  CACert_ : string;
  Scheme : OvnDBScheme;
  ctlCmd : string;
  externalID : string
}.

(** [OvnAuthConfig]: [ClientAuth] is a pointer, [None] is [nil]. *)
Record OvnAuthConfig := mkOvnAuthConfig { ClientAuth : option OvnDBAuth }.

(** The [config] struct read from the file and filled by the flags. *)
Record config_ := mkConfig {
  cfg_Default : DefaultConfig;
  cfg_Logging : LoggingConfig;
  cfg_CNI : CNIConfig;
  cfg_Kubernetes : KubernetesConfig;
  cfg_OvnNorth : rawOvnAuthConfig;
  cfg_OvnSouth : rawOvnAuthConfig
}.

(** The package-level variables [Default], [Logging], [CNI], [Kubernetes],
    [OvnNorth], [OvnSouth]. *)
Record Globals := mkGlobals {
  Default : DefaultConfig;
  Logging : LoggingConfig;
  CNI : CNIConfig;
  Kubernetes : KubernetesConfig;
  OvnNorth : OvnAuthConfig;
  OvnSouth : OvnAuthConfig
}.

(** Their values at program start (the [var] block). *)
Definition builtin : Globals :=
  {| Default := mkDefaultConfig 1400 64000 "geneve" "" 100000;
     Logging := mkLoggingConfig "" 4;
     CNI := mkCNIConfig "/etc/cni/net.d" "ovn-k8s-cni-overlay" "";
     Kubernetes := mkKubernetesConfig "" "" "http://localhost:8080" "";
     OvnNorth := mkOvnAuthConfig None;
     OvnSouth := mkOvnAuthConfig None |}.

(** The zero value of [config], before a file is read or a flag set. *)
Definition zeroConfig : config_ :=
  mkConfig (mkDefaultConfig 0 0 "" "" 0) (mkLoggingConfig "" 0)
           (mkCNIConfig "" "" "") (mkKubernetesConfig "" "" "" "")
           (mkRawOvnAuthConfig "" "" "" "") (mkRawOvnAuthConfig "" "" "" "").

(** [Defaults]: which options to read from the OVS database. *)
Record Defaults := mkDefaults {
  OvnNorthAddress : bool;
  K8sAPIServer : bool;
  K8sToken : bool;
  K8sCert : bool
}.

(** *** [overrideFields]: reflection over struct fields *)

(** A struct field as reflection sees it: a string or an int. *)
Inductive Value := VString (s : string) | VInt (n : Z).

(** A struct type whose fields are strings and ints, in declaration
    order. *)
Class Struct (T : Type) := {
  fields : T -> list Value;
  ofFields : list Value -> option T
}.

#[export] Instance Struct_DefaultConfig : Struct DefaultConfig := {
  fields d := [VInt (MTU d); VInt (ConntrackZone d); VString (EncapType d);
               VString (EncapIP d); VInt (InactivityProbe d)];
  ofFields l :=
    match l with
    | [VInt a; VInt b; VString c; VString d; VInt e] =>
        Some (mkDefaultConfig a b c d e)
    | _ => None
    end
}.

#[export] Instance Struct_LoggingConfig : Struct LoggingConfig := {
  fields d := [VString (File d); VInt (Level d)];
  ofFields l :=
    match l with
    | [VString a; VInt b] => Some (mkLoggingConfig a b)
    | _ => None
    end
}.

#[export] Instance Struct_CNIConfig : Struct CNIConfig := {
  fields d := [VString (ConfDir d); VString (Plugin d);
               VString (WinHNSNetworkID d)];
  ofFields l :=
    match l with
    | [VString a; VString b; VString c] => Some (mkCNIConfig a b c)
    | _ => None
    end
}.

#[export] Instance Struct_KubernetesConfig : Struct KubernetesConfig := {
  fields d := [VString (Kubeconfig d); VString (CACert d);
               VString (APIServer d); VString (Token d)];
  ofFields l :=
    match l with
    | [VString a; VString b; VString c; VString d] =>
        Some (mkKubernetesConfig a b c d)
    | _ => None
    end
}.

#[export] Instance Struct_rawOvnAuthConfig : Struct rawOvnAuthConfig := {
  fields d := [VString (Address d); VString (ClientPrivKey d);
               VString (ClientCert d); VString (ClientCACert d)];
  ofFields l :=
    match l with
    | [VString a; VString b; VString c; VString d] =>
        Some (mkRawOvnAuthConfig a b c d)
    | _ => None
    end
}.

Definition isEmpty (s : string) : bool :=
  match s with EmptyString => true | _ => false end.

(** The loop of [overrideFields] over the two field lists; the error is
    the panic. *)
Fixpoint overrideFields_loop (dst src : list Value) : Error + list Value :=
  match dst, src with
  | [], [] => inr []
  | d :: dst', s :: src' =>
      let field :=
        match s, d with
        | VString sv, VString _ => inr (if negb (isEmpty sv) then s else d)
        | VInt n, VInt _ => inr (if negb (n =? 0) then s else d)
        | _, _ => inl (Panic "mismatched struct fields")
        end in
      match field with
      | inl e => inl e
      | inr v => match overrideFields_loop dst' src' with
                 | inl e => inl e
                 | inr l => inr (v :: l)
                 end
      end
  | _, _ => inl (Panic "mismatched struct types")
  end.

(** [overrideFields(&dst, &src)]: the new value of [dst]. *)
Definition overrideFields {T} `{Struct T} (dst src : T) : Error + T :=
  match overrideFields_loop (fields dst) (fields src) with
  | inl e => inl e
  | inr l => match ofFields l with
             | Some t => inr t
             | None => inl (Panic "mismatched struct types")
             end
  end.

(** *** The host the process runs on *)

(** What [os.Open] and [gcfg.ReadInto] make of a configuration file. *)
Inductive ConfigFile :=
| OpenFails
| ParseFails
| Parsed (cfg : config_).

(** The host as the configuration code observes it. *)
Record World := mkWorld {
  (** [runtime.GOOS] *)
  GOOS : string;
  (** the Windows fallback path, [OVS_SYSCONFDIR] joined with the file name *)
  sysconfPath : string;
  (** opening and parsing the file at a path *)
  openConfigFile : string -> ConfigFile;
  (** [ovs-vsctl --if-exists get Open_vSwitch . external_ids:name], output
      trimmed; [None] when the command fails *)
  external_ids : string -> option string;
  (** [os.Stat] finds the path *)
  pathExists : string -> bool;
  (** [url.Parse]: the scheme of the URL, [None] on a parse error *)
  urlScheme : string -> option string
}.

Definition getOVSExternalID (w : World) (name : string) : string :=
  match external_ids w name with
  | Some out => out
  | None => ""
  end.

(** *** [newOvnDBAuth] *)

(** The [for] loop of [newOvnDBAuth] over the comma-separated addresses,
    threading [scheme] and [auth.OvnAddressForClient]. *)
Fixpoint addressLoop (urlString : string) (ovnAddresses : list string)
    (scheme address : string) : Error + (string * string) :=
  match ovnAddresses with
  | [] => inr (scheme, address)
  | ovnAddress :: rest =>
      match strings.Split ovnAddress ":" with
      | [s0; s1; s2] =>
          let hostPort := (s1 ++ ":" ++ s2)%string in
          let checked :=
            if isEmpty scheme then inr s0
            else if negb (String.eqb scheme s0)
                 then inl (ErrInvalidProtocols urlString)
                 else inr scheme in
          match checked with
          | inl e => inl e
          | inr scheme =>
              match net.SplitHostPort hostPort with
              | inl e => inl (ErrHostPort hostPort e)
              | inr (host, port) =>
                  match net.ParseIP host with
                  | None => inl (ErrHostNotIP hostPort)
                  | Some _ =>
                      let one := (scheme ++ ":" ++ host ++ ":" ++ port)%string in
                      let address :=
                        if isEmpty address then one
                        else (address ++ "," ++ one)%string in
                      addressLoop urlString rest scheme address
                  end
              end
          end
      | _ => inl (ErrFailedToParseAddress urlString)
      end
  end.

Definition newOvnDBAuth (ctlCmd externalID urlString privkey cert cacert : string)
  : Error + OvnDBAuth :=
  if isEmpty urlString then
    if negb (isEmpty privkey) || negb (isEmpty cert) || negb (isEmpty cacert)
    then inl ErrCertOrKeyGiven
    else inr (mkOvnDBAuth "" "" "" "" OvnDBSchemeUnix ctlCmd externalID)
  else
    let urlString := strings.Replace urlString "//" "" in
    let ovnAddresses := strings.Split urlString "," in
    match addressLoop urlString ovnAddresses "" "" with
    | inl e => inl e
    | inr (scheme, address) =>
        if String.eqb scheme "ssl" then
          if isEmpty privkey || isEmpty cert || isEmpty cacert
          then inl ErrMustSpecifySSL
          else inr (mkOvnDBAuth address privkey cert cacert OvnDBSchemeSSL
                                ctlCmd externalID)
        else if String.eqb scheme "tcp" then
          if negb (isEmpty privkey) || negb (isEmpty cert)
             || negb (isEmpty cacert)
          then inl ErrCertOrKeyGiven
          else inr (mkOvnDBAuth address "" "" "" OvnDBSchemeTCP
                                ctlCmd externalID)
        else inl (ErrUnknownScheme scheme)
    end.

(** *** Building the configuration *)

(** The [rawOvnAuthConfig] that [buildOvnAuth] hands to [newOvnDBAuth]:
    the address by precedence, the default certificate paths for an
    address that starts with ["ssl"], then the file's and the command
    line's non-empty fields over them. *)
Definition buildRawAuth (w : World) (direction : string)
    (cliAuth confAuth : rawOvnAuthConfig) (readAddress : bool)
  : Error + rawOvnAuthConfig :=
  let address := Address cliAuth in
  let address := if isEmpty address then Address confAuth else address in
  let address := if isEmpty address && readAddress
                 then getOVSExternalID w ("ovn-" ++ direction)
                 else address in
  let auth :=
    if strings.HasPrefix address "ssl" then
      mkRawOvnAuthConfig address
        ("/etc/openvswitch/ovn" ++ direction ++ "-privkey.pem")
        ("/etc/openvswitch/ovn" ++ direction ++ "-cert.pem")
        ("/etc/openvswitch/ovn" ++ direction ++ "-ca.cert")
    else mkRawOvnAuthConfig address "" "" "" in
  match overrideFields auth confAuth with
  | inl e => inl e
  | inr auth => overrideFields auth cliAuth
  end.

Definition buildOvnAuth (w : World) (direction externalID : string)
    (cliAuth confAuth : rawOvnAuthConfig) (readAddress : bool)
  : Error + OvnAuthConfig :=
  let ctlCmd := ("ovn-" ++ direction ++ "ctl")%string in
  match buildRawAuth w direction cliAuth confAuth readAddress with
  | inl e => inl e
  | inr auth =>
      match newOvnDBAuth ctlCmd externalID (Address auth) (ClientPrivKey auth)
                         (ClientCert auth) (ClientCACert auth) with
      | inl e => inl e
      | inr clientAuth => inr (mkOvnAuthConfig (Some clientAuth))
      end
  end.

(** The value [buildKubernetesConfig] leaves in [Kubernetes], before its
    checks. *)
Definition kubernetesValues (w : World) (cli file : config_)
    (defaults : Defaults) (k : KubernetesConfig) : Error + KubernetesConfig :=
  let k := if K8sAPIServer defaults
           then mkKubernetesConfig (Kubeconfig k) (CACert k)
                  (getOVSExternalID w "k8s-api-server") (Token k)
           else k in
  let k := if K8sToken defaults
           then mkKubernetesConfig (Kubeconfig k) (CACert k) (APIServer k)
                  (getOVSExternalID w "k8s-api-token")
           else k in
  let k := if K8sCert defaults
           then mkKubernetesConfig (Kubeconfig k)
                  (getOVSExternalID w "k8s-ca-certificate") (APIServer k)
                  (Token k)
           else k in
  match overrideFields k (cfg_Kubernetes file) with
  | inl e => inl e
  | inr k => overrideFields k (cfg_Kubernetes cli)
  end.

(** [buildKubernetesConfig]: the new [Kubernetes] and the error, if any. *)
Definition buildKubernetesConfig (w : World) (cli file : config_)
    (defaults : Defaults) (k : KubernetesConfig)
  : KubernetesConfig * option Error :=
  match kubernetesValues w cli file defaults k with
  | inl e => (k, Some e)
  | inr k =>
      if negb (isEmpty (Kubeconfig k)) && negb (pathExists w (Kubeconfig k))
      then (k, Some (ErrKubeconfigNotFound (Kubeconfig k)))
      else if negb (isEmpty (CACert k)) && negb (pathExists w (CACert k))
      then (k, Some (ErrCACertNotFound (CACert k)))
      else match urlScheme w (APIServer k) with
           | None => (k, Some (ErrAPIServerInvalid (APIServer k)))
           | Some scheme =>
               if negb (String.eqb scheme "https")
                  && negb (String.eqb scheme "http")
               then (k, Some (ErrAPIServerScheme scheme))
               else (k, None)
           end
  end.

(** [getConfigFilePath]: [flag] is the value of [--config-file]. *)
Definition getConfigFilePath (w : World) (flag : string) : string * bool :=
  if negb (isEmpty flag) then (flag, false)
  else if negb (String.eqb (GOOS w) "windows")
  then ("/etc/openvswitch/ovn_k8s.conf", true)
  else (sysconfPath w, true).

(** [InitConfigWithPath]: the globals it leaves and what it returns.
    [flag] is [--config-file], [cliConfig] the struct the other flags
    filled; log output is not modelled. *)
Definition InitConfigWithPath (w : World) (flag : string) (cliConfig : config_)
    (configFile : string) (defaults : option Defaults) (g : Globals)
  : Globals * (Error + string) :=
  let '(configFile, configFileIsDefault) :=
    if isEmpty configFile then getConfigFilePath w flag
    else (configFile, false) in
  let retConfigFile := if negb configFileIsDefault then configFile else "" in
  let opened : Error + config_ :=
    match openConfigFile w configFile with
    | OpenFails =>
        if negb configFileIsDefault then inl (ErrOpenConfigFile configFile)
        else inr zeroConfig
    | ParseFails => inl (ErrParseConfigFile configFile)
    | Parsed cfg => inr cfg
    end in
  match opened with
  | inl e => (g, inl e)
  | inr cfg =>
      let defaults := match defaults with
                      | Some d => d
                      | None => mkDefaults false false false false
                      end in
      match overrideFields (Default g) (cfg_Default cfg) with
      | inl e => (g, inl e)
      | inr d1 =>
      match overrideFields d1 (cfg_Default cliConfig) with
      | inl e => (g, inl e)
      | inr d2 =>
      match overrideFields (CNI g) (cfg_CNI cfg) with
      | inl e => (g, inl e)
      | inr c1 =>
      match overrideFields c1 (cfg_CNI cliConfig) with
      | inl e => (g, inl e)
      | inr c2 =>
      match overrideFields (Logging g) (cfg_Logging cfg) with
      | inl e => (g, inl e)
      | inr l1 =>
      match overrideFields l1 (cfg_Logging cliConfig) with
      | inl e => (g, inl e)
      | inr l2 =>
          let '(k, err) :=
            buildKubernetesConfig w cliConfig cfg defaults (Kubernetes g) in
          let g := mkGlobals d2 l2 c2 k (OvnNorth g) (OvnSouth g) in
          match err with
          | Some e => (g, inl e)
          | None =>
              match buildOvnAuth w "nb" "ovn-nb" (cfg_OvnNorth cliConfig)
                      (cfg_OvnNorth cfg) (OvnNorthAddress defaults) with
              | inl e =>
                  (mkGlobals d2 l2 c2 k (mkOvnAuthConfig None) (OvnSouth g),
                   inl e)
              | inr north =>
                  match buildOvnAuth w "sb" "ovn-remote"
                          (cfg_OvnSouth cliConfig) (cfg_OvnSouth cfg) false with
                  | inl e =>
                      (mkGlobals d2 l2 c2 k north (mkOvnAuthConfig None), inl e)
                  | inr south =>
                      (mkGlobals d2 l2 c2 k north south, inr retConfigFile)
                  end
              end
          end
      end end end end end end
  end.

(** [InitConfig] *)
Definition InitConfig (w : World) (flag : string) (cliConfig : config_)
    (defaults : option Defaults) (g : Globals) : Globals * (Error + string) :=
  InitConfigWithPath w flag cliConfig "" defaults g.

(** *** Updating the address after a master change *)

(** [a.updateIP(newIP)]: the new [*a] and the error. *)
Definition updateIP (a : OvnDBAuth) (newIP : string) : OvnDBAuth * option Error :=
  if negb (isEmpty (OvnAddressForClient a)) then
    match strings.Split (OvnAddressForClient a) ":" with
    | [s0; _; s2] =>
        (mkOvnDBAuth (s0 ++ ":" ++ newIP ++ s2) (PrivKey a) (Cert a)
                     (CACert_ a) (Scheme a) (ctlCmd a) (externalID a),
         None)
    | _ => (a, Some (ErrUpdateIP (OvnAddressForClient a)))
    end
  else (a, None).

(** [UpdateOvnNodeAuth(masterIP)]; a [nil] [ClientAuth] is a nil
    dereference. *)
Definition UpdateOvnNodeAuth (masterIP : string) (g : Globals)
  : Globals * option Error :=
  match ClientAuth (OvnNorth g) with
  | None => (g, Some (Panic "nil pointer dereference"))
  | Some north =>
      let '(north, err) := updateIP north masterIP in
      let g := mkGlobals (Default g) (Logging g) (CNI g) (Kubernetes g)
                         (mkOvnAuthConfig (Some north)) (OvnSouth g) in
      match err with
      | Some e => (g, Some (ErrUpdateNorth e))
      | None =>
          match ClientAuth (OvnSouth g) with
          | None => (g, Some (Panic "nil pointer dereference"))
          | Some south =>
              let '(south, err) := updateIP south masterIP in
              let g := mkGlobals (Default g) (Logging g) (CNI g) (Kubernetes g)
                                 (OvnNorth g) (mkOvnAuthConfig (Some south)) in
              match err with
              | Some e => (g, Some (ErrUpdateSouth e))
              | None => (g, None)
              end
          end
      end
  end.

End config.

(** ** [cmd/ovnkube]: the cluster subnets *)

Module ovnkube.

Import net.

(** [ovncluster.CIDRNetworkEntry] *)
Record CIDRNetworkEntry := mkCIDRNetworkEntry {
  CIDR : IPNet;
  HostSubnetLength : Z
}.

Inductive Error :=
| ErrParseUint (s : string) (e : strconv.NumError)
| ErrNotFormatted (* cluster-cidr not formatted properly *)
| ErrParseCIDR (e : ParseError)
| ErrOverlap (cidr : IPNet)
    (* CIDR %s overlaps with another cluster network CIDR *)
| Panic.

(** [cidrsOverlap]; [None] is a panic inside [Contains]. *)
Fixpoint cidrsOverlap (cidr : IPNet) (cidrList : list CIDRNetworkEntry)
  : option bool :=
  match cidrList with
  | [] => Some false
  | clusterEntry :: rest =>
      match Contains cidr (IPNet_IP (CIDR clusterEntry)) with
      | None => None
      | Some true => Some true
      | Some false =>
          match Contains (CIDR clusterEntry) (IPNet_IP cidr) with
          | None => None
          | Some true => Some true
          | Some false => cidrsOverlap cidr rest
          end
      end
  end.

(** The first half of the loop body of [parseClusterSubnetEntries]: one
    entry's host subnet length and CIDR. *)
Definition parseEntry (clusterEntry : string) : Error + CIDRNetworkEntry :=
  let splitClusterEntry := strings.Split clusterEntry "/" in
  let hostSubnetLength :=
    if (List.length splitClusterEntry =? 3)%nat then
      match strconv.ParseUint10_32 (nth 2 splitClusterEntry "") with
      | inl e => inl (ErrParseUint (nth 2 splitClusterEntry "") e)
      | inr tmp => inr tmp
      end
    else if (List.length splitClusterEntry =? 2)%nat then
      (* the old hardcoded value for backwards compatability *)
      inr 24
    else inl ErrNotFormatted in
  match hostSubnetLength with
  | inl e => inl e
  | inr hsl =>
      match ParseCIDR (nth 0 splitClusterEntry "" ++ "/"
                       ++ nth 1 splitClusterEntry "")%string with
      | inl e => inl (ErrParseCIDR e)
      | inr (_, cidr) => inr (mkCIDRNetworkEntry cidr hsl)
      end
  end.

(** The loop of [parseClusterSubnetEntries], threading
    [parsedClusterList]. *)
Fixpoint entriesLoop (clusterEntriesList : list string)
    (parsedClusterList : list CIDRNetworkEntry)
  : Error + list CIDRNetworkEntry :=
  match clusterEntriesList with
  | [] => inr parsedClusterList
  | clusterEntry :: rest =>
      match parseEntry clusterEntry with
      | inl e => inl e
      | inr parsedClusterEntry =>
          match cidrsOverlap (CIDR parsedClusterEntry) parsedClusterList with
          | None => inl Panic
          | Some true => inl (ErrOverlap (CIDR parsedClusterEntry))
          | Some false =>
              entriesLoop rest (parsedClusterList ++ [parsedClusterEntry])
          end
      end
  end.

Definition parseClusterSubnetEntries (clusterSubnetCmd : string)
  : Error + list CIDRNetworkEntry :=
  entriesLoop (strings.Split clusterSubnetCmd ",") [].

End ovnkube.

(** ** [pkg/util] and [pkg/ovn]: the management port *)

Module util.

Import net.

(** A byte slice read as a big-endian number, and back at a given
    length. *)
Definition bytesToZ (l : list Z) : Z :=
  fold_left (fun acc b => acc * 256 + b) l 0.

Fixpoint ZToBytes (n : nat) (z : Z) : list Z :=
  match n with
  | O => []
  | S k => ZToBytes k (z / 256) ++ [z mod 256]
  end.

(** Modelled from the spec: [util.NextIP] lives in [pkg/util], which is not
    among the sources; [CreateManagementPort] only calls it.  The spec
    numbers the addresses of a host subnet consecutively ([0], [1],
    [2 ...]), so the next address is the successor of the address read as a
    big-endian number, on the 4-byte form of an IPv4 address. *)
Definition NextIP (ip : IP) : IP :=
  let v := match To4 ip with Some v => v | None => ip end in
  ZToBytes (List.length v) (bytesToZ v + 1).

End util.

Module ovn.

Import net.

(** The address computations of [CreateManagementPort]: [routerIP], the
    [portIP] and the prefix length [n] that make [portIPMask], as it hands
    them to [ovn-nbctl] and to [configureManagementPort].  The statements
    in between run host commands and touch neither [ip] nor [subnet];
    [NextIP] is [util.NextIP]. *)
Definition CreateManagementPort (NextIP : IP -> IP) (localSubnet : string)
  : ParseError + (IP * IP * Z) :=
  match ParseCIDR localSubnet with
  | inl e => inl e
  | inr (ip, subnet) =>
      let ip := NextIP ip in
      let routerIP := ip in
      let ip := NextIP ip in
      let portIP := ip in
      let '(n, _) := Size (IPNet_Mask subnet) in
      inr (routerIP, portIP, n)
  end.

End ovn.

(** ** [pkg/config]: the commands the configuration code runs

    [rawExec], [runOVSVsctl], the external ids, [ensureCACert] and
    [SetDBAuth], over the host as they observe it. *)

Module dbauth.

Import config.

(** The double quote. *)
Definition dquote : ascii := Eval cbv in ascii_of_nat 34.

(** What [os.Stat] reports of a path. *)
Inductive StatResult := StatOK | StatNotExist | StatError.

(** An error of [exec.LookPath] or of a command that ran, by its text. *)
Inductive ExecError := execError (text : string).

(** The host as this code observes it, in a state [St] that running a
    command may change: [exec.LookPath], [exec.Command(path,
    args...).CombinedOutput()] and [os.Stat]. *)
Record Host (St : Type) := mkHost {
  LookPath : St -> string -> ExecError + string;
  CombinedOutput : St -> string -> list string -> St * (ExecError + string);
  Stat : St -> string -> StatResult
}.

Arguments LookPath {St}.
Arguments CombinedOutput {St}.
Arguments Stat {St}.

(** A run: the host's state and the commands run so far, each as
    [rawExec] logs it ([exec: path args]). *)
Record Run (St : Type) := mkRun {
  state : St;
  log : list (string * list string)
}.

Arguments mkRun {St}.
Arguments state {St}.
Arguments log {St}.

(** Code that runs commands: a state monad over [Run]. *)
Definition M (St A : Type) : Type := Run St -> A * Run St.

Definition ret {St A} (a : A) : M St A := fun r => (a, r).

Definition bind {St A B} (m : M St A) (f : A -> M St B) : M St B :=
  fun r => let '(a, r') := m r in f a r'.

Notation "x <- m ;; k" := (bind m (fun x => k))
  (at level 61, m at next level, right associativity).

(** The errors [SetDBAuth] and the functions it calls build. *)
Inductive Error :=
| ErrSetExternalID (key value : string) (err : ExecError) (out : string)
    (* Error setting OVS external ID '%s=%s': %v\n  %q *)
| ErrPrivKeyNotFound (path : string)
    (* private key file %s not found *)
| ErrCertNotFound (path : string)
    (* certificate file %s not found *)
| ErrDelSSL (out : string) (err : ExecError)
    (* error deleting ovs-vsctl SSL configuration: %q (%v) *)
| ErrSetSSL (err : ExecError) (out : string)
    (* error setting client southbound DB SSL options: %v\n  %q *).

(** [if err != nil { return err }] between two steps. *)
Definition andThen {St} (m k : M St (option Error)) : M St (option Error) :=
  err <- m ;;
  match err with
  | Some e => ret (Some e)
  | None => k
  end.

Section Commands.

Context {St : Type} (h : Host St).

Definition ovsVsctlCommand : string := "ovs-vsctl".

(** [rawExec(exec, cmd, args...)] *)
Definition rawExec (cmd : string) (args : list string)
  : M St (ExecError + string) :=
  fun r =>
    match LookPath h (state r) cmd with
    | inl err => (inl err, r)
    | inr cmdPath =>
        let '(st, out) := CombinedOutput h (state r) cmdPath args in
        let r := mkRun st (log r ++ [(cmdPath, args)]) in
        match out with
        | inl err => (inl err, r)
        | inr out => (inr (strings.TrimSpace out), r)
        end
    end.

(** [runOVSVsctl(exec, args...)] *)
Definition runOVSVsctl (args : list string) : M St (ExecError + string) :=
  let newArgs := "--timeout=15" :: args in
  out <- rawExec ovsVsctlCommand newArgs ;;
  match out with
  | inl err => ret (inl err)
  | inr out => ret (inr (strings.Trim (strings.TrimSpace out) dquote))
  end.

(** [getOVSExternalID(exec, name)] *)
Definition getOVSExternalID (name : string) : M St string :=
  out <- runOVSVsctl ["--if-exists"; "get"; "Open_vSwitch"; ".";
                      ("external_ids:" ++ name)%string] ;;
  match out with
  | inl _ => ret ""
  | inr out => ret out
  end.

(** [setOVSExternalID(exec, key, value)]; what [runOVSVsctl] returns
    beside an error is the empty string. *)
Definition setOVSExternalID (key value : string) : M St (option Error) :=
  out <- runOVSVsctl ["set"; "Open_vSwitch"; ".";
                      ("external_ids:" ++ key ++ "=" ++ value)%string] ;;
  match out with
  | inl err => ret (Some (ErrSetExternalID key value err ""))
  | inr _ => ret None
  end.

(** [pathExists(path)]: only the error "does not exist" makes it false. *)
Definition pathExists (path : string) : M St bool :=
  fun r =>
    (match Stat h (state r) path with
     | StatNotExist => false
     | _ => true
     end, r).

(** [a.GetURL()] *)
Definition GetURL (a : OvnDBAuth) : string := OvnAddressForClient a.

(** [a.ensureCACert()]; after the command it looks at the file once more,
    for a warning in the log only. *)
Definition ensureCACert (a : OvnDBAuth) : M St (option Error) :=
  found <- pathExists (CACert_ a) ;;
  if found then ret None
  else
    let args := [("--db=" ++ GetURL a)%string; "--timeout=5"] in
    let args :=
      if String.eqb (Scheme a) OvnDBSchemeSSL
      then args ++ [("--private-key=" ++ PrivKey a)%string;
                    ("--certificate=" ++ Cert a)%string;
                    ("--bootstrap-ca-cert=" ++ CACert_ a)%string]
      else args in
    let args := args ++ ["list"; "nb_global"] in
    _ <- rawExec "ovn-nbctl" args ;;
    ret None.

(** [a.SetDBAuth()] *)
Definition SetDBAuth (a : OvnDBAuth) : M St (option Error) :=
  if String.eqb (Scheme a) OvnDBSchemeUnix then ret None
  else
    andThen
      (if String.eqb (Scheme a) OvnDBSchemeSSL then
         found <- pathExists (PrivKey a) ;;
         if negb found then ret (Some (ErrPrivKeyNotFound (PrivKey a)))
         else
           found <- pathExists (Cert a) ;;
           if negb found then ret (Some (ErrCertNotFound (Cert a)))
           else ret None
       else ret None)
   (andThen
      (if String.eqb (Scheme a) OvnDBSchemeSSL then
         andThen (ensureCACert a)
           (if String.eqb (ctlCmd a) "ovn-sbctl" then
              out <- runOVSVsctl ["del-ssl"] ;;
              match out with
              | inl err => ret (Some (ErrDelSSL "" err))
              | inr _ =>
                  out <- runOVSVsctl ["set-ssl"; PrivKey a; Cert a; CACert_ a] ;;
                  match out with
                  | inl err => ret (Some (ErrSetSSL err ""))
                  | inr _ => ret None
                  end
              end
            else ret None)
       else ret None)
      (setOVSExternalID (externalID a)
         (String dquote (GetURL a ++ String dquote "")%string))).

End Commands.

End dbauth.

(** ** [cmd/ovnkube]: the pid file *)

Module pidfile.

(** An error of [ioutil.ReadFile], by its text. *)
Inductive FileError := fileError (text : string).

(** The operating system as [setupPIDFile] and [delPidfile] observe it, in
    a state [St]: [os.Stat], [ioutil.ReadFile], [ioutil.WriteFile(name,
    data, 0644)] and [os.Remove] (the new state, and whether they
    succeeded), [os.Getpid]. *)
Record OS (St : Type) := mkOS {
  Stat : St -> string -> dbauth.StatResult;
  ReadFile : St -> string -> FileError + string;
  WriteFile : St -> string -> string -> St * bool;
  Remove : St -> string -> St * bool;
  Getpid : St -> Z
}.

Arguments Stat {St}.
Arguments ReadFile {St}.
Arguments WriteFile {St}.
Arguments Remove {St}.
Arguments Getpid {St}.

(** [fmt.Sprintf("%d", n)] *)
Definition itoa (n : Z) : string := NilZero.string_of_int (Z.to_int n).

(** How a call ends: it returns, or the process exits. *)
Inductive Outcome :=
| Returned (err : option FileError)
| Exited (code : Z).

Section PidFile.

Context {St : Type} (os : OS St).

(** [ioutil.WriteFile(pidfile, []byte(fmt.Sprintf("%d", os.Getpid())),
    0644)]; a failure is logged and ignored. *)
Definition writePid (pidfile : string) (st : St) : St :=
  fst (WriteFile os st pidfile (itoa (Getpid os st))).

(** [setupPIDFile(pidfile)], without the goroutine it starts to remove the
    file when a signal arrives. *)
Definition setupPIDFile (pidfile : string) (st : St) : Outcome * St :=
  match Stat os st pidfile with
  | dbauth.StatNotExist => (Returned None, writePid pidfile st)
  | _ =>
      match ReadFile os st pidfile with
      | inl err => (Returned (Some err), st)
      | inr pid =>
          match Stat os st ("/proc/" ++ pid ++ "/cmdline")%string with
          | dbauth.StatNotExist =>
              (* Left over pid from dead process *)
              (Returned None, writePid pidfile st)
          | _ => (Exited 1, st)
          end
      end
  end.

(** [delPidfile(pidfile)]; a failure to remove is logged and ignored. *)
Definition delPidfile (pidfile : string) (st : St) : St :=
  if negb (config.isEmpty pidfile) then
    match Stat os st pidfile with
    | dbauth.StatOK => fst (Remove os st pidfile)
    | _ => st
    end
  else st.

End PidFile.

End pidfile.

(** ** [pkg/ovn]: configuring the management port *)

Module mgmtport.

(** The error of a command, and whether [os.IsNotExist] holds of it. *)
Record CmdError := mkCmdError { text : string; isNotExist : bool }.

(** A run of [ip] commands: the host's state and the argument lists
    given to [util.RunIP] so far. *)
Record Run (St : Type) := mkRun {
  state : St;
  log : list (list string)
}.

Arguments mkRun {St}.
Arguments state {St}.
Arguments log {St}.

Section ManagementPort.

(** [util.RunIP(args...)] runs [ip] on the host; of what it returns the
    code below looks at the error only. *)
Context {St : Type} (RunIP : St -> list string -> St * option CmdError).




End ManagementPort.

End mgmtport.

(** ** Vocabulary of the specification *)

Import net config ovnkube.

(** [HostSubnet[k]]: the [k]-th address of a subnet, counted from its base
    address. *)
Definition hostSubnetAddress (subnet : IPNet) (k : Z) : IP :=
  util.ZToBytes (List.length (IPNet_IP subnet))
                (util.bytesToZ (IPNet_IP subnet) + k).

(** The prefix length of a network. *)
Definition prefixLength (n : IPNet) : Z := fst (Size (IPNet_Mask n)).

(** Two networks overlap when some address lies in both. *)
Definition overlap (a b : IPNet) : Prop :=
  exists ip, Contains a ip = Some true /\ Contains b ip = Some true.

(** An address in the form [Contains] compares: four bytes for an IPv4
    address, sixteen otherwise. *)
Definition normalForm (ip : IP) : IP :=
  match To4 ip with Some x => x | None => ip end.

(** A network as [ParseCIDR] builds them: [Contains] sees a network
    number and a prefix mask of the same length. *)
Definition wellFormedNet (n : IPNet) : Prop :=
  exists nn m ones,
    networkNumberAndMask n = Some (nn, m)
    /\ normalForm (IPNet_IP n) = nn
    /\ 0 <= ones
    /\ m = CIDRMask_loop (List.length nn) ones.

(** The endpoints of a connection string, after [//] is dropped. *)
Definition endpoints (urlString : string) : list string :=
  strings.Split (strings.Replace urlString "//" "") ",".

(** An endpoint [scheme:host:port] (or [scheme:[host]:port]) whose host
    and port separate. *)
Definition endpointParts (e scheme host port hostPort : string) : Prop :=
  exists h p, strings.Split e ":" = [scheme; h; p]
              /\ hostPort = (h ++ ":" ++ p)%string
              /\ SplitHostPort hostPort = inr (host, port).

(** A well-formed endpoint of scheme [scheme]: three fields and a numeric
    IP for a host. *)
Definition endpointOf (scheme e : string) : Prop :=
  exists host port hostPort,
    endpointParts e scheme host port hostPort /\ ParseIP host <> None.

(** [s] has no byte [c]. *)
Fixpoint lacks (c : ascii) (s : string) : bool :=
  match s with
  | EmptyString => true
  | String d r => negb (Ascii.eqb d c) && lacks c r
  end.

(** A scheme, host or port written without any of the bytes the parser
    cuts at. *)
Definition plain (s : string) : bool :=
  lacks ":" s && lacks "," s && lacks "/" s && lacks "[" s && lacks "]" s.

(** The precedence of the spec: command line over file over default. *)
Definition precedence (cli file dflt : string) : string :=
  if negb (isEmpty cli) then cli
  else if negb (isEmpty file) then file
  else dflt.

Definition precedenceInt (cli file dflt : Z) : Z :=
  if negb (cli =? 0) then cli
  else if negb (file =? 0) then file
  else dflt.

(** The configuration read from the file [InitConfigWithPath] opens. *)
Definition fileConfig (w : World) (flag configFile : string) : config_ :=
  let path := if isEmpty configFile then fst (getConfigFilePath w flag)
              else configFile in
  match openConfigFile w path with
  | Parsed cfg => cfg
  | _ => zeroConfig
  end.

(** One field through [overrideFields]: the source wins unless it is the
    zero value. *)
Definition orString (dst src : string) : string :=
  if negb (isEmpty src) then src else dst.

Definition orInt (dst src : Z) : Z :=
  if negb (src =? 0) then src else dst.

(** A value read from the OVS database when the [Defaults] flag asks for
    it, the built-in value otherwise. *)
Definition discovered (w : World) (flag : bool) (name dflt : string) : string :=
  if flag then getOVSExternalID w name else dflt.

(** The address [buildOvnAuth] settles on. *)
Definition chosenAddress (w : World) (direction : string)
    (cliAuth confAuth : rawOvnAuthConfig) (readAddress : bool) : string :=
  precedence (Address cliAuth) (Address confAuth)
    (discovered w readAddress ("ovn-" ++ direction) "").

(** The default of a key or certificate path: the file under
    [/etc/openvswitch] for an address that starts with ["ssl"], none
    otherwise. *)
Definition sslDefaultPath (address direction suffix : string) : string :=
  if strings.HasPrefix address "ssl"
  then ("/etc/openvswitch/ovn" ++ direction ++ suffix)%string
  else "".


(** A configuration file and flags after the package's own test
    "overrides config file and defaults with CLI options", with only some
    of the flags given. *)
Definition testFile : config_ :=
  mkConfig (mkDefaultConfig 1500 64321 "" "" 0)
    (mkLoggingConfig "/var/log/ovnkube.log" 5)
    (mkCNIConfig "/etc/cni/net.d22" "ovn-k8s-cni-overlay22" "")
    (mkKubernetesConfig "/path/to/kubeconfig" "/path/to/kubeca.crt"
       "https://1.2.3.4:6443" "TG9yZW0gaXBzdW0gZ")
    (mkRawOvnAuthConfig "ssl://1.2.3.4:6641" "/path/to/nb-client-private.key"
       "/path/to/nb-client.crt" "/path/to/nb-client-ca.crt")
    (mkRawOvnAuthConfig "ssl://1.2.3.4:6642" "/path/to/sb-client-private.key"
       "/path/to/sb-client.crt" "/path/to/sb-client-ca.crt").

Definition testFlags : config_ :=
  mkConfig (mkDefaultConfig 1234 0 "" "" 0) (mkLoggingConfig "" 3)
    (mkCNIConfig "/some/cni/dir" "" "")
    (mkKubernetesConfig "" "" "" "asdfasdfasdfasfd")
    (mkRawOvnAuthConfig "ssl://6.5.4.3:6651" "/client/privkey" "" "")
    (mkRawOvnAuthConfig "" "" "" "").

(** A host that holds [testFile] at [/tmp/ovn_k8s.conf] and every file the
    configuration names. *)
Definition testHost : World :=
  mkWorld "linux" ""
    (fun p => if String.eqb p "/tmp/ovn_k8s.conf" then Parsed testFile
              else OpenFails)
    (fun _ => None) (fun _ => true) (fun _ => Some "https").

Definition testResult : Globals :=
  Eval vm_compute in
    fst (InitConfig testHost "/tmp/ovn_k8s.conf" testFlags None builtin).

(** A host on which nothing is configured: no configuration file, no
    external ids, no files; [url.Parse] finds the scheme of the built-in
    API server address. *)
Definition bareHost : World :=
  mkWorld "linux" "" (fun _ => OpenFails) (fun _ => None) (fun _ => false)
    (fun s => if String.eqb s "http://localhost:8080" then Some "http"
              else None).

(** The flags of scenario S6: [-nb-address=ssl://1.2.3.4:6641] and nothing
    else. *)
Definition flagsS6 : config_ :=
  mkConfig (cfg_Default zeroConfig) (cfg_Logging zeroConfig)
    (cfg_CNI zeroConfig) (cfg_Kubernetes zeroConfig)
    (mkRawOvnAuthConfig "ssl://1.2.3.4:6641" "" "" "")
    (cfg_OvnSouth zeroConfig).



(** The host [w] with an empty configuration file at every path. *)
Definition withEmptyConfigFile (w : World) : World :=
  mkWorld (GOOS w) (sysconfPath w) (fun _ => Parsed zeroConfig)
          (external_ids w) (pathExists w) (urlScheme w).

(** The path [InitConfigWithPath] opens, and whether it is the fallback. *)
Definition configPath (w : World) (flag configFile : string) : string * bool :=
  if isEmpty configFile then getConfigFilePath w flag else (configFile, false).

(** A host whose OVS database answers every external id with
    [tcp:1.2.3.4:6642], with no configuration file. *)
Definition discoveringHost : World :=
  mkWorld "linux" "" (fun _ => OpenFails) (fun _ => Some "tcp:1.2.3.4:6642")
    (fun _ => true) (fun _ => Some "http").

Definition allDefaults : Defaults := mkDefaults true true true true.

(** Flags that set the MTU and give a northbound address with a DNS
    name. *)
Definition flagsBadNorth : config_ :=
  mkConfig (mkDefaultConfig 1234 0 "" "" 0) (cfg_Logging zeroConfig)
    (cfg_CNI zeroConfig) (cfg_Kubernetes zeroConfig)
    (mkRawOvnAuthConfig "tcp://foobar.org:4444" "" "" "")
    (cfg_OvnSouth zeroConfig).

(** A host without configuration file, external ids or files, whose
    [url.Parse] gives the empty address the empty scheme. *)
Definition hostWithoutAPIServer : World :=
  mkWorld "linux" "" (fun _ => OpenFails) (fun _ => None) (fun _ => false)
    (fun s => if String.eqb s "" then Some "" else Some "http").

(** The number of bytes [c] in [s] ([strings.Count] for one byte). *)
Fixpoint count (c : ascii) (s : string) : nat :=
  match s with
  | EmptyString => 0%nat
  | String d r => if Ascii.eqb d c then S (count c r) else count c r
  end.

(** [s] between double quotes, as [SetDBAuth] writes an address. *)
Definition quoted (s : string) : string :=
  String dbauth.dquote (s ++ String dbauth.dquote "").

(** The last byte of [s] is [c]. *)
Fixpoint lastIs (s : string) (c : ascii) : bool :=
  match s with
  | EmptyString => false
  | String d EmptyString => Ascii.eqb d c
  | String _ r => lastIs r c
  end.

(** The command line [ovs-vsctl] gets to set an external id. *)
Definition setExternalIDArgs (key value : string) : list string :=
  ["--timeout=15"; "set"; "Open_vSwitch"; ".";
   ("external_ids:" ++ key ++ "=" ++ value)%string].

(** The command line [ovn-nbctl] gets to fetch the CA certificate. *)
Definition bootstrapArgs (a : OvnDBAuth) : list string :=
  let args := [("--db=" ++ OvnAddressForClient a)%string; "--timeout=5"] in
  let args :=
    if String.eqb (Scheme a) OvnDBSchemeSSL
    then args ++ [("--private-key=" ++ PrivKey a)%string;
                  ("--certificate=" ++ Cert a)%string;
                  ("--bootstrap-ca-cert=" ++ CACert_ a)%string]
    else args in
  args ++ ["list"; "nb_global"].



(** A host that finds every command under [/usr/bin] and every file, and
    on which every command succeeds without output. *)
Definition quietHost : dbauth.Host unit :=
  dbauth.mkHost unit
    (fun _ cmd => inr ("/usr/bin/" ++ cmd)%string)
    (fun _ _ _ => (tt, inr ""))
    (fun _ _ => dbauth.StatOK).

(** A host like [quietHost] that has no file at all. *)
Definition emptyHost : dbauth.Host unit :=
  dbauth.mkHost unit
    (fun _ cmd => inr ("/usr/bin/" ++ cmd)%string)
    (fun _ _ _ => (tt, inr ""))
    (fun _ _ => dbauth.StatNotExist).

(** A host whose [ovs-vsctl] prints the quoted address [tcp:1.2.3.4:6641]
    and a line feed. *)
Definition printingHost : dbauth.Host unit :=
  dbauth.mkHost unit
    (fun _ cmd => inr ("/usr/bin/" ++ cmd)%string)
    (fun _ _ _ => (tt, inr (quoted "tcp:1.2.3.4:6641"
                             ++ String (ascii_of_nat 10) "")%string))
    (fun _ _ => dbauth.StatOK).

Definition start : dbauth.Run unit := dbauth.mkRun tt [].

Definition sslSouth : OvnDBAuth :=
  mkOvnDBAuth "ssl:1.2.3.4:6642" "/key" "/cert" "/ca" OvnDBSchemeSSL
    "ovn-sbctl" "ovn-remote".

(** A host like [quietHost] that lacks the CA certificate [/ca]. *)
Definition noCAHost : dbauth.Host unit :=
  dbauth.mkHost unit
    (fun _ cmd => inr ("/usr/bin/" ++ cmd)%string)
    (fun _ _ _ => (tt, inr ""))
    (fun _ path => if String.eqb path "/ca" then dbauth.StatNotExist
                   else dbauth.StatOK).

Definition tcpNorth : OvnDBAuth :=
  mkOvnDBAuth "tcp:1.2.3.4:6641" "" "" "" OvnDBSchemeTCP "ovn-nbctl" "ovn-nb".

Definition unixSouth : OvnDBAuth :=
  mkOvnDBAuth "" "" "" "" OvnDBSchemeUnix "ovn-sbctl" "ovn-remote".



(** A file system as a list of paths with their contents, and the
    operating system over it for the process [pid]. *)
Fixpoint lookupFile (fs : list (string * string)) (path : string)
  : option string :=
  match fs with
  | [] => None
  | (p, data) :: rest =>
      if String.eqb p path then Some data else lookupFile rest path
  end.

Definition listOS (pid : Z) : pidfile.OS (list (string * string)) :=
  pidfile.mkOS (list (string * string))
    (fun fs path => match lookupFile fs path with
                    | Some _ => dbauth.StatOK
                    | None => dbauth.StatNotExist
                    end)
    (fun fs path => match lookupFile fs path with
                    | Some data => inr data
                    | None => inl (pidfile.fileError "no such file")
                    end)
    (fun fs path data => ((path, data) :: fs, true))
    (fun fs path =>
       (filter (fun e => negb (String.eqb (fst e) path)) fs, true))
    (fun _ => pid).


(** [if err != nil { return err }] between two steps. *)
Definition next {St : Type} (f g : mgmtport.Run St -> option mgmtport.CmdError * mgmtport.Run St) (r : mgmtport.Run St)
  : option mgmtport.CmdError * mgmtport.Run St :=
  match f r with
  | (Some err, r) => (Some err, r)
  | (None, r) => g r
  end.


(** The same host seen by the process [pid]. *)
Definition asProcess {St : Type} (os : pidfile.OS St) (pid : Z)
  : pidfile.OS St :=
  pidfile.mkOS St (pidfile.Stat os) (pidfile.ReadFile os)
    (pidfile.WriteFile os) (pidfile.Remove os) (fun _ => pid).

(** [/proc/<pid>/cmdline] *)
Definition procCmdline (pid : Z) : string :=
  "/proc/" ++ pidfile.itoa pid ++ "/cmdline".

(** * Proofs *)

(** ** Basic facts about strings *)

Lemma isEmpty_true (s : string) : isEmpty s = true <-> s = "".
Proof. destruct s; simpl; split; congruence. Qed.

Lemma isEmpty_false (s : string) : isEmpty s = false <-> s <> "".
Proof. destruct s; simpl; split; congruence. Qed.

Lemma Split_nonempty (s : string) (sep : ascii) : strings.Split s sep <> [].
Proof.
  destruct s as [|c r]; simpl; [discriminate|].
  destruct (Ascii.eqb c sep); [discriminate|].
  destruct (strings.Split r sep); discriminate.
Qed.

(** ** The loop of [newOvnDBAuth] *)

Section AddressLoop.

Variable urlString : string.

(** One round of the loop on an endpoint that passes every check. *)
Lemma addressLoop_step (e : string) (rest : list string)
    (scheme address s host port hostPort : string) :
  endpointParts e s host port hostPort ->
  ParseIP host <> None ->
  scheme = "" \/ scheme = s ->
  addressLoop urlString (e :: rest) scheme address =
  addressLoop urlString rest s
    (if isEmpty address then (s ++ ":" ++ host ++ ":" ++ port)%string
     else (address ++ "," ++ s ++ ":" ++ host ++ ":" ++ port)%string).
Proof.
  intros (h & p & Hsplit & -> & Hhp) Hip Hs.
  cbn [addressLoop]. rewrite Hsplit, Hhp.
  destruct (ParseIP host) eqn:E; [|congruence].
  destruct Hs as [-> | ->].
  - simpl. reflexivity.
  - destruct (isEmpty s) eqn:Es.
    + reflexivity.
    + rewrite String.eqb_refl. reflexivity.
Qed.

(** What a successful run of the loop says about its endpoints: each one
    is well formed, and all carry the running scheme once it is set. *)
Lemma addressLoop_inr (eps : list string) :
  forall scheme address scheme' address',
    addressLoop urlString eps scheme address = inr (scheme', address') ->
    Forall (fun e => exists s, endpointOf s e) eps
    /\ (scheme <> "" -> scheme' = scheme /\ Forall (endpointOf scheme) eps).
Proof.
  induction eps as [|e rest IH]; intros scheme address scheme' address' H.
  - cbn [addressLoop] in H. inversion H; subst. repeat split; constructor.
  - cbn [addressLoop] in H.
    destruct (strings.Split e ":") as [|s0 [|s1 [|s2 [|? ?]]]] eqn:Hsplit;
      try discriminate.
    destruct (isEmpty scheme) eqn:Es.
    + destruct (SplitHostPort (s1 ++ ":" ++ s2)) as [?|[host port]] eqn:Hhp;
        [discriminate|].
      destruct (ParseIP host) eqn:Hip; [|discriminate].
      apply IH in H. destruct H as [Hall _].
      split.
      * constructor; [|exact Hall].
        exists s0, host, port, (s1 ++ ":" ++ s2)%string. split; [|congruence].
        exists s1, s2. auto.
      * intros Hne. apply isEmpty_true in Es. contradiction.
    + destruct (String.eqb scheme s0) eqn:Eq; cbn [negb] in H; [|discriminate].
      apply String.eqb_eq in Eq. subst s0.
      destruct (SplitHostPort (s1 ++ ":" ++ s2)) as [?|[host port]] eqn:Hhp;
        [discriminate|].
      destruct (ParseIP host) eqn:Hip; [|discriminate].
      apply IH in H. destruct H as [Hall Hsame].
      assert (Hne : scheme <> "") by (apply isEmpty_false; exact Es).
      assert (He : endpointOf scheme e).
      { exists host, port, (s1 ++ ":" ++ s2)%string. split; [|congruence].
        exists s1, s2. auto. }
      split.
      * constructor; [exists scheme; exact He | exact Hall].
      * intros _. destruct (Hsame Hne) as [-> Hrest]. split; [reflexivity|].
        constructor; assumption.
Qed.

(** Endpoints that are all well formed with one non-empty scheme pass the
    loop, which ends with that scheme. *)
Lemma addressLoop_same_scheme (scheme : string) (eps : list string) :
  scheme <> "" ->
  Forall (endpointOf scheme) eps ->
  forall address, exists address',
    addressLoop urlString eps scheme address = inr (scheme, address').
Proof.
  intros Hne Hall. induction Hall as [|e rest He _ IH]; intros address.
  - exists address. reflexivity.
  - destruct He as (host & port & hostPort & Hparts & Hip).
    rewrite (addressLoop_step e rest scheme address scheme host port hostPort
               Hparts Hip (or_intror eq_refl)).
    apply IH.
Qed.

Lemma addressLoop_same_scheme_start (scheme : string) (eps : list string) :
  scheme <> "" -> eps <> [] ->
  Forall (endpointOf scheme) eps ->
  exists address', addressLoop urlString eps "" "" = inr (scheme, address').
Proof.
  intros Hne Hnil Hall. destruct Hall as [|e rest He Hrest]; [congruence|].
  destruct He as (host & port & hostPort & Hparts & Hip).
  rewrite (addressLoop_step e rest "" "" scheme host port hostPort
             Hparts Hip (or_introl eq_refl)).
  apply addressLoop_same_scheme; assumption.
Qed.



End AddressLoop.

(** ** [newOvnDBAuth] on connection strings *)




Lemma append_assoc (a b c : string) : ((a ++ b) ++ c = a ++ b ++ c)%string.
Proof. induction a; simpl; congruence. Qed.



(** A non-empty connection string whose endpoints are all well formed
    with one scheme reaches the [switch] with that scheme. *)
Lemma newOvnDBAuth_wellformed (ctl ext url pk c ca scheme : string) :
  url <> "" -> scheme <> "" ->
  Forall (endpointOf scheme) (endpoints url) ->
  exists address,
    newOvnDBAuth ctl ext url pk c ca =
    if String.eqb scheme "ssl" then
      if isEmpty pk || isEmpty c || isEmpty ca then inl ErrMustSpecifySSL
      else inr (mkOvnDBAuth address pk c ca OvnDBSchemeSSL ctl ext)
    else if String.eqb scheme "tcp" then
      if negb (isEmpty pk) || negb (isEmpty c) || negb (isEmpty ca)
      then inl ErrCertOrKeyGiven
      else inr (mkOvnDBAuth address "" "" "" OvnDBSchemeTCP ctl ext)
    else inl (ErrUnknownScheme scheme).
Proof.
  intros Hurl Hs Hall.
  destruct (addressLoop_same_scheme_start (strings.Replace url "//" "") scheme
              (endpoints url) Hs (Split_nonempty _ _) Hall) as [address Hloop].
  exists address. unfold newOvnDBAuth.
  apply isEmpty_false in Hurl. rewrite Hurl.
  unfold endpoints in Hloop. rewrite Hloop. reflexivity.
Qed.

(** What an accepted connection string looks like. *)
Lemma newOvnDBAuth_accepted (ctl ext url pk c ca : string) (a : OvnDBAuth) :
  newOvnDBAuth ctl ext url pk c ca = inr a ->
  (url = "" /\ Scheme a = OvnDBSchemeUnix /\ pk = "" /\ c = "" /\ ca = ""
   /\ PrivKey a = pk /\ Cert a = c /\ CACert_ a = ca)
  \/ (url <> ""
      /\ Forall (fun e => exists s, endpointOf s e) (endpoints url)
      /\ ((Scheme a = OvnDBSchemeSSL /\ pk <> "" /\ c <> "" /\ ca <> "")
          \/ (Scheme a = OvnDBSchemeTCP /\ pk = "" /\ c = "" /\ ca = ""))
      /\ PrivKey a = pk /\ Cert a = c /\ CACert_ a = ca).
Proof.
  unfold newOvnDBAuth. destruct (isEmpty url) eqn:Eu.
  - destruct pk, c, ca; simpl; try discriminate.
    intros H. inversion H; subst. left. apply isEmpty_true in Eu.
    simpl. repeat split; auto.
  - apply isEmpty_false in Eu.
    destruct (addressLoop _ _ _ _) as [?|[scheme address]] eqn:Hloop;
      [discriminate|].
    apply addressLoop_inr in Hloop. destruct Hloop as [Hall _].
    destruct (String.eqb scheme "ssl").
    + destruct pk, c, ca; simpl; try discriminate.
      intros H. inversion H; subst. right. simpl.
      repeat split; auto. left. repeat split; discriminate.
    + destruct (String.eqb scheme "tcp"); [|discriminate].
      destruct pk, c, ca; simpl; try discriminate.
      intros H. inversion H; subst. right. simpl.
      repeat split; auto.
Qed.

(** C10 (confirmed).  With an empty address string [newOvnDBAuth] returns
    an auth of scheme [unix] that carries no address, key or certificate;
    when a private key, a certificate or a CA certificate comes with the
    empty address it returns the "certificate or key given" error
    instead. *)
Theorem newOvnDBAuth_empty_address (ctl ext pk c ca : string) :
  (pk = "" /\ c = "" /\ ca = "" ->
   newOvnDBAuth ctl ext "" pk c ca =
   inr (mkOvnDBAuth "" "" "" "" OvnDBSchemeUnix ctl ext))
  /\ (pk <> "" \/ c <> "" \/ ca <> "" ->
      newOvnDBAuth ctl ext "" pk c ca = inl ErrCertOrKeyGiven).
Proof.
  split.
  - intros (-> & -> & ->). reflexivity.
  - intros H. unfold newOvnDBAuth. simpl.
    destruct pk, c, ca; simpl; try reflexivity.
    destruct H as [H | [H | H]]; congruence.
Qed.

Lemma newOvnDBAuth_empty_address_witness :
  newOvnDBAuth "ovn-sbctl" "ovn-remote" "" "" "" "" =
  inr (mkOvnDBAuth "" "" "" "" OvnDBSchemeUnix "ovn-sbctl" "ovn-remote")
  /\ newOvnDBAuth "ovn-nbctl" "ovn-nb" "" "/bar/baz/foo" "" "" =
     inl ErrCertOrKeyGiven.
Proof.
  split.
  - apply (proj1 (newOvnDBAuth_empty_address "ovn-sbctl" "ovn-remote" "" "" "")).
    repeat split; reflexivity.
  - apply (proj2 (newOvnDBAuth_empty_address "ovn-nbctl" "ovn-nb"
                    "/bar/baz/foo" "" "")).
    left. discriminate.
Defined.

(** C5 (counterexample).  The scheme [unix] is not accepted in a
    connection string: [unix:1.2.3.4:6641] gets the "unknown OVN DB scheme"
    error. *)
Lemma unix_scheme_not_accepted :
  newOvnDBAuth "ovn-nbctl" "ovn-nb" "unix:1.2.3.4:6641" "" "" "" =
  inl (ErrUnknownScheme "unix").
Proof. vm_compute. reflexivity. Qed.

(** C5 (amended).  A non-empty connection string whose endpoints are all
    well formed ([scheme:ip:port] or [scheme://ip:port], numeric host) with
    one scheme is accepted exactly when the scheme is [ssl] and key,
    certificate and CA certificate are all given, or the scheme is [tcp]
    and none of them is; for any other scheme, [unix] included, the result
    is the "unknown OVN DB scheme" error. *)
Theorem connection_string_schemes (ctl ext url pk c ca scheme : string) :
  url <> "" -> scheme <> "" ->
  Forall (endpointOf scheme) (endpoints url) ->
  ((exists a, newOvnDBAuth ctl ext url pk c ca = inr a) <->
   (scheme = "ssl" /\ pk <> "" /\ c <> "" /\ ca <> "")
   \/ (scheme = "tcp" /\ pk = "" /\ c = "" /\ ca = ""))
  /\ (scheme <> "ssl" -> scheme <> "tcp" ->
      newOvnDBAuth ctl ext url pk c ca = inl (ErrUnknownScheme scheme)).
Proof.
  intros Hurl Hs Hall.
  destruct (newOvnDBAuth_wellformed ctl ext url pk c ca scheme Hurl Hs Hall)
    as [address H].
  rewrite H. clear H.
  destruct (String.eqb scheme "ssl") eqn:Essl.
  - apply String.eqb_eq in Essl. subst scheme. split.
    + destruct pk, c, ca; simpl; split;
        try (intros [? Hx]; discriminate);
        try (intros [(_ & H1 & H2 & H3) | (H0 & _)]; congruence).
      * intros _. left. repeat split; try reflexivity; discriminate.
      * intros _. eauto.
    + congruence.
  - apply String.eqb_neq in Essl.
    destruct (String.eqb scheme "tcp") eqn:Etcp.
    + apply String.eqb_eq in Etcp. subst scheme. split.
      * destruct pk, c, ca; simpl; split;
          try (intros [? Hx]; discriminate);
          try (intros [(H0 & _) | (_ & H1 & H2 & H3)]; congruence).
        -- intros _. right. repeat split; reflexivity.
        -- intros _. eauto.
      * congruence.
    + apply String.eqb_neq in Etcp. split.
      * split; [intros [? Hx]; discriminate|].
        intros [(H0 & _) | (H0 & _)]; congruence.
      * reflexivity.
Qed.

Lemma endpointOf_unix_example : endpointOf "unix" "unix:1.2.3.4:6641".
Proof.
  exists "1.2.3.4", "6641", "1.2.3.4:6641". split.
  - exists "1.2.3.4", "6641". repeat split; reflexivity.
  - vm_compute. discriminate.
Defined.

Lemma connection_string_schemes_witness :
  newOvnDBAuth "ovn-nbctl" "ovn-nb" "unix:1.2.3.4:6641" "" "" "" =
  inl (ErrUnknownScheme "unix").
Proof.
  apply (proj2 (connection_string_schemes "ovn-nbctl" "ovn-nb"
                  "unix:1.2.3.4:6641" "" "" "" "unix"
                  ltac:(discriminate) ltac:(discriminate)
                  (Forall_cons _ endpointOf_unix_example (Forall_nil _))));
    discriminate.
Defined.




(** ** Connection strings written out *)

Lemma lacks_app (c : ascii) (a b : string) :
  lacks c (a ++ b) = lacks c a && lacks c b.
Proof.
  induction a as [|d a IH]; simpl; [reflexivity|].
  rewrite IH, andb_assoc. reflexivity.
Qed.

Lemma Split_lacks (sep : ascii) (a : string) :
  lacks sep a = true -> strings.Split a sep = [a].
Proof.
  induction a as [|d a IH]; simpl; [reflexivity|].
  intros H. apply andb_true_iff in H. destruct H as [Hd Ha].
  apply negb_true_iff in Hd. rewrite Hd, (IH Ha). reflexivity.
Qed.

Lemma Split_app (sep : ascii) (a r : string) :
  lacks sep a = true ->
  strings.Split (a ++ String sep r) sep = a :: strings.Split r sep.
Proof.
  induction a as [|d a IH]; simpl.
  - intros _. rewrite Ascii.eqb_refl. reflexivity.
  - intros H. apply andb_true_iff in H. destruct H as [Hd Ha].
    apply negb_true_iff in Hd. rewrite Hd, (IH Ha). reflexivity.
Qed.

Lemma Replace_loop_lacks (fuel : nat) (s : string) :
  lacks "/" s = true -> strings.Replace_loop fuel s "//" "" = s.
Proof.
  revert s. induction fuel as [|fuel IH]; intros s H; [reflexivity|].
  destruct s as [|c r]; [reflexivity|].
  simpl in H. apply andb_true_iff in H. destruct H as [Hc Hr].
  apply negb_true_iff in Hc.
  cbn [strings.Replace_loop String.prefix].
  destruct (ascii_dec "/" c) as [<-|_]; [discriminate|].
  rewrite (IH r Hr). reflexivity.
Qed.

Lemma Replace_loop_app (a r : string) (fuel : nat) :
  lacks "/" a = true ->
  strings.Replace_loop (String.length a + fuel) (a ++ r) "//" "" =
  (a ++ strings.Replace_loop fuel r "//" "")%string.
Proof.
  induction a as [|c a IH]; intros H; [reflexivity|].
  simpl in H. apply andb_true_iff in H. destruct H as [Hc Ha].
  cbn [String.length Nat.add String.append strings.Replace_loop String.prefix].
  destruct (ascii_dec "/" c) as [<-|_]; [discriminate|].
  rewrite (IH Ha). reflexivity.
Qed.

Lemma append_length (a b : string) :
  String.length (a ++ b) = (String.length a + String.length b)%nat.
Proof. induction a; simpl; congruence. Qed.

Lemma Replace_loop_slashes (fuel : nat) (r : string) :
  strings.Replace_loop (S fuel) (String "/" (String "/" r)) "//" "" =
  strings.Replace_loop fuel r "//" "".
Proof. cbn [strings.Replace_loop]. destruct r; reflexivity. Qed.

(** [scheme://host:port] loses its slashes. *)
Lemma Replace_url (s r : string) :
  lacks "/" s = true -> lacks "/" r = true ->
  strings.Replace (s ++ "://" ++ r) "//" "" = (s ++ ":" ++ r)%string.
Proof.
  intros Hs Hr. unfold strings.Replace.
  change (s ++ "://" ++ r)%string
    with (s ++ ":" ++ String "/" (String "/" r))%string.
  rewrite <- (append_assoc s ":" (String "/" (String "/" r))), append_length.
  rewrite Replace_loop_app by (rewrite lacks_app, Hs; reflexivity).
  rewrite append_assoc. do 2 f_equal.
  change (String.length (String "/" (String "/" r)))
    with (S (S (String.length r))).
  rewrite Replace_loop_slashes. apply Replace_loop_lacks. exact Hr.
Qed.

Lemma last_app (c : ascii) (h p : string) :
  lacks c p = true -> last (h ++ String c p) c = Some (String.length h).
Proof.
  intros Hp.
  assert (Hnone : last p c = None).
  { clear h. induction p as [|d p IH]; [reflexivity|].
    simpl in Hp. apply andb_true_iff in Hp. destruct Hp as [Hd Hp].
    apply negb_true_iff in Hd. simpl. rewrite (IH Hp), Hd. reflexivity. }
  induction h as [|d h IH]; simpl.
  - rewrite Hnone, Ascii.eqb_refl. reflexivity.
  - rewrite IH. reflexivity.
Qed.

Lemma byteIndex_lacks (c : ascii) (s : string) :
  lacks c s = true -> byteIndex s c = None.
Proof.
  induction s as [|d s IH]; [reflexivity|].
  simpl. intros H. apply andb_true_iff in H. destruct H as [Hd Hs].
  apply negb_true_iff in Hd. rewrite Hd, (IH Hs). reflexivity.
Qed.

Lemma take_app (h r : string) : strings.take (String.length h) (h ++ r) = h.
Proof. induction h; simpl; [destruct r; reflexivity | congruence]. Qed.

Lemma drop_app (h r : string) : strings.drop (String.length h) (h ++ r) = r.
Proof. induction h; simpl; [reflexivity | assumption]. Qed.

(** [host:port] written plainly splits into its two parts. *)
Lemma SplitHostPort_plain (h p : string) :
  plain h = true -> plain p = true ->
  SplitHostPort (h ++ ":" ++ p) = inr (h, p).
Proof.
  unfold plain. intros Hh Hp.
  repeat (apply andb_true_iff in Hh; destruct Hh as [Hh ?]).
  repeat (apply andb_true_iff in Hp; destruct Hp as [Hp ?]).
  unfold SplitHostPort.
  change (h ++ ":" ++ p)%string with (h ++ String ":" p)%string.
  rewrite (last_app ":" h p Hp).
  assert (Hhead : headIs (h ++ String ":" p) "[" = false).
  { destruct h as [|d h]; [reflexivity|]. simpl.
    match goal with H : lacks "[" (String d h) = true |- _ =>
      simpl in H; apply andb_true_iff in H; destruct H as [Hd _];
      apply negb_true_iff in Hd; exact Hd end. }
  rewrite Hhead, take_app, (byteIndex_lacks ":" h Hh).
  cbn [isSome isNone negb strings.drop].
  rewrite (byteIndex_lacks "[") by (rewrite lacks_app; simpl;
    repeat (apply andb_true_iff; split); auto).
  rewrite (byteIndex_lacks "]") by (rewrite lacks_app; simpl;
    repeat (apply andb_true_iff; split); auto).
  cbn [isSome isNone negb].
  replace (String.length h + 1)%nat with (String.length (h ++ ":")).
  - change (h ++ String ":" p)%string with (h ++ ":" ++ p)%string.
    rewrite <- append_assoc, drop_app. reflexivity.
  - rewrite append_length. reflexivity.
Qed.

(** An endpoint written [scheme:host:port] with plain parts and a numeric
    host is well formed. *)
Lemma endpointOf_plain (s h p : string) :
  plain s = true -> plain h = true -> plain p = true ->
  ParseIP h <> None ->
  endpointOf s (s ++ ":" ++ h ++ ":" ++ p).
Proof.
  intros Hs Hh Hp Hip.
  exists h, p, (h ++ ":" ++ p)%string. split; [|exact Hip].
  exists h, p. split; [|split; [reflexivity | apply SplitHostPort_plain; auto]].
  unfold plain in Hs, Hh, Hp.
  repeat (apply andb_true_iff in Hs; destruct Hs as [Hs ?]).
  repeat (apply andb_true_iff in Hh; destruct Hh as [Hh ?]).
  repeat (apply andb_true_iff in Hp; destruct Hp as [Hp ?]).
  change (s ++ ":" ++ h ++ ":" ++ p)%string
    with (s ++ String ":" (h ++ String ":" p))%string.
  rewrite (Split_app ":" s _ Hs), (Split_app ":" h _ Hh), (Split_lacks ":" p Hp).
  reflexivity.
Qed.

(** The one endpoint of [scheme://host:port] and of [scheme:host:port]. *)
Lemma endpoints_single (s h p : string) :
  plain s = true -> plain h = true -> plain p = true ->
  endpoints (s ++ "://" ++ h ++ ":" ++ p) = [(s ++ ":" ++ h ++ ":" ++ p)%string]
  /\ endpoints (s ++ ":" ++ h ++ ":" ++ p) = [(s ++ ":" ++ h ++ ":" ++ p)%string].
Proof.
  unfold plain. intros Hs Hh Hp.
  repeat (apply andb_true_iff in Hs; destruct Hs as [Hs ?]).
  repeat (apply andb_true_iff in Hh; destruct Hh as [Hh ?]).
  repeat (apply andb_true_iff in Hp; destruct Hp as [Hp ?]).
  assert (Hslash : lacks "/" (h ++ ":" ++ p) = true).
  { rewrite lacks_app. simpl. repeat (apply andb_true_iff; split); auto. }
  assert (Hcomma : lacks "," (s ++ ":" ++ h ++ ":" ++ p) = true).
  { rewrite !lacks_app. simpl. repeat (apply andb_true_iff; split); auto. }
  unfold endpoints. split.
  - rewrite Replace_url by assumption. apply Split_lacks. exact Hcomma.
  - unfold strings.Replace. rewrite Replace_loop_lacks.
    + apply Split_lacks. exact Hcomma.
    + rewrite lacks_app. simpl. repeat (apply andb_true_iff; split); auto.
Qed.

(** [newOvnDBAuth] on one endpoint written out: the scheme decides, and
    the stored address is [scheme:host:port]. *)
Lemma newOvnDBAuth_single_endpoint (ctl ext s h p pk c ca : string) :
  plain s = true -> plain h = true -> plain p = true ->
  s <> "" -> ParseIP h <> None ->
  newOvnDBAuth ctl ext (s ++ "://" ++ h ++ ":" ++ p) pk c ca =
  if String.eqb s "ssl" then
    if isEmpty pk || isEmpty c || isEmpty ca then inl ErrMustSpecifySSL
    else inr (mkOvnDBAuth (s ++ ":" ++ h ++ ":" ++ p) pk c ca OvnDBSchemeSSL
                          ctl ext)
  else if String.eqb s "tcp" then
    if negb (isEmpty pk) || negb (isEmpty c) || negb (isEmpty ca)
    then inl ErrCertOrKeyGiven
    else inr (mkOvnDBAuth (s ++ ":" ++ h ++ ":" ++ p) "" "" "" OvnDBSchemeTCP
                          ctl ext)
  else inl (ErrUnknownScheme s).
Proof.
  intros Hs Hh Hp Hne Hip.
  destruct (endpoints_single s h p Hs Hh Hp) as [Heps _].
  destruct (endpointOf_plain s h p Hs Hh Hp Hip)
    as (host & port & hostPort & (h' & p' & Hsplit & -> & Hhp) & Hip').
  unfold newOvnDBAuth.
  assert (Hurl : isEmpty (s ++ "://" ++ h ++ ":" ++ p) = false).
  { destruct s; [congruence | reflexivity]. }
  rewrite Hurl. unfold endpoints in Heps. rewrite Heps.
  cbn [addressLoop isEmpty]. rewrite Hsplit, Hhp.
  destruct (ParseIP host) eqn:E; [|congruence].
  pose proof (endpointOf_plain s h p Hs Hh Hp Hip) as _.
  assert (Hsame : (host, port) = (h, p)).
  { unfold plain in Hs. repeat (apply andb_true_iff in Hs; destruct Hs as [Hs ?]).
    unfold plain in Hh. pose proof Hh as Hh'.
    repeat (apply andb_true_iff in Hh'; destruct Hh' as [Hh' ?]).
    change (s ++ ":" ++ h ++ ":" ++ p)%string
      with (s ++ String ":" (h ++ String ":" p))%string in Hsplit.
    rewrite (Split_app ":" s _ Hs), (Split_app ":" h _ Hh') in Hsplit.
    unfold plain in Hp. pose proof Hp as Hp'.
    repeat (apply andb_true_iff in Hp'; destruct Hp' as [Hp' ?]).
    rewrite (Split_lacks ":" p Hp') in Hsplit.
    injection Hsplit as <- <-.
    rewrite SplitHostPort_plain in Hhp by assumption. congruence. }
  injection Hsame as -> ->. reflexivity.
Qed.

(** ** Mixed schemes *)

(** When the first endpoint has a non-empty scheme, a later endpoint with
    another scheme makes [newOvnDBAuth] fail. *)
Lemma mixed_schemes_rejected (ctl ext url pk c ca : string)
    (e1 e2 : string) (rest : list string) (s1 h1 p1 s2 h2 p2 : string) :
  url <> "" ->
  endpoints url = e1 :: rest ->
  strings.Split e1 ":" = [s1; h1; p1] -> s1 <> "" ->
  In e2 rest ->
  strings.Split e2 ":" = [s2; h2; p2] -> s2 <> s1 ->
  exists err, newOvnDBAuth ctl ext url pk c ca = inl err.
Proof.
  intros Hurl Heps H1 Hs1 Hin H2 Hneq.
  unfold newOvnDBAuth. apply isEmpty_false in Hurl. rewrite Hurl.
  unfold endpoints in Heps. rewrite Heps.
  destruct (addressLoop _ (e1 :: rest) "" "") as [err|[scheme address]] eqn:Hloop;
    [eauto|exfalso].
  cbn [addressLoop isEmpty] in Hloop. rewrite H1 in Hloop.
  destruct (SplitHostPort (h1 ++ ":" ++ p1)) as [?|[host port]]; [discriminate|].
  destruct (ParseIP host); [|discriminate].
  apply addressLoop_inr in Hloop. destruct Hloop as [_ Hsame].
  destruct (Hsame Hs1) as [_ Hall].
  rewrite Forall_forall in Hall.
  destruct (Hall e2 Hin) as (host' & port' & hp' & (h & p & Hsplit & _) & _).
  rewrite H2 in Hsplit. inversion Hsplit. contradiction.
Qed.

(** C6 (the failing input).  A first endpoint with an empty scheme leaves
    the loop's [scheme] variable at its start value, so the next endpoint
    sets it instead of being compared: the mixed string
    [":1.2.3.4:6641,tcp:1.2.3.5:6641"] is accepted as [tcp]. *)
Theorem mixed_schemes_accepted_after_empty_scheme :
  endpoints ":1.2.3.4:6641,tcp:1.2.3.5:6641" =
  [":1.2.3.4:6641"; "tcp:1.2.3.5:6641"]
  /\ strings.Split ":1.2.3.4:6641" ":" = [""; "1.2.3.4"; "6641"]
  /\ strings.Split "tcp:1.2.3.5:6641" ":" = ["tcp"; "1.2.3.5"; "6641"]
  /\ newOvnDBAuth "ovn-nbctl" "ovn-nb" ":1.2.3.4:6641,tcp:1.2.3.5:6641"
       "" "" "" =
     inr (mkOvnDBAuth ":1.2.3.4:6641,tcp:1.2.3.5:6641" "" "" "" OvnDBSchemeTCP
                      "ovn-nbctl" "ovn-nb").
Proof. vm_compute. repeat split; reflexivity. Qed.

(** ** [overrideFields] never panics on two structs of one type *)

(** Case analysis on the zero tests of [overrideFields_loop]. *)
Ltac override_cases :=
  repeat match goal with
         | |- context [negb (?n =? 0)] => destruct (n =? 0); cbn
         | |- context [isEmpty ?s] => destruct s; cbn
         end; reflexivity.

Lemma overrideFields_DefaultConfig (dst src : DefaultConfig) :
  overrideFields dst src =
  inr (mkDefaultConfig (orInt (MTU dst) (MTU src))
         (orInt (ConntrackZone dst) (ConntrackZone src))
         (orString (EncapType dst) (EncapType src))
         (orString (EncapIP dst) (EncapIP src))
         (orInt (InactivityProbe dst) (InactivityProbe src))).
Proof.
  destruct dst, src. unfold overrideFields, orInt, orString. cbn.
  override_cases.
Qed.

Lemma overrideFields_LoggingConfig (dst src : LoggingConfig) :
  overrideFields dst src =
  inr (mkLoggingConfig (orString (File dst) (File src))
         (orInt (Level dst) (Level src))).
Proof.
  destruct dst, src. unfold overrideFields, orInt, orString. cbn.
  override_cases.
Qed.

Lemma overrideFields_CNIConfig (dst src : CNIConfig) :
  overrideFields dst src =
  inr (mkCNIConfig (orString (ConfDir dst) (ConfDir src))
         (orString (Plugin dst) (Plugin src))
         (orString (WinHNSNetworkID dst) (WinHNSNetworkID src))).
Proof.
  destruct dst, src. unfold overrideFields, orString. cbn.
  override_cases.
Qed.

Lemma overrideFields_KubernetesConfig (dst src : KubernetesConfig) :
  overrideFields dst src =
  inr (mkKubernetesConfig (orString (Kubeconfig dst) (Kubeconfig src))
         (orString (CACert dst) (CACert src))
         (orString (APIServer dst) (APIServer src))
         (orString (Token dst) (Token src))).
Proof.
  destruct dst, src. unfold overrideFields, orString. cbn.
  override_cases.
Qed.

Lemma overrideFields_rawOvnAuthConfig (dst src : rawOvnAuthConfig) :
  overrideFields dst src =
  inr (mkRawOvnAuthConfig (orString (Address dst) (Address src))
         (orString (ClientPrivKey dst) (ClientPrivKey src))
         (orString (ClientCert dst) (ClientCert src))
         (orString (ClientCACert dst) (ClientCACert src))).
Proof.
  destruct dst, src. unfold overrideFields, orString. cbn.
  override_cases.
Qed.

Lemma precedence_orString (cli file dflt : string) :
  orString (orString dflt file) cli = precedence cli file dflt.
Proof. unfold orString, precedence. destruct cli, file; reflexivity. Qed.

Lemma precedenceInt_orInt (cli file dflt : Z) :
  orInt (orInt dflt file) cli = precedenceInt cli file dflt.
Proof.
  unfold orInt, precedenceInt. destruct (cli =? 0), (file =? 0); reflexivity.
Qed.

Lemma precedence_nonempty (cli file dflt : string) :
  dflt <> "" -> precedence cli file dflt <> "".
Proof. unfold precedence. destruct cli, file; simpl; congruence. Qed.

(** The values [buildOvnAuth] hands to [newOvnDBAuth]. *)
Lemma buildRawAuth_eq (w : World) (direction : string)
    (cli conf : rawOvnAuthConfig) (readAddress : bool) :
  let address := chosenAddress w direction cli conf readAddress in
  let ssl := strings.HasPrefix address "ssl" in
  buildRawAuth w direction cli conf readAddress =
  inr (mkRawOvnAuthConfig address
         (precedence (ClientPrivKey cli) (ClientPrivKey conf)
            (if ssl then "/etc/openvswitch/ovn" ++ direction ++ "-privkey.pem"
             else ""))
         (precedence (ClientCert cli) (ClientCert conf)
            (if ssl then "/etc/openvswitch/ovn" ++ direction ++ "-cert.pem"
             else ""))
         (precedence (ClientCACert cli) (ClientCACert conf)
            (if ssl then "/etc/openvswitch/ovn" ++ direction ++ "-ca.cert"
             else ""))).
Proof.
  intros address ssl. unfold buildRawAuth.
  assert (Ha : (if isEmpty (if isEmpty (Address cli) then Address conf
                            else Address cli) && readAddress
                then getOVSExternalID w ("ovn-" ++ direction)
                else if isEmpty (Address cli) then Address conf
                     else Address cli) = address).
  { unfold address, chosenAddress, precedence, discovered.
    destruct (Address cli), (Address conf), readAddress; reflexivity. }
  rewrite Ha. fold ssl.
  assert (Hb : orString (orString address (Address conf)) (Address cli) = address).
  { rewrite precedence_orString.
    unfold address, chosenAddress, precedence.
    destruct (Address cli), (Address conf); reflexivity. }
  destruct ssl; rewrite overrideFields_rawOvnAuthConfig;
    rewrite overrideFields_rawOvnAuthConfig; cbn [Address ClientPrivKey
      ClientCert ClientCACert]; rewrite Hb, !precedence_orString; reflexivity.
Qed.

Lemma addressLoop_error_kind (url : string) (eps : list string) :
  forall scheme address e,
    addressLoop url eps scheme address = inl e -> e <> ErrMustSpecifySSL.
Proof.
  induction eps as [|ep rest IH]; intros scheme address e H.
  - discriminate.
  - cbn [addressLoop] in H.
    destruct (strings.Split ep ":") as [|s0 [|s1 [|s2 [|? ?]]]];
      try (inversion H; discriminate).
    destruct (isEmpty scheme).
    + destruct (SplitHostPort _) as [?|[host port]];
        [inversion H; discriminate|].
      destruct (ParseIP host); [|inversion H; discriminate].
      eapply IH; eassumption.
    + destruct (negb (String.eqb scheme s0)); [inversion H; discriminate|].
      destruct (SplitHostPort _) as [?|[host port]];
        [inversion H; discriminate|].
      destruct (ParseIP host); [|inversion H; discriminate].
      eapply IH; eassumption.
Qed.

(** [newOvnDBAuth] asks for the three files only when one is missing. *)
Lemma newOvnDBAuth_must_specify (ctl ext url pk c ca : string) :
  newOvnDBAuth ctl ext url pk c ca = inl ErrMustSpecifySSL ->
  pk = "" \/ c = "" \/ ca = "".
Proof.
  unfold newOvnDBAuth. destruct (isEmpty url).
  - destruct (_ || _); discriminate.
  - destruct (addressLoop _ _ _ _) as [e|[scheme address]] eqn:Hloop.
    + intros H. inversion H; subst.
      apply addressLoop_error_kind in Hloop. contradiction.
    + destruct (String.eqb scheme "ssl").
      * destruct pk; [auto|]. destruct c; [auto|]. destruct ca; [auto|].
        discriminate.
      * destruct (String.eqb scheme "tcp"); [|discriminate].
        destruct (_ || _); discriminate.
Qed.

(** ** Precedence of the configuration sources *)

Lemma kubernetesValues_eq (w : World) (cli file : config_) (d : Defaults)
    (k : KubernetesConfig) :
  kubernetesValues w cli file d k =
  inr (mkKubernetesConfig
         (precedence (Kubeconfig (cfg_Kubernetes cli))
            (Kubeconfig (cfg_Kubernetes file)) (Kubeconfig k))
         (precedence (CACert (cfg_Kubernetes cli))
            (CACert (cfg_Kubernetes file))
            (discovered w (K8sCert d) "k8s-ca-certificate" (CACert k)))
         (precedence (APIServer (cfg_Kubernetes cli))
            (APIServer (cfg_Kubernetes file))
            (discovered w (K8sAPIServer d) "k8s-api-server" (APIServer k)))
         (precedence (Token (cfg_Kubernetes cli))
            (Token (cfg_Kubernetes file))
            (discovered w (K8sToken d) "k8s-api-token" (Token k)))).
Proof.
  unfold kubernetesValues, discovered.
  rewrite !overrideFields_KubernetesConfig.
  destruct (K8sAPIServer d), (K8sToken d), (K8sCert d);
    cbn [Kubeconfig CACert APIServer Token];
    rewrite !precedence_orString; reflexivity.
Qed.

(** What a successful [buildOvnAuth] stores, in terms of the values it
    chose. *)
Lemma buildOvnAuth_success (w : World) (direction ext : string)
    (cli conf : rawOvnAuthConfig) (readAddress : bool) (r : OvnAuthConfig) :
  buildOvnAuth w direction ext cli conf readAddress = inr r ->
  let address := chosenAddress w direction cli conf readAddress in
  let ssl := strings.HasPrefix address "ssl" in
  let pk := precedence (ClientPrivKey cli) (ClientPrivKey conf)
              (if ssl then "/etc/openvswitch/ovn" ++ direction ++ "-privkey.pem"
               else "") in
  let c := precedence (ClientCert cli) (ClientCert conf)
             (if ssl then "/etc/openvswitch/ovn" ++ direction ++ "-cert.pem"
              else "") in
  let ca := precedence (ClientCACert cli) (ClientCACert conf)
              (if ssl then "/etc/openvswitch/ovn" ++ direction ++ "-ca.cert"
               else "") in
  exists a,
    ClientAuth r = Some a
    /\ newOvnDBAuth ("ovn-" ++ direction ++ "ctl") ext address pk c ca = inr a
    /\ PrivKey a = pk /\ Cert a = c /\ CACert_ a = ca.
Proof.
  intros H address ssl pk c ca. unfold buildOvnAuth in H.
  rewrite buildRawAuth_eq in H.
  cbn [Address ClientPrivKey ClientCert ClientCACert] in H.
  fold address ssl pk c ca in H.
  destruct (newOvnDBAuth _ ext address pk c ca) as [?|a] eqn:Hn; [discriminate|].
  inversion H; subst. exists a. split; [reflexivity|]. split; [reflexivity|].
  apply newOvnDBAuth_accepted in Hn.
  destruct Hn as [(_ & _ & _ & _ & _ & H1 & H2 & H3) | (_ & _ & _ & H1 & H2 & H3)];
    auto.
Qed.

(** What a successful [InitConfigWithPath] went through: each global is
    the outcome of its own step on the file's and the flags' values. *)
Lemma InitConfigWithPath_inr (w : World) (flag : string) (cli : config_)
    (configFile : string) (defaults : option Defaults) (g g' : Globals)
    (ret : string) :
  InitConfigWithPath w flag cli configFile defaults g = (g', inr ret) ->
  let file := fileConfig w flag configFile in
  let d := match defaults with
           | Some d => d
           | None => mkDefaults false false false false
           end in
  exists d1 c1 l1,
    overrideFields (Default g) (cfg_Default file) = inr d1
    /\ overrideFields d1 (cfg_Default cli) = inr (Default g')
    /\ overrideFields (CNI g) (cfg_CNI file) = inr c1
    /\ overrideFields c1 (cfg_CNI cli) = inr (CNI g')
    /\ overrideFields (Logging g) (cfg_Logging file) = inr l1
    /\ overrideFields l1 (cfg_Logging cli) = inr (Logging g')
    /\ kubernetesValues w cli file d (Kubernetes g) = inr (Kubernetes g')
    /\ buildOvnAuth w "nb" "ovn-nb" (cfg_OvnNorth cli) (cfg_OvnNorth file)
         (OvnNorthAddress d) = inr (OvnNorth g')
    /\ buildOvnAuth w "sb" "ovn-remote" (cfg_OvnSouth cli)
         (cfg_OvnSouth file) false = inr (OvnSouth g').
Proof.
  intros H file d.
  unfold InitConfigWithPath in H.
  assert (Hfile :
    forall path isDefault,
      (if isEmpty configFile then getConfigFilePath w flag
       else (configFile, false)) = (path, isDefault) ->
      forall cfg,
        match openConfigFile w path with
        | OpenFails => if negb isDefault then inl (ErrOpenConfigFile path)
                       else inr zeroConfig
        | ParseFails => inl (ErrParseConfigFile path)
        | Parsed cfg => inr cfg
        end = inr cfg -> cfg = file).
  { intros path isDefault Hp cfg Hc.
    unfold file, fileConfig.
    replace (if isEmpty configFile then fst (getConfigFilePath w flag)
             else configFile) with path
      by (destruct (isEmpty configFile); [rewrite Hp | inversion Hp];
          reflexivity).
    destruct (openConfigFile w path); try discriminate.
    - destruct (negb isDefault); [discriminate|]. congruence.
    - congruence. }
  destruct (if isEmpty configFile then getConfigFilePath w flag
            else (configFile, false)) as [path isDefault] eqn:Hp.
  specialize (Hfile path isDefault eq_refl).
  destruct (match openConfigFile w path with
            | OpenFails => _ | ParseFails => _ | Parsed cfg => _ end)
    as [e|cfg] eqn:Hopen; [inversion H|].
  specialize (Hfile cfg eq_refl). subst cfg. fold d in H.
  destruct (overrideFields (Default g) (cfg_Default file)) as [?|d1] eqn:HD1;
    [inversion H|].
  destruct (overrideFields d1 (cfg_Default cli)) as [?|d2] eqn:HD2;
    [inversion H|].
  destruct (overrideFields (CNI g) (cfg_CNI file)) as [?|c1] eqn:HC1;
    [inversion H|].
  destruct (overrideFields c1 (cfg_CNI cli)) as [?|c2] eqn:HC2;
    [inversion H|].
  destruct (overrideFields (Logging g) (cfg_Logging file)) as [?|l1] eqn:HL1;
    [inversion H|].
  destruct (overrideFields l1 (cfg_Logging cli)) as [?|l2] eqn:HL2;
    [inversion H|].
  unfold buildKubernetesConfig in H.
  destruct (kubernetesValues w cli file d (Kubernetes g)) as [?|k0] eqn:HK;
    [inversion H|].
  match type of H with
  | (let '(k, err) := ?X in _) = _ => destruct X as [k [e|]] eqn:Hk
  end; [inversion H|].
  assert (Hkv : k = k0).
  { repeat match type of Hk with
           | (if ?b then _ else _) = _ => destruct b
           | match ?o with Some _ => _ | None => _ end = _ => destruct o
           end; inversion Hk; reflexivity. }
  subst k0. cbn [OvnNorth OvnSouth] in H.
  destruct (buildOvnAuth w "nb" "ovn-nb" _ _ _) as [e|north] eqn:Hn;
    [inversion H|].
  destruct (buildOvnAuth w "sb" "ovn-remote" _ _ _) as [e|south] eqn:Hs;
    [inversion H|].
  inversion H; subst g' ret.
  cbn [Default Logging CNI Kubernetes OvnNorth OvnSouth].
  exists d1, c1, l1. repeat split; assumption.
Qed.

(** C1 (counterexample).  Scenario S6: with [-nb-address=ssl://1.2.3.4:6641]
    and no [-nb-client-privkey] (nor certificate, nor CA), [InitConfig]
    succeeds; the northbound auth carries the default paths. *)
Lemma S6_is_accepted :
  exists g,
    InitConfig bareHost "" flagsS6 None builtin = (g, inr "")
    /\ ClientAuth (OvnNorth g) =
       Some (mkOvnDBAuth "ssl:1.2.3.4:6641"
               "/etc/openvswitch/ovnnb-privkey.pem"
               "/etc/openvswitch/ovnnb-cert.pem"
               "/etc/openvswitch/ovnnb-ca.cert"
               OvnDBSchemeSSL "ovn-nbctl" "ovn-nb").
Proof. eexists. vm_compute. split; reflexivity. Qed.

(** C1 (amended).  [newOvnDBAuth] answers an [ssl] connection string with
    the error "must specify private key, certificate, and CA certificate
    for 'ssl' scheme" when it is handed an empty key, certificate or CA
    certificate.  [buildOvnAuth], through which [InitConfig] calls it,
    first fills the three with the direction's default paths under
    [/etc/openvswitch] whenever the address it settled on starts with
    ["ssl"]: what it hands over is each value by precedence (command line,
    file, default path), none is empty, and that error cannot come out.
    Any error [newOvnDBAuth] does return for either database is fatal to
    [InitConfig]: it succeeds only when both were accepted. *)
Theorem ssl_credentials_default_paths :
  (forall ctl ext url pk c ca,
      url <> "" ->
      Forall (endpointOf "ssl") (endpoints url) ->
      pk = "" \/ c = "" \/ ca = "" ->
      newOvnDBAuth ctl ext url pk c ca = inl ErrMustSpecifySSL)
  /\ (forall w direction ext cli conf readAddress,
         let address := chosenAddress w direction cli conf readAddress in
         let pk := precedence (ClientPrivKey cli) (ClientPrivKey conf)
                     ("/etc/openvswitch/ovn" ++ direction ++ "-privkey.pem") in
         let c := precedence (ClientCert cli) (ClientCert conf)
                    ("/etc/openvswitch/ovn" ++ direction ++ "-cert.pem") in
         let ca := precedence (ClientCACert cli) (ClientCACert conf)
                     ("/etc/openvswitch/ovn" ++ direction ++ "-ca.cert") in
         strings.HasPrefix address "ssl" = true ->
         buildOvnAuth w direction ext cli conf readAddress =
         match newOvnDBAuth ("ovn-" ++ direction ++ "ctl") ext address pk c ca with
         | inl e => inl e
         | inr a => inr (mkOvnAuthConfig (Some a))
         end
         /\ pk <> "" /\ c <> "" /\ ca <> ""
         /\ buildOvnAuth w direction ext cli conf readAddress
            <> inl ErrMustSpecifySSL)
  /\ (forall w flag cli configFile defaults g g' ret,
         InitConfigWithPath w flag cli configFile defaults g = (g', inr ret) ->
         let file := fileConfig w flag configFile in
         buildOvnAuth w "nb" "ovn-nb" (cfg_OvnNorth cli) (cfg_OvnNorth file)
           (match defaults with
            | Some d => OvnNorthAddress d
            | None => false
            end) = inr (OvnNorth g')
         /\ buildOvnAuth w "sb" "ovn-remote" (cfg_OvnSouth cli)
              (cfg_OvnSouth file) false = inr (OvnSouth g')).
Proof.
  split; [|split].
  - intros ctl ext url pk c ca Hurl Hall Hmiss.
    destruct (newOvnDBAuth_wellformed ctl ext url pk c ca "ssl" Hurl
                ltac:(discriminate) Hall) as [address H].
    rewrite H. cbn [String.eqb Ascii.eqb Bool.eqb].
    destruct Hmiss as [-> | [-> | ->]]; simpl;
      rewrite ?orb_true_r; reflexivity.
  - intros w direction ext cli conf readAddress address pk c ca Hssl.
    assert (Hpk : pk <> "") by (apply precedence_nonempty; discriminate).
    assert (Hc : c <> "") by (apply precedence_nonempty; discriminate).
    assert (Hca : ca <> "") by (apply precedence_nonempty; discriminate).
    assert (Heq : buildOvnAuth w direction ext cli conf readAddress =
                  match newOvnDBAuth ("ovn-" ++ direction ++ "ctl") ext
                          address pk c ca with
                  | inl e => inl e
                  | inr a => inr (mkOvnAuthConfig (Some a))
                  end).
    { unfold buildOvnAuth. rewrite buildRawAuth_eq.
      fold address. rewrite Hssl. reflexivity. }
    repeat split; try assumption.
    rewrite Heq.
    destruct (newOvnDBAuth _ ext address pk c ca) as [e|a] eqn:Hn;
      [|discriminate].
    intros H. inversion H; subst.
    apply newOvnDBAuth_must_specify in Hn.
    destruct Hn as [? | [? | ?]]; contradiction.
  - intros w flag cli configFile defaults g g' ret H file.
    pose proof (InitConfigWithPath_inr w flag cli configFile defaults g g' ret H)
      as Hinv.
    cbv zeta in Hinv. fold file in Hinv.
    destruct Hinv as (_ & _ & _ & _ & _ & _ & _ & _ & _ & _ & Hn & Hs).
    split; [|exact Hs].
    destruct defaults; exact Hn.
Qed.

Lemma endpointOf_ssl_example : endpointOf "ssl" "ssl:1.2.3.4:6641".
Proof.
  exists "1.2.3.4", "6641", "1.2.3.4:6641". split.
  - exists "1.2.3.4", "6641". repeat split; reflexivity.
  - vm_compute. discriminate.
Defined.

Lemma ssl_credentials_default_paths_witness :
  newOvnDBAuth "ovn-nbctl" "ovn-nb" "ssl://1.2.3.4:6641" ""
    "/etc/openvswitch/ovnnb-cert.pem" "/etc/openvswitch/ovnnb-ca.cert" =
  inl ErrMustSpecifySSL
  /\ buildOvnAuth bareHost "nb" "ovn-nb" (cfg_OvnNorth flagsS6)
       (cfg_OvnNorth zeroConfig) false <> inl ErrMustSpecifySSL.
Proof.
  split.
  - apply (proj1 ssl_credentials_default_paths "ovn-nbctl" "ovn-nb"
             "ssl://1.2.3.4:6641" "" "/etc/openvswitch/ovnnb-cert.pem"
             "/etc/openvswitch/ovnnb-ca.cert" ltac:(discriminate)
             (Forall_cons _ endpointOf_ssl_example (Forall_nil _))
             (or_introl eq_refl)).
  - apply (proj1 (proj2 ssl_credentials_default_paths) bareHost "nb" "ovn-nb"
             (cfg_OvnNorth flagsS6) (cfg_OvnNorth zeroConfig) false eq_refl).
Defined.

(** C2 (confirmed).  After a successful [InitConfigWithPath] every field
    holds the value chosen by "command line over configuration file over
    default": a non-zero, non-empty flag wins; otherwise a non-zero,
    non-empty value of the file wins; otherwise the default stays, which is
    the value read from the OVS external ids where the [Defaults] flags ask
    for it ([k8s-api-server], [k8s-api-token], [k8s-ca-certificate],
    [ovn-nb]) and the value the global had before the call (at program
    start the built-in one) elsewhere.  For the two databases the default
    of the key and the certificates is the path under [/etc/openvswitch]
    when the chosen address starts with ["ssl"], and the stored auth is the
    one [newOvnDBAuth] makes of the chosen values. *)
Theorem configuration_precedence (w : World) (flag : string) (cli : config_)
    (configFile : string) (defaults : option Defaults) (g g' : Globals)
    (ret : string) :
  InitConfigWithPath w flag cli configFile defaults g = (g', inr ret) ->
  let file := fileConfig w flag configFile in
  let d := match defaults with
           | Some d => d
           | None => mkDefaults false false false false
           end in
  let northAddress :=
    chosenAddress w "nb" (cfg_OvnNorth cli) (cfg_OvnNorth file)
      (OvnNorthAddress d) in
  let southAddress :=
    chosenAddress w "sb" (cfg_OvnSouth cli) (cfg_OvnSouth file) false in
  Default g' =
    mkDefaultConfig
      (precedenceInt (MTU (cfg_Default cli)) (MTU (cfg_Default file))
         (MTU (Default g)))
      (precedenceInt (ConntrackZone (cfg_Default cli))
         (ConntrackZone (cfg_Default file)) (ConntrackZone (Default g)))
      (precedence (EncapType (cfg_Default cli)) (EncapType (cfg_Default file))
         (EncapType (Default g)))
      (precedence (EncapIP (cfg_Default cli)) (EncapIP (cfg_Default file))
         (EncapIP (Default g)))
      (precedenceInt (InactivityProbe (cfg_Default cli))
         (InactivityProbe (cfg_Default file)) (InactivityProbe (Default g)))
  /\ Logging g' =
     mkLoggingConfig
       (precedence (File (cfg_Logging cli)) (File (cfg_Logging file))
          (File (Logging g)))
       (precedenceInt (Level (cfg_Logging cli)) (Level (cfg_Logging file))
          (Level (Logging g)))
  /\ CNI g' =
     mkCNIConfig
       (precedence (ConfDir (cfg_CNI cli)) (ConfDir (cfg_CNI file))
          (ConfDir (CNI g)))
       (precedence (Plugin (cfg_CNI cli)) (Plugin (cfg_CNI file))
          (Plugin (CNI g)))
       (precedence (WinHNSNetworkID (cfg_CNI cli))
          (WinHNSNetworkID (cfg_CNI file)) (WinHNSNetworkID (CNI g)))
  /\ Kubernetes g' =
     mkKubernetesConfig
       (precedence (Kubeconfig (cfg_Kubernetes cli))
          (Kubeconfig (cfg_Kubernetes file)) (Kubeconfig (Kubernetes g)))
       (precedence (CACert (cfg_Kubernetes cli))
          (CACert (cfg_Kubernetes file))
          (discovered w (K8sCert d) "k8s-ca-certificate"
             (CACert (Kubernetes g))))
       (precedence (APIServer (cfg_Kubernetes cli))
          (APIServer (cfg_Kubernetes file))
          (discovered w (K8sAPIServer d) "k8s-api-server"
             (APIServer (Kubernetes g))))
       (precedence (Token (cfg_Kubernetes cli))
          (Token (cfg_Kubernetes file))
          (discovered w (K8sToken d) "k8s-api-token" (Token (Kubernetes g))))
  /\ (exists north,
         ClientAuth (OvnNorth g') = Some north
         /\ northAddress =
            precedence (Address (cfg_OvnNorth cli))
              (Address (cfg_OvnNorth file))
              (discovered w (OvnNorthAddress d) "ovn-nb" "")
         /\ newOvnDBAuth "ovn-nbctl" "ovn-nb" northAddress
              (PrivKey north) (Cert north) (CACert_ north) = inr north
         /\ PrivKey north =
            precedence (ClientPrivKey (cfg_OvnNorth cli))
              (ClientPrivKey (cfg_OvnNorth file))
              (sslDefaultPath northAddress "nb" "-privkey.pem")
         /\ Cert north =
            precedence (ClientCert (cfg_OvnNorth cli))
              (ClientCert (cfg_OvnNorth file))
              (sslDefaultPath northAddress "nb" "-cert.pem")
         /\ CACert_ north =
            precedence (ClientCACert (cfg_OvnNorth cli))
              (ClientCACert (cfg_OvnNorth file))
              (sslDefaultPath northAddress "nb" "-ca.cert"))
  /\ (exists south,
         ClientAuth (OvnSouth g') = Some south
         /\ southAddress =
            precedence (Address (cfg_OvnSouth cli))
              (Address (cfg_OvnSouth file)) ""
         /\ newOvnDBAuth "ovn-sbctl" "ovn-remote" southAddress
              (PrivKey south) (Cert south) (CACert_ south) = inr south
         /\ PrivKey south =
            precedence (ClientPrivKey (cfg_OvnSouth cli))
              (ClientPrivKey (cfg_OvnSouth file))
              (sslDefaultPath southAddress "sb" "-privkey.pem")
         /\ Cert south =
            precedence (ClientCert (cfg_OvnSouth cli))
              (ClientCert (cfg_OvnSouth file))
              (sslDefaultPath southAddress "sb" "-cert.pem")
         /\ CACert_ south =
            precedence (ClientCACert (cfg_OvnSouth cli))
              (ClientCACert (cfg_OvnSouth file))
              (sslDefaultPath southAddress "sb" "-ca.cert")).
Proof.
  intros H file d northAddress southAddress.
  pose proof (InitConfigWithPath_inr w flag cli configFile defaults g g' ret H)
    as Hinv.
  cbv zeta in Hinv. fold file d in Hinv.
  destruct Hinv as (d1 & c1 & l1 & HD1 & HD2 & HC1 & HC2 & HL1 & HL2 & HK
                    & Hn & Hs).
  rewrite overrideFields_DefaultConfig in HD1, HD2.
  rewrite overrideFields_CNIConfig in HC1, HC2.
  rewrite overrideFields_LoggingConfig in HL1, HL2.
  rewrite kubernetesValues_eq in HK.
  injection HD1 as <-. injection HD2 as <-.
  injection HC1 as <-. injection HC2 as <-.
  injection HL1 as <-. injection HL2 as <-.
  injection HK as <-.
  cbn [MTU ConntrackZone EncapType EncapIP InactivityProbe File Level
       ConfDir Plugin WinHNSNetworkID].
  rewrite !precedence_orString, !precedenceInt_orInt.
  apply buildOvnAuth_success in Hn. apply buildOvnAuth_success in Hs.
  destruct Hn as (a & Ha & Hnew & Hpk & Hc & Hca).
  destruct Hs as (b & Hb & Hnewb & Hpkb & Hcb & Hcab).
  repeat split; try reflexivity.
  - exists a. unfold sslDefaultPath. rewrite Hpk, Hc, Hca.
    repeat split; auto.
  - exists b. unfold sslDefaultPath. rewrite Hpkb, Hcb, Hcab.
    repeat split; auto.
Qed.

Lemma configuration_precedence_witness :
  Default testResult = mkDefaultConfig 1234 64321 "geneve" "" 100000
  /\ Logging testResult = mkLoggingConfig "/var/log/ovnkube.log" 3
  /\ Token (Kubernetes testResult) = "asdfasdfasdfasfd"
  /\ APIServer (Kubernetes testResult) = "https://1.2.3.4:6443".
Proof.
  pose proof (configuration_precedence testHost "/tmp/ovn_k8s.conf" testFlags
                "" None builtin testResult "/tmp/ovn_k8s.conf"
                ltac:(vm_compute; reflexivity)) as H.
  cbv zeta in H. destruct H as (HD & HL & _ & HK & _).
  rewrite HD, HL, HK. vm_compute. repeat split; reflexivity.
Defined.

(** ** [updateIP] *)

(** C8 (counterexample).  The empty address of a [unix] auth does not
    split into three fields, yet [updateIP] returns no error for it; and
    on [tcp:1.2.3.4:6641] the new address lacks the colon before the
    port. *)
Lemma updateIP_empty_address_no_error :
  let unixAuth := mkOvnDBAuth "" "" "" "" OvnDBSchemeUnix "ovn-sbctl" "ovn-remote" in
  let tcpAuth := mkOvnDBAuth "tcp:1.2.3.4:6641" "" "" "" OvnDBSchemeTCP
                   "ovn-nbctl" "ovn-nb" in
  List.length (strings.Split (OvnAddressForClient unixAuth) ":") <> 3%nat
  /\ updateIP unixAuth "5.6.7.8" = (unixAuth, None)
  /\ OvnAddressForClient (fst (updateIP tcpAuth "5.6.7.8")) = "tcp:5.6.7.86641".
Proof. vm_compute. repeat split; congruence. Qed.

(** C8 (amended).  [updateIP] leaves an empty address alone and returns
    no error; for a non-empty address that does not split into exactly
    three colon-separated fields it returns an error and leaves the auth
    unchanged; for a three-field address [scheme:host:port] it returns no
    error, keeps every other field, and rebuilds the address from the
    scheme, the new IP and the port, in this order, with the scheme and
    its colon first.  [UpdateOvnNodeAuth] does this to the northbound and
    then the southbound auth and stops at the first error. *)
Theorem updateIP_cases (a : OvnDBAuth) (newIP : string) :
  (OvnAddressForClient a = "" -> updateIP a newIP = (a, None))
  /\ (OvnAddressForClient a <> "" ->
      List.length (strings.Split (OvnAddressForClient a) ":") <> 3%nat ->
      updateIP a newIP = (a, Some (ErrUpdateIP (OvnAddressForClient a))))
  /\ (forall scheme host port,
         strings.Split (OvnAddressForClient a) ":" = [scheme; host; port] ->
         exists sep,
           updateIP a newIP =
           (mkOvnDBAuth (scheme ++ ":" ++ newIP ++ sep ++ port) (PrivKey a)
              (Cert a) (CACert_ a) (Scheme a) (ctlCmd a) (externalID a),
            None))
  /\ (forall g north south,
         ClientAuth (OvnNorth g) = Some north ->
         ClientAuth (OvnSouth g) = Some south ->
         match snd (updateIP north newIP), snd (updateIP south newIP) with
         | Some e, _ =>
             UpdateOvnNodeAuth newIP g =
             (mkGlobals (Default g) (Logging g) (CNI g) (Kubernetes g)
                (mkOvnAuthConfig (Some north)) (OvnSouth g),
              Some (ErrUpdateNorth e))
         | None, Some e =>
             UpdateOvnNodeAuth newIP g =
             (mkGlobals (Default g) (Logging g) (CNI g) (Kubernetes g)
                (mkOvnAuthConfig (Some (fst (updateIP north newIP))))
                (mkOvnAuthConfig (Some south)),
              Some (ErrUpdateSouth e))
         | None, None =>
             UpdateOvnNodeAuth newIP g =
             (mkGlobals (Default g) (Logging g) (CNI g) (Kubernetes g)
                (mkOvnAuthConfig (Some (fst (updateIP north newIP))))
                (mkOvnAuthConfig (Some (fst (updateIP south newIP)))),
              None)
         end).
Proof.
  assert (Herr : forall b : OvnDBAuth,
             forall e, snd (updateIP b newIP) = Some e -> fst (updateIP b newIP) = b).
  { intros b e. unfold updateIP.
    destruct (negb (isEmpty (OvnAddressForClient b))); [|discriminate].
    destruct (strings.Split _ ":") as [|s0 [|s1 [|s2 [|? ?]]]]; simpl;
      try reflexivity; discriminate. }
  split; [|split; [|split]].
  - intros H. unfold updateIP. rewrite H. reflexivity.
  - intros Hne Hlen. unfold updateIP.
    apply isEmpty_false in Hne. rewrite Hne. simpl negb. cbv iota.
    destruct (strings.Split (OvnAddressForClient a) ":")
      as [|s0 [|s1 [|s2 [|? ?]]]]; simpl in Hlen; try reflexivity.
    congruence.
  - intros scheme host port Hsplit. exists "". unfold updateIP.
    destruct (isEmpty (OvnAddressForClient a)) eqn:E.
    + apply isEmpty_true in E. rewrite E in Hsplit. discriminate.
    + simpl negb. cbv iota. rewrite Hsplit. reflexivity.
  - intros g north south Hn Hs.
    unfold UpdateOvnNodeAuth. rewrite Hn.
    pose proof (Herr north) as HerrN. pose proof (Herr south) as HerrS.
    destruct (updateIP north newIP) as [north' [e|]]; simpl in *.
    + rewrite (HerrN e eq_refl). reflexivity.
    + rewrite Hs.
      destruct (updateIP south newIP) as [south' [e|]]; simpl in *.
      * rewrite (HerrS e eq_refl). reflexivity.
      * reflexivity.
Qed.

Lemma updateIP_cases_witness :
  updateIP (mkOvnDBAuth "" "" "" "" OvnDBSchemeUnix "ovn-sbctl" "ovn-remote")
    "5.6.7.8" =
  (mkOvnDBAuth "" "" "" "" OvnDBSchemeUnix "ovn-sbctl" "ovn-remote", None)
  /\ updateIP (mkOvnDBAuth "1.2.3.4" "" "" "" OvnDBSchemeTCP "ovn-nbctl" "ovn-nb")
       "5.6.7.8" =
     (mkOvnDBAuth "1.2.3.4" "" "" "" OvnDBSchemeTCP "ovn-nbctl" "ovn-nb",
      Some (ErrUpdateIP "1.2.3.4")).
Proof.
  split.
  - apply (proj1 (updateIP_cases
             (mkOvnDBAuth "" "" "" "" OvnDBSchemeUnix "ovn-sbctl" "ovn-remote")
             "5.6.7.8")).
    reflexivity.
  - apply (proj1 (proj2 (updateIP_cases
             (mkOvnDBAuth "1.2.3.4" "" "" "" OvnDBSchemeTCP "ovn-nbctl" "ovn-nb")
             "5.6.7.8"))).
    + discriminate.
    + vm_compute. discriminate.
Defined.

(** ** Networks written as CIDRs *)

Lemma set_length (i : nat) (v : Z) (p : list Z) :
  List.length (set i v p) = List.length p.
Proof.
  revert i. induction p as [|a p IH]; intros [|i]; simpl; auto.
Qed.

Lemma shiftUp_length (cnt j n : nat) (ip : list Z) :
  List.length (shiftUp cnt j n ip) = List.length ip.
Proof.
  revert j ip. induction cnt as [|cnt IH]; intros j ip; simpl; [reflexivity|].
  rewrite IH. apply set_length.
Qed.

Lemma zeroFill_length (cnt j : nat) (ip : list Z) :
  List.length (zeroFill cnt j ip) = List.length ip.
Proof.
  revert j ip. induction cnt as [|cnt IH]; intros j ip; simpl; [reflexivity|].
  rewrite IH. apply set_length.
Qed.

Lemma parseIPv6_loop_length (fuel : nat) :
  forall s i ip ellipsis s' i' ip' ellipsis',
    parseIPv6_loop fuel s i ip ellipsis = Some (s', i', ip', ellipsis') ->
    List.length ip' = List.length ip.
Proof.
  induction fuel as [|fuel IH]; intros s i ip ellipsis s' i' ip' ellipsis' H;
    [discriminate|].
  cbn [parseIPv6_loop] in H.
  destruct (IPv6len <=? i)%nat; [inversion H; reflexivity|].
  destruct (xtoi s) as [[n c] ok].
  destruct (negb ok || (65535 <? n)); [discriminate|].
  destruct ((c <? String.length s)%nat && charIs (String.get c s) ".").
  - destruct (isNone ellipsis && negb (i =? IPv6len - IPv4len)%nat);
      [discriminate|].
    destruct (IPv6len <? i + IPv4len)%nat; [discriminate|].
    destruct (parseIPv4 s); [|discriminate].
    inversion H; subst. rewrite !set_length. reflexivity.
  - destruct (strings.drop c s) as [|c0 s1].
    + inversion H; subst. rewrite !set_length. reflexivity.
    + destruct (negb (Ascii.eqb c0 ":") || (String.length s1 =? 0)%nat);
        [discriminate|].
      destruct (headIs s1 ":").
      * destruct ellipsis; [discriminate|].
        destruct (strings.drop 1 s1) eqn:E.
        -- inversion H; subst. rewrite !set_length. reflexivity.
        -- apply IH in H. rewrite H, !set_length. reflexivity.
      * apply IH in H. rewrite H, !set_length. reflexivity.
Qed.

Lemma parseIPv6_length (s : string) (ip : IP) :
  parseIPv6 s = Some ip -> List.length ip = IPv6len.
Proof.
  unfold parseIPv6.
  set (start := match s with
                | String ":" (String ":" r) => (Some 0%nat, r, true)
                | _ => (None, s, false)
                end).
  destruct start as [[ellipsis s0] lead].
  destruct (lead && (String.length s0 =? 0)%nat).
  - intros H. inversion H. reflexivity.
  - destruct (parseIPv6_loop 9 s0 0 (repeat 0 IPv6len) ellipsis)
      as [[[[s' i'] ip'] e']|] eqn:Hloop; [|discriminate].
    apply parseIPv6_loop_length in Hloop.
    destruct (negb (String.length s' =? 0)%nat); [discriminate|].
    destruct (i' <? IPv6len)%nat.
    + destruct e'; [|discriminate]. intros H. inversion H; subst.
      rewrite zeroFill_length, shiftUp_length. exact Hloop.
    + destruct e'; [discriminate|]. intros H. inversion H; subst. exact Hloop.
Qed.

Lemma parseIPv4_form (s : string) (ip : IP) :
  parseIPv4 s = Some ip -> exists a b c d, ip = IPv4 a b c d.
Proof.
  unfold parseIPv4.
  destruct (parseIPv4_loop 4 0 s [0; 0; 0; 0]) as [[p r]|]; [|discriminate].
  destruct p as [|a [|b [|c [|d [|? ?]]]]]; try discriminate.
  destruct r; [|discriminate].
  intros H. inversion H. eauto.
Qed.

Lemma CIDRMask_loop_length (l : nat) (n : Z) :
  List.length (CIDRMask_loop l n) = l.
Proof.
  revert n. induction l as [|l IH]; intros n; simpl; [reflexivity|].
  destruct (8 <=? n); simpl; rewrite IH; reflexivity.
Qed.

Lemma andBytes_length (ip m : list Z) :
  List.length ip = List.length m ->
  List.length (andBytes ip m) = List.length ip.
Proof.
  revert m. induction ip as [|a ip IH]; intros [|k m] H; simpl in *;
    try discriminate; auto.
Qed.

(** A byte of a prefix mask below [0xff] has its lowest bit clear. *)
Lemma partial_mask_byte_even (n : Z) :
  0 <= n < 8 -> Z.testbit (Z.lxor 255 (Z.shiftr 255 n)) 0 = false.
Proof.
  intros H.
  assert (n = 0 \/ n = 1 \/ n = 2 \/ n = 3 \/ n = 4 \/ n = 5 \/ n = 6 \/ n = 7)
    as Hn by lia.
  repeat (destruct Hn as [-> | Hn]; [reflexivity|]). subst. reflexivity.
Qed.

(** A mask byte with its lowest bit set means the prefix covers it. *)
Lemma CIDRMask_loop_odd_byte (l : nat) :
  forall n k,
    0 <= n -> (k < l)%nat ->
    Z.testbit (nth k (CIDRMask_loop l n) 0) 0 = true ->
    8 * (Z.of_nat k + 1) <= n.
Proof.
  induction l as [|l IH]; intros n k Hn Hk Hbit; [lia|].
  cbn [CIDRMask_loop] in Hbit.
  destruct (8 <=? n) eqn:E.
  - apply Z.leb_le in E. destruct k as [|k]; [lia|].
    cbn [nth] in Hbit. apply IH in Hbit; lia.
  - apply Z.leb_gt in E. destruct k as [|k].
    + cbn [nth] in Hbit. rewrite partial_mask_byte_even in Hbit by lia.
      discriminate.
    + cbn [nth] in Hbit. apply IH in Hbit; lia.
Qed.

Lemma CIDRMask_loop_skipn (k : nat) :
  forall l n,
    8 * Z.of_nat k <= n ->
    skipn k (CIDRMask_loop (k + l) n) = CIDRMask_loop l (n - 8 * Z.of_nat k).
Proof.
  induction k as [|k IH]; intros l n H.
  - simpl. f_equal. lia.
  - cbn [Nat.add CIDRMask_loop].
    destruct (8 <=? n) eqn:E; [|apply Z.leb_gt in E; lia].
    cbn [skipn]. rewrite IH by lia. f_equal. lia.
Qed.

(** The mask of a shorter prefix is contained in the mask of a longer
    one. *)
Lemma CIDRMask_loop_refine (l : nat) :
  forall p q,
    0 <= p <= q ->
    Forall2 (fun ka kb => Z.land ka kb = ka)
      (CIDRMask_loop l p) (CIDRMask_loop l q).
Proof.
  induction l as [|l IH]; intros p q H; cbn [CIDRMask_loop]; [constructor|].
  destruct (8 <=? p) eqn:Ep, (8 <=? q) eqn:Eq.
  - apply Z.leb_le in Ep, Eq. constructor; [reflexivity | apply IH; lia].
  - apply Z.leb_le in Ep. apply Z.leb_gt in Eq. lia.
  - apply Z.leb_gt in Ep. apply Z.leb_le in Eq. constructor; [|apply IH; lia].
    assert (p = 0 \/ p = 1 \/ p = 2 \/ p = 3 \/ p = 4 \/ p = 5 \/ p = 6 \/ p = 7)
      as Hp by lia.
    repeat (destruct Hp as [-> | Hp]; [reflexivity|]). subst. reflexivity.
  - apply Z.leb_gt in Ep, Eq. constructor; [|apply IH; lia].
    assert (p = 0 \/ p = 1 \/ p = 2 \/ p = 3 \/ p = 4 \/ p = 5 \/ p = 6 \/ p = 7)
      as Hp by lia.
    assert (q = 0 \/ q = 1 \/ q = 2 \/ q = 3 \/ q = 4 \/ q = 5 \/ q = 6 \/ q = 7)
      as Hq by lia.
    repeat (destruct Hp as [-> | Hp]);
      repeat (destruct Hq as [-> | Hq]); try reflexivity; try lia;
      subst; try reflexivity; lia.
Qed.

Lemma containsLoop_trans (ma mb : list Z) :
  Forall2 (fun ka kb => Z.land ka kb = ka) ma mb ->
  forall nna nnb x,
    List.length nna = List.length ma ->
    List.length nnb = List.length ma ->
    List.length x = List.length ma ->
    containsLoop nna ma x = true ->
    containsLoop nnb mb x = true ->
    containsLoop nna ma nnb = true.
Proof.
  induction 1 as [|ka kb ma mb Hk _ IH]; intros nna nnb x Ha Hb Hx Ca Cb.
  - destruct nna; [reflexivity | discriminate].
  - destruct nna as [|a nna], nnb as [|b nnb], x as [|v x];
      simpl in Ha, Hb, Hx; try discriminate.
    cbn [containsLoop] in *.
    destruct (Z.land a ka =? Z.land v ka) eqn:E1; [|discriminate].
    destruct (Z.land b kb =? Z.land v kb) eqn:E2; [|discriminate].
    apply Z.eqb_eq in E1, E2. simpl in Ca, Cb.
    assert (E : Z.land a ka = Z.land b ka).
    { rewrite E1. rewrite <- Hk.
      rewrite (Z.land_comm ka kb), !Z.land_assoc, E2. reflexivity. }
    rewrite E, Z.eqb_refl. simpl.
    apply (IH nna nnb x); try assumption; congruence.
Qed.

Lemma nth_andBytes (k : nat) :
  forall ip m,
    (k < List.length ip)%nat -> (k < List.length m)%nat ->
    nth k (andBytes ip m) 0 = Z.land (nth k ip 0) (nth k m 0).
Proof.
  induction k as [|k IH]; intros [|a ip] [|b m] Hi Hm; simpl in *; try lia.
  apply IH; lia.
Qed.

Lemma land_255_odd (x m : Z) : Z.land x m = 255 -> Z.testbit m 0 = true.
Proof.
  intros H.
  assert (Hb : Z.testbit (Z.land x m) 0 = true) by (rewrite H; reflexivity).
  rewrite Z.land_spec in Hb. apply andb_true_iff in Hb. tauto.
Qed.

(** The networks [ParseCIDR] returns are well formed. *)
Lemma ParseCIDR_wellFormed (s : string) (ip : IP) (n : IPNet) :
  ParseCIDR s = inr (ip, n) -> wellFormedNet n.
Proof.
  unfold ParseCIDR.
  destruct (byteIndex s "/") as [i|]; [|discriminate].
  destruct (parseIPv4 (strings.take i s)) as [ip4|] eqn:H4.
  - destruct (dtoi (strings.drop (i + 1) s)) as [[k j] ok].
    destruct (negb ok || _ || (k <? 0) || (8 * Z.of_nat IPv4len <? k)) eqn:Hc;
      [discriminate|].
    apply orb_false_iff in Hc. destruct Hc as [Hc Hhi].
    apply orb_false_iff in Hc. destruct Hc as [_ Hlo].
    apply Z.ltb_ge in Hlo, Hhi.
    change (8 * Z.of_nat IPv4len) with 32 in *.
    unfold CIDRMask.
    replace ((k <? 0) || (32 <? k)) with false
      by (symmetry; apply orb_false_iff; split; apply Z.ltb_ge; lia).
    cbn [Z.eqb negb andb].
    change (Z.to_nat (32 / 8)) with 4%nat.
    pose proof (CIDRMask_loop_length 4 k) as Hlen.
    remember (CIDRMask_loop 4 k) as m eqn:Hm.
    intros [= _ <-].
    apply parseIPv4_form in H4. destruct H4 as (a & b & c & d & ->).
    destruct m as [|m0 [|m1 [|m2 [|m3 [|? ?]]]]]; try discriminate.
    exists [Z.land a m0; Z.land b m1; Z.land c m2; Z.land d m3],
      [m0; m1; m2; m3], k.
    repeat split; try reflexivity; try lia. exact Hm.
  - destruct (parseIPv6 (strings.take i s)) as [ip6|] eqn:H6.
    2:{ destruct (dtoi _) as [[? ?] ?]. discriminate. }
    destruct (dtoi (strings.drop (i + 1) s)) as [[k j] ok].
    destruct (negb ok || _ || (k <? 0) || (8 * Z.of_nat IPv6len <? k)) eqn:Hc;
      [discriminate|].
    apply orb_false_iff in Hc. destruct Hc as [Hc Hhi].
    apply orb_false_iff in Hc. destruct Hc as [_ Hlo].
    apply Z.ltb_ge in Hlo, Hhi.
    change (8 * Z.of_nat IPv6len) with 128 in *.
    unfold CIDRMask.
    replace ((k <? 0) || (128 <? k)) with false
      by (symmetry; apply orb_false_iff; split; apply Z.ltb_ge; lia).
    cbn [Z.eqb negb andb].
    change (Z.to_nat (128 / 8)) with 16%nat.
    pose proof (CIDRMask_loop_length 16 k) as Hlen.
    remember (CIDRMask_loop 16 k) as m eqn:Hm.
    intros [= <- <-].
    apply parseIPv6_length in H6. change IPv6len with 16%nat in H6.
    assert (Hout : MaskOrNil ip6 m = andBytes ip6 m).
    { unfold MaskOrNil, Mask. rewrite H6, Hlen.
      cbn [IPv6len IPv4len Nat.eqb andb]. rewrite ?Hlen, ?H6.
      cbn [IPv6len IPv4len Nat.eqb andb negb]. rewrite ?Hlen, ?H6.
      cbn [IPv6len IPv4len Nat.eqb andb negb]. reflexivity. }
    rewrite Hout.
    assert (Holen : List.length (andBytes ip6 m) = 16%nat).
    { rewrite andBytes_length; [exact H6 | rewrite H6, Hlen; reflexivity]. }
    set (out := andBytes ip6 m) in *.
    unfold wellFormedNet, networkNumberAndMask, normalForm.
    cbn [IPNet_IP IPNet_Mask]. unfold To4. rewrite Holen, Hlen.
    cbn [Nat.eqb IPv4len IPv6len andb negb].
    destruct (isZeros (firstn 10 out) && (nth 10 out 0 =? 255)
              && (nth 11 out 0 =? 255)) eqn:Hv4.
    + assert (H96 : 96 <= k).
      { apply andb_true_iff in Hv4. destruct Hv4 as [_ H11].
        apply Z.eqb_eq in H11. unfold out in H11.
        rewrite nth_andBytes in H11 by lia.
        apply land_255_odd in H11.
        rewrite Hm in H11.
        pose proof (CIDRMask_loop_odd_byte 16 k 11 Hlo ltac:(lia) H11). lia. }
      assert (Hl4 : List.length (firstn 4 (skipn 12 out)) = 4%nat).
      { rewrite length_firstn, length_skipn, Holen. reflexivity. }
      rewrite Hl4. cbn [Nat.eqb].
      exists (firstn 4 (skipn 12 out)), (skipn 12 m), (k - 96).
      repeat split; try lia.
      rewrite Hl4, Hm.
      pose proof (CIDRMask_loop_skipn 12 4 k ltac:(lia)) as Hsk.
      change (12 + 4)%nat with 16%nat in Hsk. rewrite Hsk. reflexivity.
    + cbn [Nat.eqb]. rewrite Holen. cbn [Nat.eqb].
      exists out, m, k. repeat split; try lia.
      rewrite Holen. exact Hm.
Qed.

Lemma Contains_true (n : IPNet) (nn : IP) (m : IPMask) (x : IP) :
  networkNumberAndMask n = Some (nn, m) ->
  Contains n x = Some true ->
  List.length (normalForm x) = List.length nn
  /\ containsLoop nn m (normalForm x) = true.
Proof.
  intros Hn. unfold Contains. rewrite Hn. fold (normalForm x).
  destruct (List.length (normalForm x) =? List.length nn)%nat eqn:E; simpl.
  - intros H. inversion H as [H']. rewrite H'. apply Nat.eqb_eq in E. auto.
  - discriminate.
Qed.

(** On well-formed networks the two [Contains] tests of [cidrsOverlap]
    find every overlap. *)
Lemma overlap_found (a b : IPNet) :
  wellFormedNet a -> wellFormedNet b -> overlap a b ->
  Contains a (IPNet_IP b) = Some true \/ Contains b (IPNet_IP a) = Some true.
Proof.
  intros (nna & ma & pa & Ha & Hna & Hpa & Hma) (nnb & mb & pb & Hb & Hnb & Hpb & Hmb)
    (x & Cax & Cbx).
  destruct (Contains_true a nna ma x Ha Cax) as [Lax Kax].
  destruct (Contains_true b nnb mb x Hb Cbx) as [Lbx Kbx].
  assert (Hlen : List.length nna = List.length nnb) by congruence.
  destruct (Z.le_ge_cases pa pb) as [Hle | Hle].
  - left. unfold Contains. rewrite Ha. fold (normalForm (IPNet_IP b)).
    rewrite Hnb, <- Hlen, Nat.eqb_refl. simpl. f_equal.
    apply (containsLoop_trans ma mb) with (x := normalForm x); try assumption.
    + subst ma mb. rewrite <- Hlen. apply CIDRMask_loop_refine. lia.
    + subst ma. rewrite CIDRMask_loop_length. reflexivity.
    + subst ma. rewrite CIDRMask_loop_length. congruence.
    + subst ma. rewrite CIDRMask_loop_length. congruence.
  - right. unfold Contains. rewrite Hb. fold (normalForm (IPNet_IP a)).
    rewrite Hna, Hlen, Nat.eqb_refl. simpl. f_equal.
    apply (containsLoop_trans mb ma) with (x := normalForm x); try assumption.
    + subst ma mb. rewrite Hlen. apply CIDRMask_loop_refine. lia.
    + subst mb. rewrite CIDRMask_loop_length. reflexivity.
    + subst mb. rewrite CIDRMask_loop_length. congruence.
    + subst mb. rewrite CIDRMask_loop_length. congruence.
Qed.

Lemma containsLoop_refl (nn m : list Z) : containsLoop nn m nn = true.
Proof.
  revert m. induction nn as [|a nn IH]; intros [|k m]; simpl; try reflexivity.
  rewrite Z.eqb_refl. simpl. apply IH.
Qed.

(** A well-formed network contains its own address, so each [Contains]
    test that succeeds shows a real overlap. *)
Lemma overlap_sound (a b : IPNet) :
  wellFormedNet b ->
  Contains a (IPNet_IP b) = Some true -> overlap a b.
Proof.
  intros (nnb & mb & pb & Hb & Hnb & Hpb & Hmb) H.
  exists (IPNet_IP b). split; [exact H|].
  unfold Contains. rewrite Hb. fold (normalForm (IPNet_IP b)).
  rewrite Hnb, Nat.eqb_refl. simpl. f_equal. apply containsLoop_refl.
Qed.

Lemma overlap_sym (a b : IPNet) : overlap a b -> overlap b a.
Proof. intros (x & H1 & H2). exists x. auto. Qed.

(** [Contains] does not panic on a well-formed network. *)
Lemma Contains_total (n : IPNet) (x : IP) :
  wellFormedNet n -> exists r, Contains n x = Some r.
Proof.
  intros (nn & m & p & Hn & _). unfold Contains. rewrite Hn.
  destruct (negb _); eauto.
Qed.

(** ** The fuel of [parseIPv6_loop] *)

(** One more round of fuel changes nothing once the fuel covers the
    bytes left: the loop of [parseIPv6] always ends by its own tests. *)
Lemma parseIPv6_loop_fuel (fuel : nat) :
  forall s i ip ellipsis,
    (16 <= i + 2 * fuel)%nat ->
    parseIPv6_loop (S fuel) s i ip ellipsis =
    parseIPv6_loop (S (S fuel)) s i ip ellipsis.
Proof.
  induction fuel as [|fuel IH]; intros s i ip ellipsis Hi.
  - cbn [parseIPv6_loop].
    replace (IPv6len <=? i)%nat with true
      by (symmetry; apply Nat.leb_le; unfold IPv6len; lia).
    reflexivity.
  - remember (S fuel) as f eqn:Hf.
    cbn [parseIPv6_loop].
    destruct (IPv6len <=? i)%nat; [reflexivity|].
    destruct (xtoi s) as [[n c] ok].
    destruct (negb ok || (65535 <? n)); [reflexivity|].
    destruct ((c <? String.length s)%nat && charIs (String.get c s) ".");
      [reflexivity|].
    destruct (strings.drop c s) as [|c0 s1]; [reflexivity|].
    destruct (negb (Ascii.eqb c0 ":") || (String.length s1 =? 0)%nat);
      [reflexivity|].
    subst f.
    destruct (headIs s1 ":").
    + destruct ellipsis; [reflexivity|].
      destruct (strings.drop 1 s1); [reflexivity|].
      apply IH. lia.
    + apply IH. lia.
Qed.

Lemma parseIPv6_loop_enough (extra : nat) (s : string) (ip : list Z)
    (ellipsis : option nat) :
  parseIPv6_loop (9 + extra) s 0 ip ellipsis = parseIPv6_loop 9 s 0 ip ellipsis.
Proof.
  induction extra as [|extra IH]; [reflexivity|].
  rewrite <- IH. replace (9 + S extra)%nat with (S (S (8 + extra))) by lia.
  replace (9 + extra)%nat with (S (8 + extra)) by lia.
  symmetry. apply parseIPv6_loop_fuel. lia.
Qed.

(** ** [parseClusterSubnetEntries] *)

Lemma parseEntry_wellFormed (e : string) (en : CIDRNetworkEntry) :
  parseEntry e = inr en -> wellFormedNet (CIDR en).
Proof.
  unfold parseEntry.
  destruct (if (List.length (strings.Split e "/") =? 3)%nat then _ else _)
    as [?|hsl]; [discriminate|].
  destruct (ParseCIDR _) as [?|[ip n]] eqn:Hc; [discriminate|].
  intros [= <-]. simpl. eapply ParseCIDR_wellFormed; eassumption.
Qed.

(** The host subnet length of an entry: 24 for two fields, the third
    field read as an unsigned 32-bit number for three. *)
Lemma parseEntry_HostSubnetLength (e : string) (en : CIDRNetworkEntry) :
  parseEntry e = inr en ->
  (List.length (strings.Split e "/") = 2%nat /\ HostSubnetLength en = 24)
  \/ (List.length (strings.Split e "/") = 3%nat
      /\ strconv.ParseUint10_32 (nth 2 (strings.Split e "/") "")
         = inr (HostSubnetLength en)
      /\ 0 <= HostSubnetLength en <= 4294967295).
Proof.
  unfold parseEntry.
  destruct (List.length (strings.Split e "/") =? 3)%nat eqn:E3.
  - apply Nat.eqb_eq in E3.
    destruct (strconv.ParseUint10_32 _) as [?|tmp] eqn:Hp; [discriminate|].
    destruct (ParseCIDR _) as [?|[ip n]]; [discriminate|].
    intros [= <-]. right. simpl. repeat split; auto.
    + unfold strconv.ParseUint10_32 in Hp.
      destruct (nth 2 (strings.Split e "/") ""); [discriminate|].
      destruct (strconv.digits _ 0) as [v|] eqn:Hd; [|discriminate].
      destruct (v <=? 4294967295); [|discriminate].
      inversion Hp; subst.
      assert (Hge : forall s acc v, 0 <= acc -> strconv.digits s acc = Some v -> 0 <= v).
      { clear. induction s as [|c s IH]; intros acc v Hacc H; simpl in H.
        - inversion H; subst; assumption.
        - destruct (strconv.isDigit c) eqn:Ed; [|discriminate].
          apply IH in H; [assumption|].
          unfold strconv.isDigit in Ed. apply andb_true_iff in Ed.
          destruct Ed as [Ed _]. apply Nat.leb_le in Ed.
          unfold strconv.digitVal. lia. }
      eapply Hge; [|exact Hd]. lia.
    + unfold strconv.ParseUint10_32 in Hp.
      destruct (nth 2 (strings.Split e "/") ""); [discriminate|].
      destruct (strconv.digits _ 0) as [v|]; [|discriminate].
      destruct (v <=? 4294967295) eqn:Ev; [|discriminate].
      inversion Hp; subst. apply Z.leb_le in Ev. exact Ev.
  - destruct (List.length (strings.Split e "/") =? 2)%nat eqn:E2;
      [|discriminate].
    apply Nat.eqb_eq in E2.
    destruct (ParseCIDR _) as [?|[ip n]]; [discriminate|].
    intros [= <-]. left. auto.
Qed.

Lemma parseEntry_not_formatted (e : string) :
  List.length (strings.Split e "/") <> 2%nat ->
  List.length (strings.Split e "/") <> 3%nat ->
  parseEntry e = inl ErrNotFormatted.
Proof.
  intros H2 H3. unfold parseEntry.
  apply Nat.eqb_neq in H2, H3. rewrite H2, H3. reflexivity.
Qed.

Lemma entriesLoop_app (pre rest : list string) :
  forall acc,
    entriesLoop (pre ++ rest) acc =
    match entriesLoop pre acc with
    | inl e => inl e
    | inr acc' => entriesLoop rest acc'
    end.
Proof.
  induction pre as [|e pre IH]; intros acc; [reflexivity|].
  cbn [app entriesLoop].
  destruct (parseEntry e) as [?|en]; [reflexivity|].
  destruct (cidrsOverlap (CIDR en) acc) as [[|]|]; try reflexivity.
  apply IH.
Qed.

(** What a successful run of the loop returns: the entries in order, each
    the parse of its text, each checked against all before it. *)
Lemma entriesLoop_inr (entries : list string) :
  forall acc l,
    entriesLoop entries acc = inr l ->
    exists parsed,
      l = acc ++ parsed
      /\ Forall2 (fun e en => parseEntry e = inr en) entries parsed
      /\ (forall p1 en p2,
             parsed = p1 ++ en :: p2 ->
             cidrsOverlap (CIDR en) (acc ++ p1) = Some false).
Proof.
  induction entries as [|e entries IH]; intros acc l H.
  - inversion H; subst. exists []. rewrite app_nil_r.
    repeat split; [constructor|].
    intros [|? ?] en p2 Hp; discriminate.
  - cbn [entriesLoop] in H.
    destruct (parseEntry e) as [?|en] eqn:He; [discriminate|].
    destruct (cidrsOverlap (CIDR en) acc) as [[|]|] eqn:Ho; try discriminate.
    apply IH in H. destruct H as (parsed & -> & Hall & Hno).
    exists (en :: parsed). rewrite <- app_assoc. repeat split.
    + constructor; assumption.
    + intros [|x p1] en' p2 Hp; inversion Hp; subst.
      * rewrite app_nil_r. exact Ho.
      * match goal with
        | |- context [acc ++ ?y :: p1] =>
            change (acc ++ y :: p1) with (acc ++ [y] ++ p1)
        end.
        rewrite app_assoc. eapply Hno. reflexivity.
Qed.

Lemma cidrsOverlap_false (cidr : IPNet) (l : list CIDRNetworkEntry) :
  cidrsOverlap cidr l = Some false ->
  forall en, In en l ->
    Contains cidr (IPNet_IP (CIDR en)) = Some false
    /\ Contains (CIDR en) (IPNet_IP cidr) = Some false.
Proof.
  induction l as [|x l IH]; intros H en Hin; [contradiction|].
  cbn [cidrsOverlap] in H.
  destruct (Contains cidr (IPNet_IP (CIDR x))) as [[|]|] eqn:C1; try discriminate.
  destruct (Contains (CIDR x) (IPNet_IP cidr)) as [[|]|] eqn:C2; try discriminate.
  destruct Hin as [-> | Hin]; [auto | apply IH; assumption].
Qed.

Lemma Forall2_nth_error {A B} (R : A -> B -> Prop) (l1 : list A) (l2 : list B) :
  Forall2 R l1 l2 ->
  forall i,
    (forall a, nth_error l1 i = Some a -> exists b, nth_error l2 i = Some b /\ R a b)
    /\ (forall b, nth_error l2 i = Some b -> exists a, nth_error l1 i = Some a /\ R a b).
Proof.
  induction 1 as [|a b l1 l2 Hab _ IH]; intros [|i]; simpl; split;
    try discriminate; try (intros ? [= <-]; eauto); apply IH.
Qed.

(** The entries a successful parse returns do not overlap pairwise. *)
Lemma parsed_entries_disjoint (s : string) (l : list CIDRNetworkEntry) :
  parseClusterSubnetEntries s = inr l ->
  Forall2 (fun e en => parseEntry e = inr en) (strings.Split s ",") l
  /\ forall i j a b,
       (i < j)%nat -> nth_error l i = Some a -> nth_error l j = Some b ->
       ~ overlap (CIDR a) (CIDR b).
Proof.
  intros H. unfold parseClusterSubnetEntries in H.
  apply entriesLoop_inr in H. destruct H as (parsed & -> & Hall & Hno).
  simpl. split; [exact Hall|].
  intros i j a b Hij Ha Hb Hov.
  destruct (nth_error_split parsed j Hb) as (p1 & p2 & -> & Hlen).
  specialize (Hno p1 b p2 eq_refl). simpl in Hno.
  assert (Hin : In a p1).
  { rewrite nth_error_app1 in Ha by lia. eapply nth_error_In; eassumption. }
  destruct (cidrsOverlap_false _ _ Hno a Hin) as [C1 C2].
  assert (Wa : wellFormedNet (CIDR a)).
  { destruct (proj2 (Forall2_nth_error _ _ _ Hall i) a) as (e & _ & He).
    - rewrite nth_error_app1 by lia. rewrite nth_error_app1 in Ha by lia.
      exact Ha.
    - eapply parseEntry_wellFormed; eassumption. }
  assert (Wb : wellFormedNet (CIDR b)).
  { destruct (proj2 (Forall2_nth_error _ _ _ Hall j) b Hb) as (e & _ & He).
    eapply parseEntry_wellFormed; eassumption. }
  destruct (overlap_found _ _ Wa Wb Hov) as [C | C]; congruence.
Qed.

(** C3 (counterexample).  [parseClusterSubnetEntries] accepts
    [10.0.0.0/16/8]: the host subnet length 8 is below the prefix length
    16, let alone 17. *)
Lemma short_host_subnet_length_accepted :
  parseClusterSubnetEntries "10.0.0.0/16/8" =
  inr [mkCIDRNetworkEntry (mkIPNet [10; 0; 0; 0] [255; 255; 0; 0]) 8]
  /\ prefixLength (mkIPNet [10; 0; 0; 0] [255; 255; 0; 0]) = 16
  /\ ~ (8 >= 16 + 1).
Proof. vm_compute. repeat split; congruence. Qed.

(** C3 (amended).  [parseClusterSubnetEntries] returns an error when an
    entry's CIDR overlaps the CIDR of an earlier entry, and the entries of
    every list it returns are pairwise non-overlapping (no address lies in
    two of them).  The host subnet length is not compared with the prefix
    length: it is 24 for an entry of two fields and the third field, read
    as an unsigned 32-bit number, for an entry of three. *)
Theorem cluster_subnets_disjoint :
  (forall s l i j a b,
      parseClusterSubnetEntries s = inr l ->
      (i < j)%nat -> nth_error l i = Some a -> nth_error l j = Some b ->
      ~ overlap (CIDR a) (CIDR b))
  /\ (forall s i j ei ej a b,
         (i < j)%nat ->
         nth_error (strings.Split s ",") i = Some ei ->
         nth_error (strings.Split s ",") j = Some ej ->
         parseEntry ei = inr a -> parseEntry ej = inr b ->
         overlap (CIDR a) (CIDR b) ->
         exists err, parseClusterSubnetEntries s = inl err)
  /\ (forall s l i e en,
         parseClusterSubnetEntries s = inr l ->
         nth_error (strings.Split s ",") i = Some e ->
         nth_error l i = Some en ->
         (List.length (strings.Split e "/") = 2%nat
          /\ HostSubnetLength en = 24)
         \/ (List.length (strings.Split e "/") = 3%nat
             /\ strconv.ParseUint10_32 (nth 2 (strings.Split e "/") "")
                = inr (HostSubnetLength en)
             /\ 0 <= HostSubnetLength en <= 4294967295)).
Proof.
  split; [|split].
  - intros s l i j a b H. apply (proj2 (parsed_entries_disjoint s l H)).
  - intros s i j ei ej a b Hij Hei Hej Ha Hb Hov.
    destruct (parseClusterSubnetEntries s) as [err|l] eqn:H; [eauto|exfalso].
    destruct (parsed_entries_disjoint s l H) as [Hall Hdis].
    destruct (proj1 (Forall2_nth_error _ _ _ Hall i) ei Hei) as (a' & Ha' & Hpa).
    destruct (proj1 (Forall2_nth_error _ _ _ Hall j) ej Hej) as (b' & Hb' & Hpb).
    assert (a' = a) by congruence. assert (b' = b) by congruence. subst.
    exact (Hdis i j a b Hij Ha' Hb' Hov).
  - intros s l i e en H He Hen.
    destruct (parsed_entries_disjoint s l H) as [Hall _].
    destruct (proj1 (Forall2_nth_error _ _ _ Hall i) e He) as (en' & Hen' & Hp).
    assert (en' = en) by congruence. subst.
    apply parseEntry_HostSubnetLength. exact Hp.
Qed.

Lemma cluster_subnets_disjoint_witness :
  exists err, parseClusterSubnetEntries "10.0.0.0/16,10.0.1.0/24" = inl err.
Proof.
  apply (proj1 (proj2 cluster_subnets_disjoint) "10.0.0.0/16,10.0.1.0/24"
           0%nat 1%nat "10.0.0.0/16" "10.0.1.0/24"
           (mkCIDRNetworkEntry (mkIPNet [10; 0; 0; 0] [255; 255; 0; 0]) 24)
           (mkCIDRNetworkEntry (mkIPNet [10; 0; 1; 0] [255; 255; 255; 0]) 24)).
  - lia.
  - reflexivity.
  - reflexivity.
  - vm_compute. reflexivity.
  - vm_compute. reflexivity.
  - exists [10; 0; 1; 7]. split; vm_compute; reflexivity.
Defined.

(** C9 (confirmed).  An entry written as two slash-separated parts is
    accepted with [HostSubnetLength] 24 whenever its two parts make a CIDR
    that overlaps no entry before it: alone it gives the one-entry list,
    and after accepted entries the loop goes on with it appended.  Every
    list [parseClusterSubnetEntries] returns holds 24 for each two-part
    entry.  An entry with neither two nor three parts makes it fail, with
    the error "cluster-cidr not formatted properly" when the entries
    before it were accepted. *)
Theorem two_part_entry_gets_24 :
  (forall s l i e en,
      parseClusterSubnetEntries s = inr l ->
      nth_error (strings.Split s ",") i = Some e ->
      nth_error l i = Some en ->
      List.length (strings.Split e "/") = 2%nat ->
      HostSubnetLength en = 24)
  /\ (forall s l,
         parseClusterSubnetEntries s = inr l ->
         List.length l = List.length (strings.Split s ","))
  /\ (forall s pre e post acc,
         strings.Split s "," = pre ++ e :: post ->
         entriesLoop pre [] = inr acc ->
         List.length (strings.Split e "/") <> 2%nat ->
         List.length (strings.Split e "/") <> 3%nat ->
         parseClusterSubnetEntries s = inl ErrNotFormatted)
  /\ (forall s e,
         In e (strings.Split s ",") ->
         List.length (strings.Split e "/") <> 2%nat ->
         List.length (strings.Split e "/") <> 3%nat ->
         exists err, parseClusterSubnetEntries s = inl err)
  /\ (forall s a b ip n,
         lacks "," s = true ->
         strings.Split s "/" = [a; b] ->
         ParseCIDR (a ++ "/" ++ b) = inr (ip, n) ->
         parseClusterSubnetEntries s = inr [mkCIDRNetworkEntry n 24])
  /\ (forall s pre e post acc a b ip n,
         strings.Split s "," = pre ++ e :: post ->
         entriesLoop pre [] = inr acc ->
         strings.Split e "/" = [a; b] ->
         ParseCIDR (a ++ "/" ++ b) = inr (ip, n) ->
         cidrsOverlap n acc = Some false ->
         parseClusterSubnetEntries s =
         entriesLoop post (acc ++ [mkCIDRNetworkEntry n 24])).
Proof.
  assert (Hentry : forall e a b ip n,
             strings.Split e "/" = [a; b] ->
             ParseCIDR (a ++ "/" ++ b) = inr (ip, n) ->
             parseEntry e = inr (mkCIDRNetworkEntry n 24)).
  { intros e a b ip n Hsplit Hcidr. unfold parseEntry. rewrite Hsplit.
    cbn [List.length Nat.eqb nth]. rewrite Hcidr. reflexivity. }
  split; [|split; [|split; [|split; [|split]]]].
  - intros s l i e en H He Hen Hlen.
    destruct (parsed_entries_disjoint s l H) as [Hall _].
    destruct (proj1 (Forall2_nth_error _ _ _ Hall i) e He) as (en' & Hen' & Hp).
    assert (en' = en) by congruence. subst.
    apply parseEntry_HostSubnetLength in Hp.
    destruct Hp as [(_ & H24) | (H3 & _)]; [exact H24 | lia].
  - intros s l H.
    destruct (parsed_entries_disjoint s l H) as [Hall _].
    symmetry. eapply Forall2_length; eassumption.
  - intros s pre e post acc Hs Hpre H2 H3.
    unfold parseClusterSubnetEntries. rewrite Hs, entriesLoop_app, Hpre.
    cbn [entriesLoop]. rewrite (parseEntry_not_formatted e H2 H3). reflexivity.
  - intros s e Hin H2 H3.
    destruct (parseClusterSubnetEntries s) as [err|l] eqn:H; [eauto|exfalso].
    destruct (parsed_entries_disjoint s l H) as [Hall _].
    destruct (In_nth_error _ _ Hin) as [i Hi].
    destruct (proj1 (Forall2_nth_error _ _ _ Hall i) e Hi) as (en & _ & Hp).
    rewrite (parseEntry_not_formatted e H2 H3) in Hp. discriminate.
  - intros s a b ip n Hcomma Hsplit Hcidr.
    unfold parseClusterSubnetEntries. rewrite (Split_lacks "," s Hcomma).
    cbn [entriesLoop]. rewrite (Hentry s a b ip n Hsplit Hcidr).
    reflexivity.
  - intros s pre e post acc a b ip n Hs Hpre Hsplit Hcidr Hov.
    unfold parseClusterSubnetEntries. rewrite Hs, entriesLoop_app, Hpre.
    cbn [entriesLoop]. rewrite (Hentry e a b ip n Hsplit Hcidr).
    cbn [CIDR]. rewrite Hov. reflexivity.
Qed.

Lemma two_part_entry_gets_24_witness :
  parseClusterSubnetEntries "10.0.0.0/16" =
  inr [mkCIDRNetworkEntry (mkIPNet [10; 0; 0; 0] [255; 255; 0; 0]) 24]
  /\ parseClusterSubnetEntries "11.0.0.0/8/20,10.0.0.0/16" =
     inr [mkCIDRNetworkEntry (mkIPNet [11; 0; 0; 0] [255; 0; 0; 0]) 20;
          mkCIDRNetworkEntry (mkIPNet [10; 0; 0; 0] [255; 255; 0; 0]) 24]
  /\ parseClusterSubnetEntries "10.0.0.0/16,11.0.0.0" = inl ErrNotFormatted.
Proof.
  split; [|split].
  - apply (proj1 (proj2 (proj2 (proj2 (proj2 two_part_entry_gets_24))))
             "10.0.0.0/16" "10.0.0.0" "16" (IPv4 10 0 0 0)
             (mkIPNet [10; 0; 0; 0] [255; 255; 0; 0]));
      reflexivity.
  - apply (proj2 (proj2 (proj2 (proj2 (proj2 two_part_entry_gets_24))))
             "11.0.0.0/8/20,10.0.0.0/16" ["11.0.0.0/8/20"] "10.0.0.0/16" []
             [mkCIDRNetworkEntry (mkIPNet [11; 0; 0; 0] [255; 0; 0; 0]) 20]
             "10.0.0.0" "16" (IPv4 10 0 0 0)
             (mkIPNet [10; 0; 0; 0] [255; 255; 0; 0]));
      reflexivity.
  - apply (proj1 (proj2 (proj2 two_part_entry_gets_24)) "10.0.0.0/16,11.0.0.0"
             ["10.0.0.0/16"] "11.0.0.0" []
             [mkCIDRNetworkEntry (mkIPNet [10; 0; 0; 0] [255; 255; 0; 0]) 24]);
      try reflexivity; vm_compute; discriminate.
Defined.

(** ** The management port *)

Lemma bytesToZ_app (l : list Z) (b : Z) :
  util.bytesToZ (l ++ [b]) = util.bytesToZ l * 256 + b.
Proof. unfold util.bytesToZ. rewrite fold_left_app. reflexivity. Qed.

Lemma ZToBytes_length (n : nat) (z : Z) : List.length (util.ZToBytes n z) = n.
Proof.
  revert z. induction n as [|n IH]; intros z; simpl; [reflexivity|].
  rewrite length_app, IH. simpl. lia.
Qed.

Lemma bytesToZ_ZToBytes (n : nat) :
  forall z, util.bytesToZ (util.ZToBytes n z) = z mod 256 ^ Z.of_nat n.
Proof.
  induction n as [|n IH]; intros z.
  - simpl. rewrite Z.mod_1_r. reflexivity.
  - cbn [util.ZToBytes]. rewrite bytesToZ_app, IH.
    rewrite Nat2Z.inj_succ, Z.pow_succ_r by lia.
    rewrite (Z.rem_mul_r z 256 (256 ^ Z.of_nat n)) by lia. lia.
Qed.

(** [ZToBytes n] only looks at the number modulo [256 ^ n]. *)
Lemma ZToBytes_congr (n : nat) :
  forall z1 z2,
    z1 mod 256 ^ Z.of_nat n = z2 mod 256 ^ Z.of_nat n ->
    util.ZToBytes n z1 = util.ZToBytes n z2.
Proof.
  induction n as [|n IH]; intros z1 z2 H; [reflexivity|].
  cbn [util.ZToBytes].
  rewrite Nat2Z.inj_succ, Z.pow_succ_r in H by lia.
  rewrite (Z.rem_mul_r z1 256 (256 ^ Z.of_nat n)) in H by lia.
  rewrite (Z.rem_mul_r z2 256 (256 ^ Z.of_nat n)) in H by lia.
  pose proof (Z.mod_pos_bound z1 256 ltac:(lia)).
  pose proof (Z.mod_pos_bound z2 256 ltac:(lia)).
  assert (z1 mod 256 = z2 mod 256 /\
          (z1 / 256) mod 256 ^ Z.of_nat n = (z2 / 256) mod 256 ^ Z.of_nat n)
    as [E1 E2] by lia.
  rewrite E1. f_equal. apply IH. exact E2.
Qed.

Lemma NextIP_normal (ip : IP) :
  util.NextIP ip =
  util.ZToBytes (List.length (normalForm ip)) (util.bytesToZ (normalForm ip) + 1).
Proof. reflexivity. Qed.

Lemma normalForm_4 (v : IP) : List.length v = 4%nat -> normalForm v = v.
Proof. intros H. unfold normalForm, To4. rewrite H. reflexivity. Qed.

(** C4 (counterexample).  For the host subnet [10.0.0.0/24] the router
    address is [10.0.0.1] and the management port address [10.0.0.2]: the
    subnet's addresses at offsets 1 and 2, not 0 and 1. *)
Lemma management_port_offsets :
  ovn.CreateManagementPort util.NextIP "10.0.0.0/24" =
  inr ([10; 0; 0; 1], [10; 0; 0; 2], 24)
  /\ hostSubnetAddress (mkIPNet [10; 0; 0; 0] [255; 255; 255; 0]) 0
     = [10; 0; 0; 0]
  /\ hostSubnetAddress (mkIPNet [10; 0; 0; 0] [255; 255; 255; 0]) 1
     = [10; 0; 0; 1]
  /\ ~ (exists ip subnet,
          ParseCIDR "10.0.0.0/24" = inr (ip, subnet)
          /\ ovn.CreateManagementPort util.NextIP "10.0.0.0/24" =
             inr (hostSubnetAddress subnet 0, hostSubnetAddress subnet 1,
                  prefixLength subnet)).
Proof.
  repeat split; try (vm_compute; reflexivity).
  intros (ip & subnet & H1 & H2).
  vm_compute in H1. injection H1 as _ <-.
  vm_compute in H2. discriminate.
Qed.

(** C4 (amended).  [CreateManagementPort] takes the address written in
    [localSubnet], gives the router port its successor ([NextIP]) and the
    management port the successor of that, with the subnet's prefix
    length.  When [localSubnet] is an IPv4 subnet written with its base
    address, these are the subnet's addresses at offsets 1 and 2 from the
    base ([HostSubnet[1]] and [HostSubnet[2]]). *)
Theorem management_port_addresses :
  (forall next localSubnet ip subnet,
      ParseCIDR localSubnet = inr (ip, subnet) ->
      ovn.CreateManagementPort next localSubnet =
      inr (next ip, next (next ip), prefixLength subnet))
  /\ (forall localSubnet ip subnet,
         ParseCIDR localSubnet = inr (ip, subnet) ->
         List.length (IPNet_IP subnet) = 4%nat ->
         normalForm ip = IPNet_IP subnet ->
         ovn.CreateManagementPort util.NextIP localSubnet =
         inr (hostSubnetAddress subnet 1, hostSubnetAddress subnet 2,
              prefixLength subnet)).
Proof.
  assert (Hgen : forall next localSubnet ip subnet,
             ParseCIDR localSubnet = inr (ip, subnet) ->
             ovn.CreateManagementPort next localSubnet =
             inr (next ip, next (next ip), prefixLength subnet)).
  { intros next localSubnet ip subnet H. unfold ovn.CreateManagementPort.
    rewrite H. unfold prefixLength.
    destruct (Size (IPNet_Mask subnet)). reflexivity. }
  split; [exact Hgen|].
  intros localSubnet ip subnet H Hlen Hbase.
  rewrite (Hgen util.NextIP localSubnet ip subnet H).
  assert (H1 : util.NextIP ip = hostSubnetAddress subnet 1).
  { rewrite NextIP_normal, Hbase. reflexivity. }
  rewrite H1. repeat f_equal.
  rewrite NextIP_normal.
  assert (Hl : List.length (hostSubnetAddress subnet 1) = 4%nat).
  { unfold hostSubnetAddress. rewrite ZToBytes_length. exact Hlen. }
  rewrite (normalForm_4 _ Hl), Hl.
  unfold hostSubnetAddress. rewrite Hlen.
  apply ZToBytes_congr. rewrite bytesToZ_ZToBytes.
  rewrite Z.add_mod_idemp_l by lia. f_equal. lia.
Qed.

Lemma management_port_addresses_witness :
  ovn.CreateManagementPort util.NextIP "10.0.5.0/24" =
  inr (hostSubnetAddress (mkIPNet [10; 0; 5; 0] [255; 255; 255; 0]) 1,
       hostSubnetAddress (mkIPNet [10; 0; 5; 0] [255; 255; 255; 0]) 2,
       prefixLength (mkIPNet [10; 0; 5; 0] [255; 255; 255; 0])).
Proof.
  apply (proj2 management_port_addresses "10.0.5.0/24"
           (IPv4 10 0 5 0) (mkIPNet [10; 0; 5; 0] [255; 255; 255; 0]));
    vm_compute; reflexivity.
Defined.

(** ** [overrideFields] as an operation on field lists *)






(** X2.  Overriding twice with the same source is overriding once. *)
Theorem overrideFields_idempotent (dst src l : list Value) :
  overrideFields_loop dst src = inr l ->
  overrideFields_loop l src = inr l.
Proof.
  revert src l.
  induction dst as [|d dst IH]; intros [|s src] l H; try discriminate.
  - inversion H. reflexivity.
  - cbn [overrideFields_loop] in H.
    destruct s as [sv|n], d as [dv|m]; try discriminate;
      destruct (overrideFields_loop dst src) as [?|l'] eqn:Hl;
      try discriminate; inversion H; subst; cbn [overrideFields_loop].
    + destruct (negb (isEmpty sv)) eqn:E; rewrite ?E, (IH _ _ Hl); reflexivity.
    + destruct (negb (n =? 0)) eqn:E; rewrite ?E, (IH _ _ Hl); reflexivity.
Qed.

Lemma overrideFields_idempotent_witness :
  overrideFields_loop [VInt 1500; VString "geneve"] [VInt 0; VString "vxlan"]
  = inr [VInt 1500; VString "vxlan"]
  /\ overrideFields_loop [VInt 1500; VString "vxlan"] [VInt 0; VString "vxlan"]
     = inr [VInt 1500; VString "vxlan"].
Proof.
  split; [reflexivity|].
  apply (overrideFields_idempotent [VInt 1500; VString "geneve"]).
  reflexivity.
Defined.

(** X3.  Overriding is associative: the file's values and then the
    flags' over the defaults give what the defaults get from the file
    already overridden by the flags. *)
Theorem overrideFields_associative (d a b x y : list Value) :
  overrideFields_loop d a = inr x ->
  overrideFields_loop x b = inr y ->
  exists ab, overrideFields_loop a b = inr ab
             /\ overrideFields_loop d ab = inr y.
Proof.
  revert a b x y.
  induction d as [|d0 d IH]; intros [|a0 a] [|b0 b] x y Hx Hy;
    cbn [overrideFields_loop] in Hx; try discriminate.
  - inversion Hx; subst. exists []. split; [reflexivity | exact Hy].
  - inversion Hx; subst. discriminate.
  - destruct a0, d0; try discriminate;
      destruct (overrideFields_loop d a); try discriminate;
      inversion Hx; subst; discriminate.
  - destruct a0 as [av|an], d0 as [dv|dn]; try discriminate;
      destruct (overrideFields_loop d a) as [?|x'] eqn:Hda; try discriminate;
      inversion Hx; subst; clear Hx; cbn [overrideFields_loop] in Hy.
    + destruct b0 as [bv|bn];
        [|destruct (negb (isEmpty av)); discriminate].
      assert (Hy' : exists y', overrideFields_loop x' b = inr y'
                /\ y = (if negb (isEmpty bv) then VString bv
                        else if negb (isEmpty av) then VString av
                             else VString dv) :: y').
      { destruct (negb (isEmpty av)), (overrideFields_loop x' b) as [?|y'];
          try discriminate; inversion Hy; eauto. }
      destruct Hy' as (y' & Hxb & ->).
      destruct (IH a b x' y' Hda Hxb) as (ab & Hab & Hdab).
      cbn [overrideFields_loop]. rewrite Hab.
      eexists. split; [reflexivity|].
      cbn [overrideFields_loop].
      destruct bv as [|c bv], av as [|c' av]; cbn; rewrite Hdab; reflexivity.
    + destruct b0 as [bv|bn];
        [destruct (negb (an =? 0)); discriminate|].
      assert (Hy' : exists y', overrideFields_loop x' b = inr y'
                /\ y = (if negb (bn =? 0) then VInt bn
                        else if negb (an =? 0) then VInt an
                             else VInt dn) :: y').
      { destruct (negb (an =? 0)), (overrideFields_loop x' b) as [?|y'];
          try discriminate; inversion Hy; eauto. }
      destruct Hy' as (y' & Hxb & ->).
      destruct (IH a b x' y' Hda Hxb) as (ab & Hab & Hdab).
      cbn [overrideFields_loop]. rewrite Hab.
      eexists. split; [reflexivity|].
      cbn [overrideFields_loop].
      destruct (bn =? 0) eqn:Eb, (an =? 0) eqn:Ea; cbn;
        rewrite ?Eb, ?Ea; cbn; rewrite Hdab; reflexivity.
Qed.

Lemma overrideFields_associative_witness :
  exists ab,
    overrideFields_loop [VInt 1500; VString ""] [VInt 1234; VString "x"] = inr ab
    /\ overrideFields_loop [VInt 1400; VString "geneve"] ab
       = inr [VInt 1234; VString "x"].
Proof.
  apply (overrideFields_associative [VInt 1400; VString "geneve"]
           [VInt 1500; VString ""] [VInt 1234; VString "x"]
           [VInt 1500; VString "geneve"]); reflexivity.
Defined.

(** ** The configuration file *)

(** X4.  A successful [InitConfigWithPath] returns the path it was given,
    or else the value of [--config-file]; when neither is given it returns
    the empty string, not the fallback path it read. *)
Theorem returned_config_file (w : World) (flag : string) (cli : config_)
    (configFile : string) (defaults : option Defaults) (g g' : Globals)
    (ret : string) :
  InitConfigWithPath w flag cli configFile defaults g = (g', inr ret) ->
  ret = (if isEmpty configFile then flag else configFile).
Proof.
  unfold InitConfigWithPath, getConfigFilePath.
  destruct (isEmpty configFile) eqn:Ec.
  - destruct (isEmpty flag) eqn:Ef; cbn [negb].
    + apply isEmpty_true in Ef. subst flag.
      destruct (negb (String.eqb (GOOS w) "windows")); cbn [negb];
        repeat match goal with
               | |- context [match ?x with _ => _ end] => destruct x
               end; intros H; inversion H; reflexivity.
    + repeat match goal with
             | |- context [match ?x with _ => _ end] => destruct x
             end; intros H; inversion H; reflexivity.
  - cbn [negb].
    repeat match goal with
           | |- context [match ?x with _ => _ end] => destruct x
           end; intros H; inversion H; reflexivity.
Qed.

Lemma returned_config_file_witness :
  InitConfigWithPath testHost "/tmp/ovn_k8s.conf" testFlags "" None builtin
  = (testResult, inr "/tmp/ovn_k8s.conf")
  /\ "/tmp/ovn_k8s.conf" = (if isEmpty "" then "/tmp/ovn_k8s.conf" else "").
Proof.
  split; [vm_compute; reflexivity|].
  apply (returned_config_file testHost "/tmp/ovn_k8s.conf" testFlags ""
           None builtin testResult "/tmp/ovn_k8s.conf").
  vm_compute. reflexivity.
Defined.

(** X5.  A configuration file that cannot be opened is an error only when
    its path was given (as an argument or by [--config-file]); a missing
    fallback file is read as an empty one.  A file that opens and does not
    parse is an error in both cases.  The globals are untouched by these
    errors. *)
Theorem missing_config_file (w : World) (flag : string) (cli : config_)
    (configFile : string) (defaults : option Defaults) (g : Globals) :
  let path := fst (configPath w flag configFile) in
  (openConfigFile w path = OpenFails ->
   configFile = "" -> flag = "" ->
   InitConfigWithPath w flag cli configFile defaults g =
   InitConfigWithPath (withEmptyConfigFile w) flag cli configFile defaults g)
  /\ (openConfigFile w path = OpenFails ->
      configFile <> "" \/ flag <> "" ->
      path = (if isEmpty configFile then flag else configFile)
      /\ InitConfigWithPath w flag cli configFile defaults g =
         (g, inl (ErrOpenConfigFile path)))
  /\ (openConfigFile w path = ParseFails ->
      InitConfigWithPath w flag cli configFile defaults g =
      (g, inl (ErrParseConfigFile path))).
Proof.
  unfold configPath, InitConfigWithPath, getConfigFilePath. cbv zeta.
  split; [|split].
  - intros Hopen -> ->. cbn [isEmpty negb] in *.
    change (GOOS (withEmptyConfigFile w)) with (GOOS w).
    change (sysconfPath (withEmptyConfigFile w)) with (sysconfPath w).
    destruct (negb (String.eqb (GOOS w) "windows")); cbn [fst negb] in *;
      rewrite Hopen; reflexivity.
  - intros Hopen Hgiven.
    destruct (isEmpty configFile) eqn:Ec.
    + destruct (isEmpty flag) eqn:Ef.
      * apply isEmpty_true in Ec, Ef. destruct Hgiven; contradiction.
      * cbn [negb fst] in *. rewrite Hopen. split; reflexivity.
    + cbn [negb fst] in *. rewrite Hopen. split; reflexivity.
  - intros Hopen.
    destruct (if isEmpty configFile then _ else _) as [p isDefault].
    cbn [fst] in Hopen. rewrite Hopen. reflexivity.
Qed.

Lemma missing_config_file_witness :
  InitConfigWithPath bareHost "" flagsS6 "" None builtin =
  InitConfigWithPath (withEmptyConfigFile bareHost) "" flagsS6 "" None builtin
  /\ InitConfigWithPath bareHost "/no/such.conf" flagsS6 "" None builtin =
     (builtin, inl (ErrOpenConfigFile "/no/such.conf")).
Proof.
  split.
  - apply (proj1 (missing_config_file bareHost "" flagsS6 "" None builtin));
      reflexivity.
  - apply (proj1 (proj2 (missing_config_file bareHost "/no/such.conf" flagsS6
                           "" None builtin))).
    + reflexivity.
    + right. discriminate.
Defined.

(** ** Running [InitConfigWithPath] again *)

Lemma orString_again (d f c : string) :
  orString (orString (orString (orString d f) c) f) c
  = orString (orString d f) c.
Proof. unfold orString. destruct c, f; reflexivity. Qed.

Lemma orInt_again (d f c : Z) :
  orInt (orInt (orInt (orInt d f) c) f) c = orInt (orInt d f) c.
Proof. unfold orInt. destruct (c =? 0), (f =? 0); reflexivity. Qed.

Lemma precedence_again (c f d : string) :
  precedence c f (precedence c f d) = precedence c f d.
Proof. unfold precedence. destruct c, f; reflexivity. Qed.

Lemma precedence_discovered_again (w : World) (flag : bool) (name c f d : string) :
  precedence c f (discovered w flag name (precedence c f (discovered w flag name d)))
  = precedence c f (discovered w flag name d).
Proof.
  unfold discovered. destruct flag; [reflexivity | apply precedence_again].
Qed.

(** [buildKubernetesConfig] always leaves the merged values. *)
Lemma buildKubernetesConfig_fst (w : World) (cli file : config_) (d : Defaults)
    (k : KubernetesConfig) :
  kubernetesValues w cli file d k
  = inr (fst (buildKubernetesConfig w cli file d k)).
Proof.
  unfold buildKubernetesConfig.
  rewrite kubernetesValues_eq.
  repeat match goal with
         | |- context [if ?b then _ else _] => destruct b
         | |- context [match urlScheme ?a ?b with _ => _ end] =>
             destruct (urlScheme a b)
         end; reflexivity.
Qed.

Lemma buildKubernetesConfig_again (w : World) (cli file : config_) (d : Defaults)
    (k : KubernetesConfig) :
  buildKubernetesConfig w cli file d (fst (buildKubernetesConfig w cli file d k))
  = buildKubernetesConfig w cli file d k.
Proof.
  pose proof (buildKubernetesConfig_fst w cli file d k) as Hk.
  rewrite kubernetesValues_eq in Hk. injection Hk as Hk.
  assert (Hv : kubernetesValues w cli file d
                 (fst (buildKubernetesConfig w cli file d k))
               = kubernetesValues w cli file d k).
  { rewrite !kubernetesValues_eq, <- Hk.
    cbn [Kubeconfig CACert APIServer Token].
    rewrite precedence_again, !precedence_discovered_again. reflexivity. }
  unfold buildKubernetesConfig at 1 3. rewrite Hv, kubernetesValues_eq.
  reflexivity.
Qed.

(** X6.  [InitConfigWithPath] is idempotent: run again with the same
    file, flags and host on the globals it left, it leaves the same
    globals and returns the same result, error or not. *)
Theorem InitConfigWithPath_idempotent (w : World) (flag : string)
    (cli : config_) (configFile : string) (defaults : option Defaults)
    (g : Globals) :
  InitConfigWithPath w flag cli configFile defaults
    (fst (InitConfigWithPath w flag cli configFile defaults g))
  = InitConfigWithPath w flag cli configFile defaults g.
Proof.
  unfold InitConfigWithPath.
  destruct (if isEmpty configFile then getConfigFilePath w flag
            else (configFile, false)) as [path isDefault].
  destruct (match openConfigFile w path with
            | OpenFails => _ | ParseFails => _ | Parsed cfg => _ end)
    as [e|cfg]; [reflexivity|].
  rewrite !overrideFields_DefaultConfig, !overrideFields_CNIConfig,
    !overrideFields_LoggingConfig.
  set (d := match defaults with Some d => d | None => _ end).
  pose proof (buildKubernetesConfig_again w cli cfg d (Kubernetes g)) as HK.
  destruct (buildKubernetesConfig w cli cfg d (Kubernetes g)) as [k err] eqn:HK0.
  cbn [fst] in HK.
  destruct err as [e|].
  - cbn [fst Default Logging CNI Kubernetes OvnNorth OvnSouth
           MTU ConntrackZone EncapType EncapIP InactivityProbe File Level
           ConfDir Plugin WinHNSNetworkID].
    rewrite !orString_again, !orInt_again, HK. reflexivity.
  - cbn [OvnNorth OvnSouth].
    destruct (buildOvnAuth w "nb" "ovn-nb" _ _ _) as [e|north].
    + cbn [fst Default Logging CNI Kubernetes OvnNorth OvnSouth
             MTU ConntrackZone EncapType EncapIP InactivityProbe File Level
             ConfDir Plugin WinHNSNetworkID].
      rewrite !orString_again, !orInt_again, HK. reflexivity.
    + destruct (buildOvnAuth w "sb" "ovn-remote" _ _ _) as [e|south];
        cbn [fst Default Logging CNI Kubernetes OvnNorth OvnSouth
               MTU ConntrackZone EncapType EncapIP InactivityProbe File Level
               ConfDir Plugin WinHNSNetworkID];
        rewrite !orString_again, !orInt_again, HK; reflexivity.
Qed.

(** ** What a failed [InitConfigWithPath] leaves behind *)

Ltac merged_values :=
  eexists; split;
  [ first [ apply overrideFields_DefaultConfig
          | apply overrideFields_LoggingConfig
          | apply overrideFields_CNIConfig ]
  | first [ rewrite overrideFields_DefaultConfig
          | rewrite overrideFields_LoggingConfig
          | rewrite overrideFields_CNIConfig ];
    reflexivity ].

Lemma fileConfig_opened (w : World) (flag configFile path : string)
    (isDefault : bool) (cfg : config_) :
  (if isEmpty configFile then getConfigFilePath w flag
   else (configFile, false)) = (path, isDefault) ->
  match openConfigFile w path with
  | OpenFails => if negb isDefault then inl (ErrOpenConfigFile path)
                 else inr zeroConfig
  | ParseFails => inl (ErrParseConfigFile path)
  | Parsed cfg => inr cfg
  end = inr cfg ->
  cfg = fileConfig w flag configFile.
Proof.
  intros Hp Hc. unfold fileConfig.
  replace (if isEmpty configFile then fst (getConfigFilePath w flag)
           else configFile) with path
    by (destruct (isEmpty configFile); [rewrite Hp | inversion Hp];
        reflexivity).
  destruct (openConfigFile w path); try discriminate.
  - destruct (negb isDefault); [discriminate|]. congruence.
  - congruence.
Qed.

(** X7.  [InitConfigWithPath] is not transactional.  Only an error about
    the configuration file leaves the globals as they were.  Any later
    error leaves [Default], [Logging], [CNI] and [Kubernetes] at their
    merged values; an error from building the northbound auth leaves
    [OvnNorth] without a [ClientAuth], whatever it held, and an error from
    building the southbound auth leaves the new northbound auth and
    [OvnSouth] without a [ClientAuth]. *)
Theorem failed_InitConfig_leaves_merged_values (w : World) (flag : string)
    (cli : config_) (configFile : string) (defaults : option Defaults)
    (g g' : Globals) (e : config.Error) :
  InitConfigWithPath w flag cli configFile defaults g = (g', inl e) ->
  let path := fst (configPath w flag configFile) in
  let file := fileConfig w flag configFile in
  let d := match defaults with
           | Some d => d
           | None => mkDefaults false false false false
           end in
  (g' = g /\ (e = ErrOpenConfigFile path \/ e = ErrParseConfigFile path))
  \/ ((exists d1, overrideFields (Default g) (cfg_Default file) = inr d1
                  /\ overrideFields d1 (cfg_Default cli) = inr (Default g'))
      /\ (exists l1, overrideFields (Logging g) (cfg_Logging file) = inr l1
                     /\ overrideFields l1 (cfg_Logging cli) = inr (Logging g'))
      /\ (exists c1, overrideFields (CNI g) (cfg_CNI file) = inr c1
                     /\ overrideFields c1 (cfg_CNI cli) = inr (CNI g'))
      /\ kubernetesValues w cli file d (Kubernetes g) = inr (Kubernetes g')
      /\ ((snd (buildKubernetesConfig w cli file d (Kubernetes g)) = Some e
           /\ OvnNorth g' = OvnNorth g /\ OvnSouth g' = OvnSouth g)
          \/ (buildOvnAuth w "nb" "ovn-nb" (cfg_OvnNorth cli)
                (cfg_OvnNorth file) (OvnNorthAddress d) = inl e
              /\ ClientAuth (OvnNorth g') = None
              /\ OvnSouth g' = OvnSouth g)
          \/ (buildOvnAuth w "nb" "ovn-nb" (cfg_OvnNorth cli)
                (cfg_OvnNorth file) (OvnNorthAddress d) = inr (OvnNorth g')
              /\ buildOvnAuth w "sb" "ovn-remote" (cfg_OvnSouth cli)
                   (cfg_OvnSouth file) false = inl e
              /\ ClientAuth (OvnSouth g') = None))).
Proof.
  intros H path file d. subst path. unfold configPath.
  unfold InitConfigWithPath in H.
  destruct (if isEmpty configFile then getConfigFilePath w flag
            else (configFile, false)) as [path isDefault] eqn:Hp.
  pose proof (fun cfg => fileConfig_opened w flag configFile path isDefault
                           cfg Hp) as Hfile.
  destruct (match openConfigFile w path with
            | OpenFails => _ | ParseFails => _ | Parsed cfg => _ end)
    as [e0|cfg] eqn:Hopen.
  - left. inversion H; subst. split; [reflexivity|]. cbn [fst].
    destruct (openConfigFile w path).
    + destruct (negb isDefault); [|discriminate]. left. congruence.
    + right. congruence.
    + discriminate.
  - right. specialize (Hfile cfg eq_refl). subst cfg. fold file d in H.
    rewrite !overrideFields_DefaultConfig, !overrideFields_CNIConfig,
      !overrideFields_LoggingConfig in H.
    pose proof (buildKubernetesConfig_fst w cli file d (Kubernetes g)) as HK.
    destruct (buildKubernetesConfig w cli file d (Kubernetes g))
      as [k err] eqn:HK0.
    cbn [fst snd] in *.
    destruct err as [e1|].
    + inversion H; subst.
      cbn [Default Logging CNI Kubernetes OvnNorth OvnSouth].
      do 3 (split; [merged_values|]).
        split; [exact HK|].
      left. repeat split; reflexivity.
    + cbn [OvnNorth OvnSouth] in H.
      destruct (buildOvnAuth w "nb" "ovn-nb" _ _ _) as [e1|north] eqn:Hn.
      * inversion H; subst.
        cbn [Default Logging CNI Kubernetes OvnNorth OvnSouth ClientAuth].
        do 3 (split; [merged_values|]).
        split; [exact HK|].
        right. left. repeat split; reflexivity.
      * destruct (buildOvnAuth w "sb" "ovn-remote" _ _ _) as [e1|south] eqn:Hs;
          [|discriminate].
        inversion H; subst.
        cbn [Default Logging CNI Kubernetes OvnNorth OvnSouth ClientAuth].
        do 3 (split; [merged_values|]).
        split; [exact HK|].
        right. right. repeat split; reflexivity.
Qed.

Lemma failed_InitConfig_leaves_merged_values_witness :
  exists g' e,
    InitConfigWithPath bareHost "" flagsBadNorth "" None builtin = (g', inl e)
    /\ (exists d1,
           overrideFields (Default builtin) (cfg_Default zeroConfig) = inr d1
           /\ overrideFields d1 (cfg_Default flagsBadNorth) = inr (Default g'))
    /\ ClientAuth (OvnNorth g') = None.
Proof.
  eexists _, _. split; [vm_compute; reflexivity|].
  destruct (failed_InitConfig_leaves_merged_values bareHost "" flagsBadNorth ""
              None builtin _ _ ltac:(vm_compute; reflexivity))
    as [[_ [He|He]] | (HD & _ & _ & _ & [(Hk & _)|[(_ & Hn & _)|(Hk & _)]])];
    try discriminate; try (vm_compute in Hk; discriminate).
  split; [exact HD | exact Hn].
Defined.

(** ** The checks of [buildKubernetesConfig] *)

(** X8.  [buildKubernetesConfig] returns no error exactly when the merged
    kubeconfig and CA certificate paths are empty or exist and the API
    server address parses with scheme [https] or [http].  It checks in this
    order: a missing kubeconfig file is reported before a missing CA
    certificate, and both before a bad API server address. *)
Theorem buildKubernetesConfig_checks (w : World) (cli file : config_)
    (d : Defaults) (k : KubernetesConfig) :
  let k' := fst (buildKubernetesConfig w cli file d k) in
  let err := snd (buildKubernetesConfig w cli file d k) in
  let kubeconfigOK := Kubeconfig k' = "" \/ pathExists w (Kubeconfig k') = true in
  let cacertOK := CACert k' = "" \/ pathExists w (CACert k') = true in
  (err = None <->
   kubeconfigOK /\ cacertOK
   /\ (urlScheme w (APIServer k') = Some "https"
       \/ urlScheme w (APIServer k') = Some "http"))
  /\ (~ kubeconfigOK -> err = Some (ErrKubeconfigNotFound (Kubeconfig k')))
  /\ (kubeconfigOK -> ~ cacertOK ->
      err = Some (ErrCACertNotFound (CACert k')))
  /\ (kubeconfigOK -> cacertOK -> urlScheme w (APIServer k') = None ->
      err = Some (ErrAPIServerInvalid (APIServer k')))
  /\ (forall scheme,
         kubeconfigOK -> cacertOK ->
         urlScheme w (APIServer k') = Some scheme ->
         scheme <> "https" -> scheme <> "http" ->
         err = Some (ErrAPIServerScheme scheme)).
Proof.
  intros k' err kubeconfigOK cacertOK.
  pose proof (buildKubernetesConfig_fst w cli file d k) as Hk. fold k' in Hk.
  subst err. unfold buildKubernetesConfig in *. rewrite Hk in *.
  clearbody k'. clear Hk. subst kubeconfigOK cacertOK.
  destruct (isEmpty (Kubeconfig k')) eqn:E1;
    [apply isEmpty_true in E1 | apply isEmpty_false in E1];
    (destruct (pathExists w (Kubeconfig k')) eqn:P1);
    (destruct (isEmpty (CACert k')) eqn:E2;
       [apply isEmpty_true in E2 | apply isEmpty_false in E2]);
    (destruct (pathExists w (CACert k')) eqn:P2);
    cbn [negb andb fst snd];
    (destruct (urlScheme w (APIServer k')) as [scheme|] eqn:U;
       [destruct (String.eqb scheme "https") eqn:S1;
          [apply String.eqb_eq in S1 | apply String.eqb_neq in S1];
          (destruct (String.eqb scheme "http") eqn:S2;
             [apply String.eqb_eq in S2 | apply String.eqb_neq in S2])|]);
    cbn [negb andb fst snd];
    repeat split;
    try (intros; try reflexivity; try discriminate; try congruence; tauto);
    try (intros (H1 & H2 & H3); intuition congruence);
    try (intros; intuition congruence).
Qed.

Lemma buildKubernetesConfig_checks_witness :
  snd (buildKubernetesConfig bareHost testFlags testFile
         (mkDefaults false false false false) (Kubernetes builtin))
  = Some (ErrKubeconfigNotFound "/path/to/kubeconfig").
Proof.
  apply (proj1 (proj2 (buildKubernetesConfig_checks bareHost testFlags testFile
                         (mkDefaults false false false false)
                         (Kubernetes builtin)))).
  vm_compute. intros [H|H]; discriminate.
Defined.

(** X9.  A value asked from the OVS database replaces the built-in one
    even when the database has none: with [K8sAPIServer] set and no API
    server address in the database, the file or the flags, the built-in
    [http://localhost:8080] is lost, the address is empty and
    [buildKubernetesConfig] fails ([url.Parse] gives the empty address an
    empty scheme). *)
Theorem empty_discovery_replaces_builtin (w : World) (cli file : config_)
    (d : Defaults) (k : KubernetesConfig) :
  K8sAPIServer d = true ->
  getOVSExternalID w "k8s-api-server" = "" ->
  APIServer (cfg_Kubernetes file) = "" ->
  APIServer (cfg_Kubernetes cli) = "" ->
  urlScheme w "" = Some "" ->
  APIServer (fst (buildKubernetesConfig w cli file d k)) = ""
  /\ exists e, snd (buildKubernetesConfig w cli file d k) = Some e.
Proof.
  intros Hd Hid Hf Hc Hu.
  pose proof (buildKubernetesConfig_fst w cli file d k) as Hk.
  rewrite kubernetesValues_eq in Hk. injection Hk as Hk.
  assert (Ha : APIServer (fst (buildKubernetesConfig w cli file d k)) = "").
  { rewrite <- Hk. cbn [APIServer]. rewrite Hf, Hc, Hd.
    unfold discovered, precedence. cbn. exact Hid. }
  split; [exact Ha|].
  destruct (snd (buildKubernetesConfig w cli file d k)) as [e|] eqn:He; [eauto|].
  exfalso.
  apply (proj1 (buildKubernetesConfig_checks w cli file d k)) in He.
  destruct He as (_ & _ & [He | He]); rewrite Ha, Hu in He; discriminate.
Qed.

Lemma empty_discovery_replaces_builtin_witness :
  APIServer (Kubernetes builtin) = "http://localhost:8080"
  /\ APIServer (fst (buildKubernetesConfig hostWithoutAPIServer zeroConfig
                       zeroConfig (mkDefaults false true false false)
                       (Kubernetes builtin)))
     = ""
  /\ exists e, snd (buildKubernetesConfig hostWithoutAPIServer zeroConfig
                      zeroConfig (mkDefaults false true false false)
                      (Kubernetes builtin))
               = Some e.
Proof.
  split; [reflexivity|].
  apply (empty_discovery_replaces_builtin hostWithoutAPIServer zeroConfig
           zeroConfig (mkDefaults false true false false) (Kubernetes builtin));
    reflexivity.
Defined.

(** ** The auths [newOvnDBAuth] builds *)

Lemma newOvnDBAuth_commands (ctl ext url pk c ca : string) (a : OvnDBAuth) :
  newOvnDBAuth ctl ext url pk c ca = inr a ->
  ctlCmd a = ctl /\ externalID a = ext.
Proof.
  unfold newOvnDBAuth.
  repeat match goal with
         | |- context [if ?b then _ else _] => destruct b
         | |- context [match addressLoop ?u ?l ?s ?x with _ => _ end] =>
             destruct (addressLoop u l s x) as [?|[? ?]]
         end; try discriminate; intros [= <-]; split; reflexivity.
Qed.

Lemma append_nonempty_r (a b : string) : b <> "" -> (a ++ b)%string <> "".
Proof. destruct a, b; simpl; congruence. Qed.

(** The loop never ends with an empty address once it has one, and it has
    one after its first round. *)
Lemma addressLoop_address (url : string) (eps : list string) :
  forall scheme address scheme' address',
    addressLoop url eps scheme address = inr (scheme', address') ->
    address <> "" \/ eps <> [] -> address' <> "".
Proof.
  induction eps as [|e rest IH]; intros scheme address scheme' address' H Hne.
  - cbn [addressLoop] in H. inversion H; subst.
    destruct Hne as [Hne | Hne]; [exact Hne | congruence].
  - cbn [addressLoop] in H.
    destruct (strings.Split e ":") as [|s0 [|s1 [|s2 [|? ?]]]]; try discriminate.
    destruct (if isEmpty scheme then _ else _) as [?|sch]; [discriminate|].
    destruct (SplitHostPort _) as [?|[host port]]; [discriminate|].
    destruct (ParseIP host); [|discriminate].
    eapply IH; [exact H|]. left.
    destruct (isEmpty address).
    + apply append_nonempty_r. discriminate.
    + apply append_nonempty_r. discriminate.
Qed.

(** X12.  Every auth [newOvnDBAuth] returns has scheme [unix], [tcp] or
    [ssl]; the scheme is [unix] exactly when the address is empty, which is
    exactly when the connection string was; the key and the two
    certificates are all set for [ssl] and all empty otherwise; the
    command and the external id are the ones handed in. *)
Theorem newOvnDBAuth_invariants (ctl ext url pk c ca : string) (a : OvnDBAuth) :
  newOvnDBAuth ctl ext url pk c ca = inr a ->
  (Scheme a = OvnDBSchemeUnix \/ Scheme a = OvnDBSchemeTCP
   \/ Scheme a = OvnDBSchemeSSL)
  /\ (Scheme a = OvnDBSchemeUnix <-> OvnAddressForClient a = "")
  /\ (url = "" <-> OvnAddressForClient a = "")
  /\ (Scheme a = OvnDBSchemeSSL ->
      PrivKey a <> "" /\ Cert a <> "" /\ CACert_ a <> "")
  /\ (Scheme a <> OvnDBSchemeSSL ->
      PrivKey a = "" /\ Cert a = "" /\ CACert_ a = "")
  /\ ctlCmd a = ctl /\ externalID a = ext.
Proof.
  intros H.
  destruct (newOvnDBAuth_commands _ _ _ _ _ _ _ H) as [Hctl Hext].
  unfold newOvnDBAuth in H. destruct (isEmpty url) eqn:Eu.
  - apply isEmpty_true in Eu.
    destruct (_ || _); [discriminate|]. inversion H; subst. cbn.
    repeat split; auto; try discriminate; try tauto.
  - apply isEmpty_false in Eu.
    destruct (addressLoop _ _ _ _) as [?|[scheme address]] eqn:Hloop;
      [discriminate|].
    assert (Ha : address <> "").
    { eapply addressLoop_address; [exact Hloop|]. right. apply Split_nonempty. }
    destruct (String.eqb scheme "ssl").
    + destruct pk, c, ca; simpl in H; try discriminate.
      inversion H; subst. cbn.
      repeat split; auto; try discriminate; try tauto; try congruence.
    + destruct (String.eqb scheme "tcp"); [|discriminate].
      destruct pk, c, ca; simpl in H; try discriminate.
      inversion H; subst. cbn.
      repeat split; auto; try discriminate; try tauto; try congruence.
Qed.

Lemma newOvnDBAuth_invariants_witness :
  Scheme (mkOvnDBAuth "tcp:1.2.3.4:6641" "" "" "" OvnDBSchemeTCP
            "ovn-nbctl" "ovn-nb") <> OvnDBSchemeSSL
  /\ PrivKey (mkOvnDBAuth "tcp:1.2.3.4:6641" "" "" "" OvnDBSchemeTCP
                "ovn-nbctl" "ovn-nb") = "".
Proof.
  split; [discriminate|].
  apply (proj1 (proj2 (proj2 (proj2 (proj2
           (newOvnDBAuth_invariants "ovn-nbctl" "ovn-nb" "tcp://1.2.3.4:6641"
              "" "" "" _ eq_refl))))) ltac:(discriminate)).
Defined.

(** ** Hosts and colons *)

Lemma Split_fields_lack (sep : ascii) (s : string) :
  Forall (fun f => lacks sep f = true) (strings.Split s sep).
Proof.
  induction s as [|c r IH]; simpl.
  - constructor; [reflexivity | constructor].
  - destruct (Ascii.eqb c sep) eqn:E.
    + constructor; [reflexivity | exact IH].
    + destruct (strings.Split r sep) as [|x xs].
      * constructor; [simpl; rewrite E; reflexivity | constructor].
      * inversion IH; subst. constructor; [|assumption].
        simpl. rewrite E. simpl. assumption.
Qed.

Lemma Split_count (sep : ascii) (s : string) :
  List.length (strings.Split s sep) = S (count sep s).
Proof.
  induction s as [|c r IH]; simpl; [reflexivity|].
  destruct (Ascii.eqb c sep).
  - simpl. rewrite IH. reflexivity.
  - destruct (strings.Split r sep) as [|x xs]; simpl in *; [discriminate|].
    exact IH.
Qed.

Lemma count_app (c : ascii) (a b : string) :
  count c (a ++ b) = (count c a + count c b)%nat.
Proof.
  induction a as [|d a IH]; simpl; [reflexivity|].
  destruct (Ascii.eqb d c); simpl; rewrite IH; reflexivity.
Qed.

Lemma count_lacks (c : ascii) (s : string) : lacks c s = true -> count c s = 0%nat.
Proof.
  induction s as [|d s IH]; simpl; [reflexivity|].
  intros H. apply andb_true_iff in H. destruct H as [Hd Hs].
  apply negb_true_iff in Hd. rewrite Hd. auto.
Qed.

Lemma lacks_take (c : ascii) (n : nat) (s : string) :
  lacks c s = true -> lacks c (strings.take n s) = true.
Proof.
  revert s. induction n as [|n IH]; intros [|d s]; simpl; auto.
  intros H. apply andb_true_iff in H. destruct H as [Hd Hs].
  rewrite Hd. simpl. auto.
Qed.

Lemma lacks_drop (c : ascii) (n : nat) (s : string) :
  lacks c s = true -> lacks c (strings.drop n s) = true.
Proof.
  revert s. induction n as [|n IH]; intros [|d s]; simpl; auto.
  intros H. apply andb_true_iff in H. destruct H as [Hd Hs]. auto.
Qed.

Lemma take_app_le (n : nat) (a b : string) :
  (n <= String.length a)%nat -> strings.take n (a ++ b) = strings.take n a.
Proof.
  revert a. induction n as [|n IH]; intros [|d a] H; simpl in *;
    try reflexivity; try lia.
  f_equal. apply IH. lia.
Qed.

Lemma byteIndex_le (c : ascii) (s : string) (i : nat) :
  byteIndex s c = Some i -> (i < String.length s)%nat.
Proof.
  revert i. induction s as [|d s IH]; intros i; simpl; [discriminate|].
  destruct (Ascii.eqb d c).
  - intros [= <-]. lia.
  - destruct (byteIndex s c) as [j|]; [|discriminate].
    intros [= <-]. specialize (IH j eq_refl). lia.
Qed.

(** [host:port] with one colon: the port is what follows the colon, and
    the host has no colon of its own. *)
Lemma SplitHostPort_one_colon (h p host port : string) :
  lacks ":" h = true -> lacks ":" p = true ->
  SplitHostPort (h ++ ":" ++ p) = inr (host, port) ->
  port = p /\ lacks ":" host = true.
Proof.
  intros Hh Hp. unfold SplitHostPort.
  change (h ++ ":" ++ p)%string with (h ++ String ":" p)%string.
  rewrite (last_app ":" h p Hp).
  assert (Hport : strings.drop (String.length h + 1) (h ++ String ":" p) = p).
  { replace (String.length h + 1)%nat with (String.length (h ++ ":"))
      by (rewrite append_length; reflexivity).
    change (h ++ String ":" p)%string with (h ++ ":" ++ p)%string.
    rewrite <- append_assoc. apply drop_app. }
  destruct (headIs (h ++ String ":" p) "[").
  - destruct (byteIndex (h ++ String ":" p) "]") as [e|]; [|discriminate].
    destruct (e + 1 =? String.length (h ++ String ":" p))%nat; [discriminate|].
    destruct (e + 1 =? String.length h)%nat eqn:Ee.
    + apply Nat.eqb_eq in Ee.
      destruct (isSome _); [discriminate|]. destruct (isSome _); [discriminate|].
      intros [= <- <-]. split; [exact Hport|].
      destruct h as [|d h]; [simpl in Ee; lia|].
      cbn [String.append strings.drop].
      rewrite take_app_le by (simpl in Ee; lia).
      apply lacks_take. simpl in Hh. apply andb_true_iff in Hh. tauto.
    + destruct (charIs _ _); discriminate.
  - rewrite take_app, (byteIndex_lacks ":" h Hh). cbn [isSome isNone negb].
    destruct (isSome _); [discriminate|]. destruct (isSome _); [discriminate|].
    intros [= <- <-]. split; [exact Hport | exact Hh].
Qed.

(** Without a colon only the dotted form parses. *)
Lemma ParseIP_no_colon (host : string) (ip : IP) :
  lacks ":" host = true -> ParseIP host = Some ip -> parseIPv4 host = Some ip.
Proof.
  assert (Hscan : forall full s,
             lacks ":" s = true -> ParseIP_scan full s = Some ip ->
             parseIPv4 full = Some ip).
  { intros full s. induction s as [|c r IH]; intros Hl H; simpl in *;
      [discriminate|].
    apply andb_true_iff in Hl. destruct Hl as [Hc Hr].
    apply negb_true_iff in Hc.
    destruct (Ascii.eqb c "."); [exact H|].
    rewrite Hc in H. apply IH; assumption. }
  apply Hscan.
Qed.

(** The endpoints of an accepted connection string, field by field. *)
Lemma accepted_endpoint (s e : string) :
  endpointOf s e ->
  exists h p host,
    strings.Split e ":" = [s; h; p]
    /\ SplitHostPort (h ++ ":" ++ p) = inr (host, p)
    /\ lacks ":" s = true /\ lacks ":" host = true /\ lacks ":" p = true
    /\ exists a b c d, ParseIP host = Some (IPv4 a b c d).
Proof.
  intros (host & port & hostPort & (h & p & Hsplit & -> & Hhp) & Hip).
  pose proof (Split_fields_lack ":" e) as Hl. rewrite Hsplit in Hl.
  inversion Hl as [|? ? Hs Hl1]; subst.
  inversion Hl1 as [|? ? Hh Hl2]; subst.
  inversion Hl2 as [|? ? Hp _]; subst.
  destruct (SplitHostPort_one_colon h p host port Hh Hp Hhp) as [-> Hhost].
  exists h, p, host. repeat split; auto.
  destruct (ParseIP host) as [ip|] eqn:E; [|congruence].
  pose proof (ParseIP_no_colon host ip Hhost E) as H4.
  destruct (parseIPv4_form _ _ H4) as (a & b & c & d & ->). eauto.
Qed.

(** X13.  [newOvnDBAuth] accepts IPv4 hosts only.  Every endpoint of an
    accepted connection string has exactly three colon-separated fields,
    and its host, written without a colon, is a dotted IPv4 address.  An
    endpoint with more colons, as an IPv6 host needs, makes
    [newOvnDBAuth] fail. *)
Theorem accepted_hosts_are_IPv4 (ctl ext url pk c ca : string) :
  url <> "" ->
  (forall a,
      newOvnDBAuth ctl ext url pk c ca = inr a ->
      Forall (fun e =>
                exists scheme h p host,
                  strings.Split e ":" = [scheme; h; p]
                  /\ SplitHostPort (h ++ ":" ++ p) = inr (host, p)
                  /\ lacks ":" host = true
                  /\ exists a b c d, ParseIP host = Some (IPv4 a b c d))
             (endpoints url))
  /\ (forall e,
         In e (endpoints url) ->
         List.length (strings.Split e ":") <> 3%nat ->
         exists err, newOvnDBAuth ctl ext url pk c ca = inl err).
Proof.
  intros Hurl.
  assert (Hacc : forall a, newOvnDBAuth ctl ext url pk c ca = inr a ->
                 Forall (fun e => exists s, endpointOf s e) (endpoints url)).
  { intros a H. apply newOvnDBAuth_accepted in H.
    destruct H as [(H & _) | (_ & H & _)]; [contradiction | exact H]. }
  split.
  - intros a H. specialize (Hacc a H).
    eapply Forall_impl; [|exact Hacc].
    intros e (s & He).
    destruct (accepted_endpoint s e He) as (h & p & host & H1 & H2 & _ & H3 & _ & H4).
    exists s, h, p, host. auto.
  - intros e Hin Hlen.
    destruct (newOvnDBAuth ctl ext url pk c ca) as [err|a] eqn:H; [eauto|].
    exfalso. specialize (Hacc a eq_refl).
    rewrite Forall_forall in Hacc. destruct (Hacc e Hin) as (s & He).
    destruct (accepted_endpoint s e He) as (h & p & host & H1 & _).
    rewrite H1 in Hlen. apply Hlen. reflexivity.
Qed.

Lemma accepted_hosts_are_IPv4_witness :
  exists err,
    newOvnDBAuth "ovn-nbctl" "ovn-nb" "tcp://[fd00::1]:6641" "" "" "" = inl err.
Proof.
  apply (proj2 (accepted_hosts_are_IPv4 "ovn-nbctl" "ovn-nb"
                  "tcp://[fd00::1]:6641" "" "" "" ltac:(discriminate))
           "tcp:[fd00::1]:6641").
  - vm_compute. left. reflexivity.
  - vm_compute. discriminate.
Defined.

(** ** [updateIP] on the addresses [newOvnDBAuth] stores *)

Lemma addressLoop_colons (url : string) (eps : list string) :
  forall scheme address scheme' address',
    addressLoop url eps scheme address = inr (scheme', address') ->
    count ":" address' = (count ":" address + 2 * List.length eps)%nat.
Proof.
  induction eps as [|e rest IH]; intros scheme address scheme' address' H.
  - cbn [addressLoop] in H. inversion H; subst. simpl. lia.
  - cbn [addressLoop] in H.
    pose proof (Split_fields_lack ":" e) as Hl.
    destruct (strings.Split e ":") as [|s0 [|s1 [|s2 [|? ?]]]]; try discriminate.
    inversion Hl as [|? ? Hs0 Hl1]; subst.
    inversion Hl1 as [|? ? Hs1 Hl2]; subst.
    inversion Hl2 as [|? ? Hs2 _]; subst.
    assert (Hsch : forall sch,
      (if isEmpty scheme then inr s0
       else if negb (String.eqb scheme s0)
            then inl (ErrInvalidProtocols url) else inr scheme) = inr sch ->
      sch = s0).
    { intros sch. destruct (isEmpty scheme); [congruence|].
      destruct (String.eqb scheme s0) eqn:E; cbn [negb]; [|discriminate].
      apply String.eqb_eq in E. congruence. }
    destruct (if isEmpty scheme then _ else _) as [?|sch]; [discriminate|].
    specialize (Hsch sch eq_refl). subst sch.
    destruct (SplitHostPort _) as [?|[host port]] eqn:Hhp; [discriminate|].
    destruct (SplitHostPort_one_colon s1 s2 host port Hs1 Hs2 Hhp) as [-> Hhost].
    destruct (ParseIP host); [|discriminate].
    apply IH in H. rewrite H. cbn [List.length].
    assert (Hone : count ":" (s0 ++ ":" ++ host ++ ":" ++ s2) = 2%nat).
    { rewrite !count_app, (count_lacks _ _ Hs0), (count_lacks _ _ Hhost),
        (count_lacks _ _ Hs2). reflexivity. }
    destruct (isEmpty address) eqn:Ea.
    + apply isEmpty_true in Ea. subst address. rewrite Hone. simpl. lia.
    + rewrite count_app. change ("," ++ s0 ++ ":" ++ host ++ ":" ++ s2)%string
        with (String "," (s0 ++ ":" ++ host ++ ":" ++ s2)).
      cbn [count]. change (Ascii.eqb "," ":") with false. cbv iota.
      rewrite Hone. lia.
Qed.

(** X14.  The address [newOvnDBAuth] stores has two colons for each
    endpoint of the connection string, so [updateIP] works on it only when
    there is one endpoint: with two or more, as in a string that names
    several database servers, [updateIP] returns its error and changes
    nothing. *)
Theorem updateIP_needs_single_endpoint (ctl ext url pk c ca : string)
    (a : OvnDBAuth) (newIP : string) :
  newOvnDBAuth ctl ext url pk c ca = inr a ->
  url <> "" ->
  List.length (strings.Split (OvnAddressForClient a) ":")
  = (2 * List.length (endpoints url) + 1)%nat
  /\ (List.length (endpoints url) = 1%nat -> snd (updateIP a newIP) = None)
  /\ (List.length (endpoints url) <> 1%nat ->
      updateIP a newIP = (a, Some (ErrUpdateIP (OvnAddressForClient a)))).
Proof.
  intros H Hurl.
  assert (Hlen : List.length (strings.Split (OvnAddressForClient a) ":")
                 = (2 * List.length (endpoints url) + 1)%nat).
  { unfold newOvnDBAuth in H. apply isEmpty_false in Hurl. rewrite Hurl in H.
    destruct (addressLoop _ _ _ _) as [?|[scheme address]] eqn:Hloop;
      [discriminate|].
    apply addressLoop_colons in Hloop. simpl count in Hloop.
    assert (Ha : OvnAddressForClient a = address).
    { repeat match type of H with
             | (if ?b then _ else _) = _ => destruct b
             end; try discriminate; inversion H; reflexivity. }
    rewrite Ha, Split_count, Hloop. unfold endpoints. lia. }
  assert (Hne : OvnAddressForClient a <> "").
  { intros E. rewrite E in Hlen. simpl in Hlen.
    pose proof (Split_nonempty (strings.Replace url "//" "") ",") as Hn.
    unfold endpoints in Hlen.
    destruct (strings.Split (strings.Replace url "//" "") ",");
      [congruence | simpl in Hlen; lia]. }
  split; [exact Hlen|]. split.
  - intros H1. rewrite H1 in Hlen.
    unfold updateIP. apply isEmpty_false in Hne. rewrite Hne. cbn [negb].
    destruct (strings.Split (OvnAddressForClient a) ":")
      as [|s0 [|s1 [|s2 [|? ?]]]]; simpl in Hlen; try lia. reflexivity.
  - intros H1.
    unfold updateIP. apply isEmpty_false in Hne. rewrite Hne. cbn [negb].
    destruct (strings.Split (OvnAddressForClient a) ":")
      as [|s0 [|s1 [|s2 [|? ?]]]]; simpl in Hlen; try reflexivity. lia.
Qed.

Lemma updateIP_needs_single_endpoint_witness :
  updateIP (mkOvnDBAuth "tcp:1.2.3.4:6641,tcp:1.2.3.5:6641" "" "" ""
              OvnDBSchemeTCP "ovn-nbctl" "ovn-nb") "5.6.7.8"
  = (mkOvnDBAuth "tcp:1.2.3.4:6641,tcp:1.2.3.5:6641" "" "" ""
       OvnDBSchemeTCP "ovn-nbctl" "ovn-nb",
     Some (ErrUpdateIP "tcp:1.2.3.4:6641,tcp:1.2.3.5:6641")).
Proof.
  apply (proj2 (proj2 (updateIP_needs_single_endpoint "ovn-nbctl" "ovn-nb"
                         "tcp://1.2.3.4:6641,tcp://1.2.3.5:6641" "" "" ""
                         _ "5.6.7.8" eq_refl ltac:(discriminate)))).
  vm_compute. discriminate.
Defined.

(** ** The auths a successful [InitConfigWithPath] leaves *)

(** X10.  After a successful [InitConfigWithPath] both [OvnNorth] and
    [OvnSouth] hold a [ClientAuth]: the northbound one for [ovn-nbctl] and
    the external id [ovn-nb], the southbound one for [ovn-sbctl] and the
    external id [ovn-remote].  [UpdateOvnNodeAuth] then never dereferences
    a nil pointer. *)
Theorem InitConfig_sets_both_auths (w : World) (flag : string) (cli : config_)
    (configFile : string) (defaults : option Defaults) (g g' : Globals)
    (ret : string) :
  InitConfigWithPath w flag cli configFile defaults g = (g', inr ret) ->
  (exists north south,
      ClientAuth (OvnNorth g') = Some north
      /\ ClientAuth (OvnSouth g') = Some south
      /\ ctlCmd north = "ovn-nbctl" /\ externalID north = "ovn-nb"
      /\ ctlCmd south = "ovn-sbctl" /\ externalID south = "ovn-remote")
  /\ (forall masterIP msg,
         snd (UpdateOvnNodeAuth masterIP g') <> Some (config.Panic msg)).
Proof.
  intros H. apply InitConfigWithPath_inr in H. cbv zeta in H.
  destruct H as (? & ? & ? & _ & _ & _ & _ & _ & _ & _ & Hn & Hs).
  apply buildOvnAuth_success in Hn. cbv zeta in Hn.
  destruct Hn as (north & Hnorth & Hn & _).
  apply buildOvnAuth_success in Hs. cbv zeta in Hs.
  destruct Hs as (south & Hsouth & Hs & _).
  apply newOvnDBAuth_commands in Hn, Hs.
  split.
  - exists north, south. repeat split; tauto.
  - intros masterIP msg. unfold UpdateOvnNodeAuth. rewrite Hnorth.
    destruct (updateIP north masterIP) as [north' [e|]]; [discriminate|].
    cbn [OvnSouth]. rewrite Hsouth.
    destruct (updateIP south masterIP) as [south' [e|]]; discriminate.
Qed.

Lemma InitConfig_sets_both_auths_witness :
  exists north south,
    ClientAuth (OvnNorth testResult) = Some north
    /\ ClientAuth (OvnSouth testResult) = Some south
    /\ ctlCmd north = "ovn-nbctl" /\ externalID north = "ovn-nb"
    /\ ctlCmd south = "ovn-sbctl" /\ externalID south = "ovn-remote".
Proof.
  apply (proj1 (InitConfig_sets_both_auths testHost "/tmp/ovn_k8s.conf"
                  testFlags "" None builtin testResult "/tmp/ovn_k8s.conf"
                  ltac:(vm_compute; reflexivity))).
Defined.

(** X11.  The southbound address is never read from the OVS database:
    when neither the file nor the flags give one, a successful
    [InitConfigWithPath] leaves a southbound auth of scheme [unix],
    whatever the database holds and whatever [Defaults] asks for. *)
Theorem southbound_address_not_discovered (w : World) (flag : string)
    (cli : config_) (configFile : string) (defaults : option Defaults)
    (g g' : Globals) (ret : string) :
  InitConfigWithPath w flag cli configFile defaults g = (g', inr ret) ->
  Address (cfg_OvnSouth cli) = "" ->
  Address (cfg_OvnSouth (fileConfig w flag configFile)) = "" ->
  ClientAuth (OvnSouth g')
  = Some (mkOvnDBAuth "" "" "" "" OvnDBSchemeUnix "ovn-sbctl" "ovn-remote").
Proof.
  intros H Hc Hf. apply InitConfigWithPath_inr in H. cbv zeta in H.
  destruct H as (? & ? & ? & _ & _ & _ & _ & _ & _ & _ & _ & Hs).
  apply buildOvnAuth_success in Hs. cbv zeta in Hs.
  destruct Hs as (south & Hsouth & Hs & _).
  rewrite Hsouth. f_equal.
  unfold chosenAddress in Hs. rewrite Hc, Hf in Hs.
  cbn [precedence discovered isEmpty negb] in Hs.
  unfold newOvnDBAuth in Hs. cbn [isEmpty] in Hs.
  destruct (_ || _); [discriminate|]. inversion Hs. reflexivity.
Qed.

Lemma southbound_address_not_discovered_witness :
  exists g' ret,
    InitConfig discoveringHost "" zeroConfig (Some allDefaults) builtin
    = (g', inr ret)
    /\ getOVSExternalID discoveringHost "ovn-remote" = "tcp:1.2.3.4:6642"
    /\ ClientAuth (OvnSouth g')
       = Some (mkOvnDBAuth "" "" "" "" OvnDBSchemeUnix "ovn-sbctl" "ovn-remote").
Proof.
  eexists _, _. split; [vm_compute; reflexivity|]. split; [reflexivity|].
  apply (southbound_address_not_discovered discoveringHost "" zeroConfig ""
           (Some allDefaults) builtin _ "");
    [vm_compute; reflexivity | reflexivity | reflexivity].
Defined.

(** ** [cidrsOverlap] and the accepted lists *)

Lemma cidrsOverlap_cases (cidr : IPNet) (l : list CIDRNetworkEntry) :
  wellFormedNet cidr ->
  Forall (fun en => wellFormedNet (CIDR en)) l ->
  (cidrsOverlap cidr l = Some true
   /\ exists en, In en l /\ overlap cidr (CIDR en))
  \/ (cidrsOverlap cidr l = Some false
      /\ forall en, In en l -> ~ overlap cidr (CIDR en)).
Proof.
  intros Wc Wl. induction Wl as [|x l Wx Wl IH].
  - right. split; [reflexivity|]. intros en [].
  - cbn [cidrsOverlap].
    destruct (Contains_total cidr (IPNet_IP (CIDR x)) Wc) as [r1 C1].
    destruct (Contains_total (CIDR x) (IPNet_IP cidr) Wx) as [r2 C2].
    rewrite C1. destruct r1.
    + left. split; [reflexivity|]. exists x. split; [left; reflexivity|].
      eapply overlap_sound; eassumption.
    + rewrite C2. destruct r2.
      * left. split; [reflexivity|]. exists x. split; [left; reflexivity|].
        apply overlap_sym. eapply overlap_sound; eassumption.
      * destruct IH as [(H & en & Hin & Hov) | (H & Hno)].
        -- left. split; [exact H|]. exists en. split; [right; exact Hin | exact Hov].
        -- right. split; [exact H|]. intros en [<- | Hin]; [|auto].
           intros Hov.
           destruct (overlap_found _ _ Wc Wx Hov); congruence.
Qed.

(** X15.  On networks as [ParseCIDR] builds them, [cidrsOverlap] is exact
    and never panics: it returns true exactly when some address lies both
    in [cidr] and in the network of an entry of the list. *)
Theorem cidrsOverlap_exact (cidr : IPNet) (l : list CIDRNetworkEntry) :
  wellFormedNet cidr ->
  Forall (fun en => wellFormedNet (CIDR en)) l ->
  (cidrsOverlap cidr l = Some true <->
   exists en, In en l /\ overlap cidr (CIDR en))
  /\ (cidrsOverlap cidr l = Some false <->
      forall en, In en l -> ~ overlap cidr (CIDR en)).
Proof.
  intros Wc Wl.
  destruct (cidrsOverlap_cases cidr l Wc Wl)
    as [(H & en & Hin & Hov) | (H & Hno)]; rewrite H.
  - split; split; try discriminate; eauto.
    intros Hall. exfalso. exact (Hall en Hin Hov).
  - split; split; try discriminate; eauto.
    intros (en & Hin & Hov). exfalso. exact (Hno en Hin Hov).
Qed.

Lemma cidrsOverlap_exact_witness :
  cidrsOverlap (mkIPNet [10; 0; 1; 0] [255; 255; 255; 0])
    [mkCIDRNetworkEntry (mkIPNet [11; 0; 0; 0] [255; 0; 0; 0]) 24;
     mkCIDRNetworkEntry (mkIPNet [10; 0; 0; 0] [255; 255; 0; 0]) 24]
  = Some true.
Proof.
  refine (proj2 (proj1 (cidrsOverlap_exact _ _ _ _)) _).
  - apply (ParseCIDR_wellFormed "10.0.1.0/24" (IPv4 10 0 1 0)). reflexivity.
  - repeat constructor; cbn [CIDR].
    + apply (ParseCIDR_wellFormed "11.0.0.0/8" (IPv4 11 0 0 0)). reflexivity.
    + apply (ParseCIDR_wellFormed "10.0.0.0/16" (IPv4 10 0 0 0)). reflexivity.
  - exists (mkCIDRNetworkEntry (mkIPNet [10; 0; 0; 0] [255; 255; 0; 0]) 24).
    split; [right; left; reflexivity|].
    exists [10; 0; 1; 7]. split; vm_compute; reflexivity.
Defined.

Lemma entriesLoop_accepts (entries : list string) :
  forall acc parsed,
    Forall (fun en => wellFormedNet (CIDR en)) acc ->
    Forall2 (fun e en => parseEntry e = inr en) entries parsed ->
    (forall p1 en p2 x,
        parsed = p1 ++ en :: p2 -> In x (acc ++ p1) ->
        ~ overlap (CIDR en) (CIDR x)) ->
    entriesLoop entries acc = inr (acc ++ parsed).
Proof.
  induction entries as [|e entries IH]; intros acc parsed Wacc Hall Hno.
  - inversion Hall; subst. rewrite app_nil_r. reflexivity.
  - inversion Hall as [|? en ? parsed' He Hall']; subst.
    cbn [entriesLoop]. rewrite He.
    assert (Wen : wellFormedNet (CIDR en))
      by (eapply parseEntry_wellFormed; eassumption).
    assert (Hfalse : cidrsOverlap (CIDR en) acc = Some false).
    { apply (proj2 (cidrsOverlap_exact (CIDR en) acc Wen Wacc)).
      intros x Hin. apply (Hno [] en parsed' x eq_refl).
      rewrite app_nil_r. exact Hin. }
    rewrite Hfalse.
    rewrite (IH (acc ++ [en]) parsed').
    + rewrite <- app_assoc. reflexivity.
    + apply Forall_app. split; [exact Wacc | constructor; [exact Wen | constructor]].
    + exact Hall'.
    + intros p1 en' p2 x Hp Hin. apply (Hno (en :: p1) en' p2 x).
      * rewrite Hp. reflexivity.
      * rewrite <- app_assoc in Hin. exact Hin.
Qed.

(** X16.  [parseClusterSubnetEntries] returns a list exactly when every
    comma-separated entry parses and no two of the parsed networks overlap;
    the list then holds the parsed entries in the order written. *)
Theorem parseClusterSubnetEntries_accepts_iff (s : string)
    (l : list CIDRNetworkEntry) :
  parseClusterSubnetEntries s = inr l <->
  Forall2 (fun e en => parseEntry e = inr en) (strings.Split s ",") l
  /\ (forall i j a b,
         (i < j)%nat -> nth_error l i = Some a -> nth_error l j = Some b ->
         ~ overlap (CIDR a) (CIDR b)).
Proof.
  split; [apply parsed_entries_disjoint|].
  intros [Hall Hdis]. unfold parseClusterSubnetEntries.
  rewrite (entriesLoop_accepts (strings.Split s ",") [] l (Forall_nil _) Hall);
    [reflexivity|].
  intros p1 en p2 x -> Hin. cbn [app] in Hin.
  destruct (In_nth_error _ _ Hin) as [i Hi].
  assert (Hlt : (i < List.length p1)%nat)
    by (apply nth_error_Some; congruence).
  intros Hov. apply overlap_sym in Hov.
  apply (Hdis i (List.length p1) x en Hlt); [| |exact Hov].
  - rewrite nth_error_app1 by exact Hlt. exact Hi.
  - rewrite nth_error_app2 by lia. rewrite Nat.sub_diag. reflexivity.
Qed.

(** ** The order of the cluster subnets *)

Lemma ForallOrdPairs_of_indices {A} (R : A -> A -> Prop) (l : list A) :
  (forall i j a b,
      (i < j)%nat -> nth_error l i = Some a -> nth_error l j = Some b -> R a b) ->
  ForallOrdPairs R l.
Proof.
  induction l as [|x l IH]; intros H; constructor.
  - apply Forall_forall. intros y Hin.
    destruct (In_nth_error _ _ Hin) as [j Hj].
    apply (H 0%nat (S j) x y); [lia | reflexivity | exact Hj].
  - apply IH. intros i j a b Hij Ha Hb.
    apply (H (S i) (S j) a b); [lia | exact Ha | exact Hb].
Qed.

Lemma ForallOrdPairs_indices {A} (R : A -> A -> Prop) (l : list A) :
  ForallOrdPairs R l ->
  forall i j a b,
    (i < j)%nat -> nth_error l i = Some a -> nth_error l j = Some b -> R a b.
Proof.
  induction 1 as [|x l Hx _ IH]; intros i j a b Hij Ha Hb.
  - destruct i; discriminate.
  - destruct j as [|j]; [lia|]. simpl in Hb. destruct i as [|i]; simpl in Ha.
    + inversion Ha; subst. rewrite Forall_forall in Hx. apply Hx.
      eapply nth_error_In; eassumption.
    + apply (IH i j); [lia | assumption | assumption].
Qed.

Lemma ForallOrdPairs_Permutation {A} (R : A -> A -> Prop) (l l' : list A) :
  (forall a b, R a b -> R b a) ->
  Permutation l l' -> ForallOrdPairs R l -> ForallOrdPairs R l'.
Proof.
  intros Hsym Hp. induction Hp as [|x l l' Hp IH|x y l|l l' l'' _ IH1 _ IH2];
    intros H.
  - exact H.
  - inversion H as [|? ? Hx Hl]; subst. constructor; [|auto].
    eapply Permutation_Forall; eassumption.
  - inversion H as [|? ? Hy Hl]; subst.
    inversion Hl as [|? ? Hx Hl']; subst.
    inversion Hy as [|? ? Hyx Hyl]; subst.
    constructor; [constructor; [apply Hsym; exact Hyx | exact Hx]|].
    constructor; assumption.
  - auto.
Qed.

Lemma ForallOrdPairs_before {A} (R : A -> A -> Prop) (p1 : list A) :
  forall en p2 x,
    ForallOrdPairs R (p1 ++ en :: p2) -> In x p1 -> R x en.
Proof.
  induction p1 as [|y p1 IH]; intros en p2 x H Hin; [contradiction|].
  inversion H as [|? ? Hy Hl]; subst.
  destruct Hin as [<- | Hin].
  - rewrite Forall_forall in Hy. apply Hy. apply in_or_app. right. left.
    reflexivity.
  - eapply IH; eassumption.
Qed.

(** X17.  Whether [parseClusterSubnetEntries] accepts a list of cluster
    subnets does not depend on the order they are written in: the same
    entries in another order are accepted too, and give the same parsed
    entries in that order. *)
Theorem cluster_subnet_order_irrelevant (s1 s2 : string)
    (l1 : list CIDRNetworkEntry) :
  Permutation (strings.Split s1 ",") (strings.Split s2 ",") ->
  parseClusterSubnetEntries s1 = inr l1 ->
  exists l2,
    parseClusterSubnetEntries s2 = inr l2
    /\ Permutation l1 l2
    /\ Forall2 (fun e en => parseEntry e = inr en) (strings.Split s2 ",") l2.
Proof.
  intros Hperm H.
  destruct (parsed_entries_disjoint s1 l1 H) as [Hall Hdis].
  destruct (Permutation_Forall2 Hperm Hall) as (l2 & Hl & Hall2).
  exists l2. split; [|split; assumption].
  pose (R := fun a b : CIDRNetworkEntry => ~ overlap (CIDR a) (CIDR b)).
  assert (Hsym : forall a b, R a b -> R b a).
  { intros a b Hab Hba. apply Hab. apply overlap_sym. exact Hba. }
  assert (H2 : ForallOrdPairs R l2).
  { apply (ForallOrdPairs_Permutation R l1 l2 Hsym Hl).
    apply ForallOrdPairs_of_indices. exact Hdis. }
  unfold parseClusterSubnetEntries.
  rewrite (entriesLoop_accepts (strings.Split s2 ",") [] l2 (Forall_nil _) Hall2);
    [reflexivity|].
  intros p1 en p2 x -> Hin. cbn [app] in Hin.
  apply Hsym. exact (ForallOrdPairs_before R p1 en p2 x H2 Hin).
Qed.

Lemma cluster_subnet_order_irrelevant_witness :
  exists l2,
    parseClusterSubnetEntries "11.0.0.0/8/20,10.0.0.0/16" = inr l2
    /\ Permutation
         [mkCIDRNetworkEntry (mkIPNet [10; 0; 0; 0] [255; 255; 0; 0]) 24;
          mkCIDRNetworkEntry (mkIPNet [11; 0; 0; 0] [255; 0; 0; 0]) 20] l2
    /\ Forall2 (fun e en => parseEntry e = inr en)
         (strings.Split "11.0.0.0/8/20,10.0.0.0/16" ",") l2.
Proof.
  apply (cluster_subnet_order_irrelevant "10.0.0.0/16,11.0.0.0/8/20"
           "11.0.0.0/8/20,10.0.0.0/16").
  - apply perm_swap.
  - vm_compute. reflexivity.
Defined.

(** ** Commands run on the host *)

Section HostCommands.

Context {St : Type} (h : dbauth.Host St).

Import dbauth.

(** [runOVSVsctl] in one step: no command without the program, else one
    logged command. *)
Lemma runOVSVsctl_eq (args : list string) (r : Run St) :
  runOVSVsctl h args r =
  match LookPath h (state r) "ovs-vsctl" with
  | inl err => (inl err, r)
  | inr path =>
      (match snd (CombinedOutput h (state r) path ("--timeout=15" :: args)) with
       | inl err => inl err
       | inr o =>
           inr (strings.Trim (strings.TrimSpace (strings.TrimSpace o)) dquote)
       end,
       mkRun (fst (CombinedOutput h (state r) path ("--timeout=15" :: args)))
             (log r ++ [(path, "--timeout=15" :: args)]))
  end.
Proof.
  unfold runOVSVsctl, bind, rawExec, ret, ovsVsctlCommand.
  destruct (LookPath h (state r) "ovs-vsctl") as [err|path]; [reflexivity|].
  destruct (CombinedOutput h (state r) path ("--timeout=15" :: args))
    as [st [err|o]]; reflexivity.
Qed.

Lemma setOVSExternalID_eq (key value : string) (r : Run St) :
  setOVSExternalID h key value r =
  match LookPath h (state r) "ovs-vsctl" with
  | inl err => (Some (ErrSetExternalID key value err ""), r)
  | inr path =>
      (match snd (CombinedOutput h (state r) path (setExternalIDArgs key value))
       with
       | inl err => Some (ErrSetExternalID key value err "")
       | inr _ => None
       end,
       mkRun (fst (CombinedOutput h (state r) path (setExternalIDArgs key value)))
             (log r ++ [(path, setExternalIDArgs key value)]))
  end.
Proof.
  unfold setOVSExternalID, bind. rewrite runOVSVsctl_eq.
  unfold setExternalIDArgs, ret.
  destruct (LookPath h (state r) "ovs-vsctl") as [err|path]; [reflexivity|].
  destruct (snd (CombinedOutput h (state r) path _)); reflexivity.
Qed.

(** X18.  [SetDBAuth] does nothing for a [unix] auth.  For an auth that is
    neither [unix] nor [ssl] (a [tcp] one) it looks at no file and runs
    one command, if [ovs-vsctl] is found: it sets the external id to the
    address between double quotes; its error is that command's. *)
Theorem SetDBAuth_without_ssl (a : OvnDBAuth) (r : Run St) :
  (Scheme a = OvnDBSchemeUnix -> SetDBAuth h a r = (None, r))
  /\ (Scheme a <> OvnDBSchemeUnix -> Scheme a <> OvnDBSchemeSSL ->
      let value := quoted (OvnAddressForClient a) in
      let args := setExternalIDArgs (externalID a) value in
      match LookPath h (state r) "ovs-vsctl" with
      | inl err =>
          SetDBAuth h a r
          = (Some (ErrSetExternalID (externalID a) value err ""), r)
      | inr path =>
          SetDBAuth h a r
          = (match snd (CombinedOutput h (state r) path args) with
             | inl err => Some (ErrSetExternalID (externalID a) value err "")
             | inr _ => None
             end,
             mkRun (fst (CombinedOutput h (state r) path args))
                   (log r ++ [(path, args)]))
      end).
Proof.
  split.
  - intros Hs. unfold SetDBAuth. rewrite Hs. reflexivity.
  - intros Hu Hssl value args. unfold SetDBAuth.
    apply String.eqb_neq in Hu, Hssl. rewrite Hu, Hssl.
    unfold andThen, bind, ret. fold (quoted (GetURL a)).
    rewrite setOVSExternalID_eq. unfold GetURL. fold value. fold args.
    destruct (LookPath h (state r) "ovs-vsctl"); reflexivity.
Qed.

(** X19.  For an [ssl] auth [SetDBAuth] first looks for the private key
    and then for the certificate; when one is missing it returns the
    error for it before any command has run. *)
Theorem SetDBAuth_ssl_checks_files_first (a : OvnDBAuth) (r : Run St) :
  Scheme a = OvnDBSchemeSSL ->
  (Stat h (state r) (PrivKey a) = StatNotExist ->
   SetDBAuth h a r = (Some (ErrPrivKeyNotFound (PrivKey a)), r))
  /\ (Stat h (state r) (PrivKey a) <> StatNotExist ->
      Stat h (state r) (Cert a) = StatNotExist ->
      SetDBAuth h a r = (Some (ErrCertNotFound (Cert a)), r)).
Proof.
  intros Hs. unfold SetDBAuth, andThen, bind, pathExists, ret.
  rewrite Hs. cbn [String.eqb Ascii.eqb Bool.eqb OvnDBSchemeSSL OvnDBSchemeUnix].
  split.
  - intros Hk. rewrite Hk. reflexivity.
  - intros Hk Hc.
    destruct (Stat h (state r) (PrivKey a)); try congruence;
      cbn [negb]; rewrite Hc; reflexivity.
Qed.

(** [ensureCACert] in one step. *)
Lemma ensureCACert_eq (a : OvnDBAuth) (r : Run St) :
  ensureCACert h a r =
  match Stat h (state r) (CACert_ a) with
  | StatNotExist =>
      match LookPath h (state r) "ovn-nbctl" with
      | inl _ => (None, r)
      | inr nb =>
          (None,
           mkRun (fst (CombinedOutput h (state r) nb (bootstrapArgs a)))
                 (log r ++ [(nb, bootstrapArgs a)]))
      end
  | _ => (None, r)
  end.
Proof.
  unfold ensureCACert, bind, pathExists, ret, rawExec, GetURL.
  destruct (Stat h (state r) (CACert_ a)); try reflexivity.
  destruct (LookPath h (state r) "ovn-nbctl") as [err|nb]; [reflexivity|].
  unfold bootstrapArgs.
  destruct (CombinedOutput h (state r) nb _) as [st [err|o]]; reflexivity.
Qed.

(** X20.  [ensureCACert] never fails.  It runs nothing when the CA
    certificate file is there; when the file is missing it runs one
    command to fetch it, always [ovn-nbctl] whatever the auth's own
    command is, and returns no error whether or not that command is found
    or succeeds. *)
Theorem ensureCACert_never_fails (a : OvnDBAuth) (r : Run St) :
  fst (ensureCACert h a r) = None
  /\ (Stat h (state r) (CACert_ a) <> StatNotExist ->
      ensureCACert h a r = (None, r))
  /\ (Stat h (state r) (CACert_ a) = StatNotExist ->
      (forall err, LookPath h (state r) "ovn-nbctl" = inl err ->
                   ensureCACert h a r = (None, r))
      /\ (forall nb, LookPath h (state r) "ovn-nbctl" = inr nb ->
                     ensureCACert h a r
                     = (None,
                        mkRun (fst (CombinedOutput h (state r) nb
                                      (bootstrapArgs a)))
                              (log r ++ [(nb, bootstrapArgs a)])))).
Proof.
  rewrite ensureCACert_eq. split; [|split].
  - destruct (Stat h (state r) (CACert_ a)); try reflexivity.
    destruct (LookPath h (state r) "ovn-nbctl"); reflexivity.
  - intros Hs. destruct (Stat h (state r) (CACert_ a)); congruence.
  - intros Hs. rewrite Hs. split.
    + intros err Hl. rewrite Hl. reflexivity.
    + intros nb Hl. rewrite Hl. reflexivity.
Qed.

End HostCommands.

(** ** White space and quotes around a command's output *)

Lemma find_none_of {A} (f : A -> bool) (l : list A) :
  Forall (fun x => f x = false) l -> find f l = None.
Proof.
  induction 1 as [|x l Hx _ IH]; simpl; [reflexivity|]. rewrite Hx. exact IH.
Qed.

(** No white space begins or ends with a double quote. *)
Lemma whiteSpace_no_quote :
  Forall (fun r => r <> "" /\ headIs r dbauth.dquote = false
                   /\ lastIs r dbauth.dquote = false) strings.whiteSpace.
Proof. repeat constructor; discriminate. Qed.

Lemma prefix_head (r x : string) (c : ascii) :
  r <> "" -> headIs r c = false -> String.prefix r (String c x) = false.
Proof.
  destruct r as [|d r]; [congruence|]. simpl. intros _ Hd.
  destruct (ascii_dec d c) as [->|Hne]; [|reflexivity].
  rewrite Ascii.eqb_refl in Hd. discriminate.
Qed.

Lemma TrimLeftSpace_quote (fuel : nat) (x : string) :
  strings.TrimLeftSpace fuel (String dbauth.dquote x) = String dbauth.dquote x.
Proof.
  destruct fuel as [|fuel]; [reflexivity|]. cbn [strings.TrimLeftSpace].
  rewrite find_none_of; [reflexivity|].
  eapply Forall_impl; [|exact whiteSpace_no_quote].
  intros r (Hne & Hh & _). unfold strings.HasPrefix.
  apply prefix_head; assumption.
Qed.

Lemma lastIs_drop (c : ascii) (n : nat) (s : string) :
  strings.drop n s <> "" -> lastIs (strings.drop n s) c = lastIs s c.
Proof.
  revert s. induction n as [|n IH]; intros [|d s] H; simpl in *;
    try reflexivity; try congruence.
  rewrite (IH s H). destruct s; [destruct n; simpl in H; congruence | reflexivity].
Qed.

Lemma HasSuffix_last (s r : string) (c : ascii) :
  strings.HasSuffix s r = true -> r <> "" -> lastIs s c = lastIs r c.
Proof.
  unfold strings.HasSuffix. intros H Hne.
  apply andb_true_iff in H. destruct H as [_ H]. apply String.eqb_eq in H.
  rewrite <- H. symmetry. apply lastIs_drop. rewrite H. exact Hne.
Qed.

Lemma TrimRightSpace_quote (fuel : nat) (s : string) :
  lastIs s dbauth.dquote = true -> strings.TrimRightSpace fuel s = s.
Proof.
  intros Hl. destruct fuel as [|fuel]; [reflexivity|].
  cbn [strings.TrimRightSpace].
  rewrite find_none_of; [reflexivity|].
  eapply Forall_impl; [|exact whiteSpace_no_quote].
  intros r (Hne & _ & Hr).
  destruct (strings.HasSuffix s r) eqn:E; [|reflexivity].
  rewrite (HasSuffix_last s r dbauth.dquote E Hne) in Hl. congruence.
Qed.

Lemma lastIs_app_byte (s : string) (c d : ascii) :
  lastIs (s ++ String c "") d = Ascii.eqb c d.
Proof.
  induction s as [|e s IH]; [reflexivity|].
  cbn [String.append lastIs]. rewrite IH.
  destruct (s ++ String c "")%string eqn:E; [|reflexivity].
  destruct s; discriminate.
Qed.

Lemma drop_length_app (s x : string) :
  strings.drop (String.length (s ++ x) - String.length x) (s ++ x) = x.
Proof.
  rewrite append_length, Nat.add_sub. apply drop_app.
Qed.

Lemma take_length_app (s x : string) :
  strings.take (String.length (s ++ x) - String.length x) (s ++ x) = s.
Proof.
  rewrite append_length, Nat.add_sub. apply take_app.
Qed.

Lemma HasSuffix_app_same_length (s x t : string) :
  String.length t = String.length x ->
  strings.HasSuffix (s ++ x) t = String.eqb x t.
Proof.
  intros Ht. unfold strings.HasSuffix. rewrite Ht, drop_length_app.
  rewrite append_length.
  replace (String.length x <=? String.length s + String.length x)%nat
    with true by (symmetry; apply Nat.leb_le; lia).
  reflexivity.
Qed.

Lemma TrimSpace_after_quote (x : string) :
  strings.TrimSpace (String dbauth.dquote x)
  = strings.TrimRightSpace (String.length (String dbauth.dquote x))
      (String dbauth.dquote x).
Proof.
  unfold strings.TrimSpace. cbv zeta. rewrite TrimLeftSpace_quote. reflexivity.
Qed.

(** A line feed after a closing quote is trimmed, and nothing else. *)
Lemma TrimSpace_quoted_line (v : string) :
  strings.TrimSpace (quoted v ++ String (ascii_of_nat 10) "") = quoted v.
Proof.
  unfold quoted. cbn [String.append]. rewrite TrimSpace_after_quote.
  set (s := String dbauth.dquote (v ++ String dbauth.dquote "")).
  change (String dbauth.dquote
            ((v ++ String dbauth.dquote "") ++ String (ascii_of_nat 10) ""))
    with (s ++ String (ascii_of_nat 10) "")%string.
  assert (Hlen : String.length (s ++ String (ascii_of_nat 10) "")
                 = S (String.length s))
    by (rewrite append_length; simpl; lia).
  rewrite Hlen. cbn [strings.TrimRightSpace].
  assert (Hfind : find (strings.HasSuffix (s ++ String (ascii_of_nat 10) ""))
                       strings.whiteSpace
                  = Some (String (ascii_of_nat 10) "")).
  { assert (Hsuf : forall t, String.length t = 1%nat ->
               strings.HasSuffix (s ++ String (ascii_of_nat 10) "") t
               = String.eqb (String (ascii_of_nat 10) "") t).
    { intros t Ht. apply HasSuffix_app_same_length. exact Ht. }
    unfold strings.whiteSpace. cbn [find].
    rewrite !Hsuf by reflexivity. reflexivity. }
  rewrite Hfind.
  change (String.length (String (ascii_of_nat 10) ""))
    with (String.length (String (ascii_of_nat 10) "")).
  rewrite take_length_app.
  apply TrimRightSpace_quote. subst s.
  change (String dbauth.dquote (v ++ String dbauth.dquote ""))
    with ((String dbauth.dquote v) ++ String dbauth.dquote "")%string.
  rewrite lastIs_app_byte. reflexivity.
Qed.

Lemma TrimSpace_quoted (v : string) :
  strings.TrimSpace (quoted v) = quoted v.
Proof.
  unfold quoted. rewrite TrimSpace_after_quote.
  apply TrimRightSpace_quote.
  change (String dbauth.dquote (v ++ String dbauth.dquote ""))
    with ((String dbauth.dquote v) ++ String dbauth.dquote "")%string.
  rewrite lastIs_app_byte. reflexivity.
Qed.

Lemma TrimRightByte_app (x : string) (c : ascii) :
  strings.TrimRightByte (x ++ String c "") c = strings.TrimRightByte x c.
Proof.
  induction x as [|d x IH]; cbn [String.append strings.TrimRightByte].
  - rewrite Ascii.eqb_refl. reflexivity.
  - rewrite IH. reflexivity.
Qed.

Lemma TrimRightByte_id (x : string) (c : ascii) :
  x <> "" -> lastIs x c = false -> strings.TrimRightByte x c = x.
Proof.
  induction x as [|d x IH]; intros Hne Hl; [congruence|].
  cbn [strings.TrimRightByte]. destruct x as [|e x].
  - simpl in *. rewrite Hl. reflexivity.
  - rewrite IH; [reflexivity | discriminate | exact Hl].
Qed.

(** [Trim] takes the quotes off a quoted value that has none of its own
    at either end. *)
Lemma Trim_quoted (v : string) :
  headIs v dbauth.dquote = false -> lastIs v dbauth.dquote = false ->
  strings.Trim (quoted v) dbauth.dquote = v.
Proof.
  intros Hh Hl. unfold strings.Trim, quoted.
  change (String dbauth.dquote (v ++ String dbauth.dquote ""))
    with ((String dbauth.dquote v) ++ String dbauth.dquote "")%string.
  rewrite TrimRightByte_app.
  destruct v as [|d v]; [reflexivity|].
  rewrite TrimRightByte_id; [| discriminate | exact Hl].
  cbn [strings.TrimLeftByte]. rewrite Ascii.eqb_refl.
  simpl in Hh. rewrite Hh. reflexivity.
Qed.

Section ExternalIDs.

Context {St : Type} (h : dbauth.Host St).

Import dbauth.

(** X22.  [getOVSExternalID] returns the empty string when [ovs-vsctl]
    is not found or fails.  When the command prints a value between double
    quotes and a line feed, it returns the value without them, if the
    value has no quote of its own at either end: what [SetDBAuth] writes
    as an external id reads back as the address. *)
Theorem getOVSExternalID_reads_quoted_value (name : string) (r : Run St) :
  let args := ["--timeout=15"; "--if-exists"; "get"; "Open_vSwitch"; ".";
               ("external_ids:" ++ name)%string] in
  (forall err,
      LookPath h (state r) "ovs-vsctl" = inl err ->
      getOVSExternalID h name r = ("", r))
  /\ (forall path,
         LookPath h (state r) "ovs-vsctl" = inr path ->
         log (snd (getOVSExternalID h name r)) = log r ++ [(path, args)]
         /\ (forall err,
                snd (CombinedOutput h (state r) path args) = inl err ->
                fst (getOVSExternalID h name r) = "")
         /\ (forall v,
                snd (CombinedOutput h (state r) path args)
                = inr (quoted v ++ String (ascii_of_nat 10) "")%string ->
                headIs v dquote = false -> lastIs v dquote = false ->
                fst (getOVSExternalID h name r) = v)).
Proof.
  intros args. unfold getOVSExternalID, bind, ret.
  rewrite runOVSVsctl_eq. fold args. split.
  - intros err Hl. rewrite Hl. reflexivity.
  - intros path Hl. rewrite Hl. split; [|split].
    + destruct (snd (CombinedOutput h (state r) path args)); reflexivity.
    + intros err He. rewrite He. reflexivity.
    + intros v Hv Hh Hlast. rewrite Hv. cbn [fst].
      rewrite TrimSpace_quoted_line, TrimSpace_quoted.
      apply Trim_quoted; assumption.
Qed.

End ExternalIDs.

(** ** The host commands on concrete hosts *)

Lemma SetDBAuth_without_ssl_witness :
  dbauth.SetDBAuth quietHost unixSouth start = (None, start)
  /\ dbauth.SetDBAuth quietHost tcpNorth start
     = (None,
        dbauth.mkRun tt
          [("/usr/bin/ovs-vsctl",
            setExternalIDArgs "ovn-nb" (quoted "tcp:1.2.3.4:6641"))]).
Proof.
  split.
  - apply (proj1 (SetDBAuth_without_ssl quietHost unixSouth start)).
    reflexivity.
  - apply (proj2 (SetDBAuth_without_ssl quietHost tcpNorth start));
      discriminate.
Defined.

Lemma SetDBAuth_ssl_checks_files_first_witness :
  dbauth.SetDBAuth emptyHost sslSouth start
  = (Some (dbauth.ErrPrivKeyNotFound "/key"), start).
Proof.
  apply (proj1 (SetDBAuth_ssl_checks_files_first emptyHost sslSouth start
                  eq_refl)).
  reflexivity.
Defined.


Lemma ensureCACert_never_fails_witness :
  dbauth.ensureCACert noCAHost sslSouth start
  = (None,
     dbauth.mkRun tt [("/usr/bin/ovn-nbctl", bootstrapArgs sslSouth)])
  /\ dbauth.ensureCACert quietHost sslSouth start = (None, start).
Proof.
  split.
  - apply (proj2 (proj2 (proj2 (ensureCACert_never_fails noCAHost sslSouth
                                  start)) eq_refl)).
    reflexivity.
  - apply (proj1 (proj2 (ensureCACert_never_fails quietHost sslSouth start))).
    discriminate.
Defined.

Lemma getOVSExternalID_reads_quoted_value_witness :
  fst (dbauth.getOVSExternalID printingHost "ovn-nb" start) = "tcp:1.2.3.4:6641".
Proof.
  apply (proj2 (proj2 (proj2 (getOVSExternalID_reads_quoted_value printingHost
                                "ovn-nb" start)
                         "/usr/bin/ovs-vsctl" eq_refl))
           "tcp:1.2.3.4:6641");
    reflexivity.
Defined.

(** ** The commands of [configureManagementPort] *)

Section ManagementPortCommands.

Context {St : Type} (RunIP : St -> list string -> St * option mgmtport.CmdError).

Import mgmtport.







End ManagementPortCommands.


(** ** The pid file *)

Section PidFileLaws.

Import pidfile.

Context {St : Type} (os : OS St).

(** A file that was written can be read back. *)
Hypothesis written_is_read : forall st path data st',
  WriteFile os st path data = (st', true) ->
  ReadFile os st' path = inr data /\ Stat os st' path = dbauth.StatOK.

Lemma setupPIDFile_returned_nil (pidfile : string) (st st1 : St) :
  setupPIDFile os pidfile st = (Returned None, st1) ->
  st1 = fst (WriteFile os st pidfile (itoa (Getpid os st))).
Proof.
  unfold setupPIDFile, writePid.
  destruct (Stat os st pidfile);
    try (intros [= <-]; reflexivity);
    (destruct (ReadFile os st pidfile) as [err|pid]; [discriminate|];
     destruct (Stat os st ("/proc/" ++ pid ++ "/cmdline"));
     try discriminate; intros [= <-]; reflexivity).
Qed.

Lemma setupPIDFile_wrote (pidfile : string) (st st1 : St) :
  setupPIDFile os pidfile st = (Returned None, st1) ->
  snd (WriteFile os st pidfile (itoa (Getpid os st))) = true ->
  ReadFile os st1 pidfile = inr (itoa (Getpid os st))
  /\ Stat os st1 pidfile = dbauth.StatOK.
Proof.
  intros H Hw. apply setupPIDFile_returned_nil in H.
  apply (written_is_read st). rewrite H.
  destruct (WriteFile os st pidfile (itoa (Getpid os st))) as [s b].
  cbn in *. congruence.
Qed.

(** X24.  The pid file keeps a second instance out for as long as the
    first one runs: once [setupPIDFile] has returned nil and its write
    went through, the same call by any process (the same one included)
    exits with status 1 and leaves the file alone, unless
    [/proc/<first pid>/cmdline] does not exist, in which case it takes
    the file over with its own pid and returns nil. *)
Theorem setupPIDFile_excludes_second_instance (pidfile : string)
    (st st1 : St) (pid2 : Z) :
  setupPIDFile os pidfile st = (Returned None, st1) ->
  snd (WriteFile os st pidfile (itoa (Getpid os st))) = true ->
  setupPIDFile (asProcess os pid2) pidfile st1 =
  match Stat os st1 (procCmdline (Getpid os st)) with
  | dbauth.StatNotExist =>
      (Returned None, fst (WriteFile os st1 pidfile (itoa pid2)))
  | _ => (Exited 1, st1)
  end.
Proof.
  intros H Hw. destruct (setupPIDFile_wrote _ _ _ H Hw) as [Hr Hs].
  unfold setupPIDFile, writePid, asProcess, procCmdline. cbn [Stat ReadFile WriteFile Getpid].
  rewrite Hs, Hr. reflexivity.
Qed.

(** Removing a file makes it absent. *)
Hypothesis removed_is_absent : forall st path st',
  Remove os st path = (st', true) ->
  Stat os st' path = dbauth.StatNotExist.

(** X25.  [delPidfile] undoes [setupPIDFile]: after a nil return with the
    pid written, and a removal that goes through, any process can set the
    pid file up again, whether or not the first one still runs.  Nothing
    is removed for the empty path. *)
Theorem delPidfile_allows_restart (pidfile : string) (st st1 : St)
    (pid2 : Z) :
  setupPIDFile os pidfile st = (Returned None, st1) ->
  snd (WriteFile os st pidfile (itoa (Getpid os st))) = true ->
  snd (Remove os st1 pidfile) = true ->
  pidfile <> "" ->
  let st2 := delPidfile os pidfile st1 in
  st2 = fst (Remove os st1 pidfile)
  /\ setupPIDFile (asProcess os pid2) pidfile st2 =
     (Returned None, fst (WriteFile os st2 pidfile (itoa pid2)))
  /\ delPidfile os "" st1 = st1.
Proof.
  intros H Hw Hrm Hne st2. destruct (setupPIDFile_wrote _ _ _ H Hw) as [Hr Hs].
  assert (E : st2 = fst (Remove os st1 pidfile)).
  { subst st2. unfold delPidfile.
    destruct pidfile; [congruence|]. cbn [config.isEmpty negb].
    replace (negb (config.isEmpty (String a pidfile))) with true
      by (symmetry; reflexivity).
    rewrite Hs. reflexivity. }
  split; [exact E|]. split; [|reflexivity].
  assert (Ha : Stat os st2 pidfile = dbauth.StatNotExist).
  { apply (removed_is_absent st1). rewrite E.
    destruct (Remove os st1 pidfile) as [s b]. cbn in *. congruence. }
  unfold setupPIDFile, writePid, asProcess. cbn [Stat ReadFile WriteFile Getpid].
  rewrite Ha. reflexivity.
Qed.

End PidFileLaws.

Lemma lookupFile_removed (fs : list (string * string)) (path : string) :
  lookupFile (filter (fun e => negb (String.eqb (fst e) path)) fs) path = None.
Proof.
  induction fs as [|[p d] fs IH]; [reflexivity|].
  cbn [filter fst]. destruct (String.eqb p path) eqn:E; cbn [negb].
  - exact IH.
  - cbn [lookupFile]. rewrite E. exact IH.
Qed.

Lemma listOS_written_is_read (pid : Z) :
  forall st path data st',
  pidfile.WriteFile (listOS pid) st path data = (st', true) ->
  pidfile.ReadFile (listOS pid) st' path = inr data
  /\ pidfile.Stat (listOS pid) st' path = dbauth.StatOK.
Proof.
  intros st path data st' [= <-]. cbn. rewrite String.eqb_refl. split; reflexivity.
Qed.

Lemma listOS_removed_is_absent (pid : Z) :
  forall st path st',
  pidfile.Remove (listOS pid) st path = (st', true) ->
  pidfile.Stat (listOS pid) st' path = dbauth.StatNotExist.
Proof.
  intros st path st' [= <-]. cbn [pidfile.Stat listOS].
  rewrite lookupFile_removed. reflexivity.
Qed.

Lemma setupPIDFile_excludes_second_instance_witness :
  let pidfile := "/var/run/ovnkube.pid" in
  let running := [("/proc/4242/cmdline", "ovnkube")] in
  let st1 := (pidfile, "4242") :: running in
  pidfile.setupPIDFile (listOS 4242) pidfile running = (pidfile.Returned None, st1)
  /\ pidfile.setupPIDFile (asProcess (listOS 4242) 4242) pidfile st1
     = (pidfile.Exited 1, st1)
  /\ pidfile.setupPIDFile (asProcess (listOS 4242) 77) pidfile
       [(pidfile, "4242")]
     = (pidfile.Returned None, [(pidfile, "77"); (pidfile, "4242")]).
Proof.
  intros pidfile running st1. split; [reflexivity|]. split.
  - exact (setupPIDFile_excludes_second_instance (listOS 4242)
             (listOS_written_is_read 4242) pidfile running st1 4242
             eq_refl eq_refl).
  - exact (setupPIDFile_excludes_second_instance (listOS 4242)
             (listOS_written_is_read 4242) pidfile [] [(pidfile, "4242")] 77
             eq_refl eq_refl).
Defined.

Lemma delPidfile_allows_restart_witness :
  let pidfile := "/var/run/ovnkube.pid" in
  let running := [("/proc/4242/cmdline", "ovnkube")] in
  pidfile.delPidfile (listOS 4242) pidfile ((pidfile, "4242") :: running)
  = running
  /\ pidfile.setupPIDFile (asProcess (listOS 4242) 77) pidfile
       (pidfile.delPidfile (listOS 4242) pidfile ((pidfile, "4242") :: running))
     = (pidfile.Returned None, (pidfile, "77") :: running).
Proof.
  intros pidfile running.
  destruct (delPidfile_allows_restart (listOS 4242)
              (listOS_written_is_read 4242) (listOS_removed_is_absent 4242)
              pidfile running ((pidfile, "4242") :: running) 77
              eq_refl eq_refl eq_refl ltac:(discriminate)) as (E & H & _).
  split; [exact E | exact H].
Defined.
